(** * X.509 certificate verification (x509_crt.c): a shallow embedding

    The development follows library/x509_crt.c: the BasicConstraints
    decoder, the DNS wildcard matcher, the host-name check, the parent
    search and the chain-building loop, and the flag merge with its verdict
    callback.

    Conventions.
    - A C [int] is a [Z] kept in the 32-bit signed range by [to_int];
      [unsigned] and [uint32_t] are kept in range by [to_uint32].
    - A byte is a [Z] in 0..255; a span [(p, len)] into a DER buffer is the
      list of the bytes it covers; a cursor pair [p], [end] is the list of
      the bytes that remain, so the test of [p] against [end] reads [p = []].
    - A pointer into a [next]-linked list of certificates is the suffix of
      the list that starts at the node; [NULL] is [[]].
    - The embedding is that of a build without MBEDTLS_ECDSA_C &&
      MBEDTLS_ECP_RESTARTABLE (the restart context is then unused), with
      MBEDTLS_X509_CRL_PARSE_C, MBEDTLS_X509_TRUSTED_CERTIFICATE_CALLBACK,
      MBEDTLS_RSA_C and MBEDTLS_ECP_C defined and without
      MBEDTLS_X509_RSASSA_PSS_SUPPORT and MBEDTLS_USE_PSA_CRYPTO;
      MBEDTLS_X509_CHECK_KEY_USAGE and MBEDTLS_X509_MAX_INTERMEDIATE_CA are
      parameters. *)

From Stdlib Require Import ZArith List Bool Lia String Ascii.
From stdpp Require Import base list.
Import ListNotations.
Open Scope Z_scope.

(** ** Machine integers *)

Definition INT_MAX : Z := 2147483647.
Definition INT_MIN : Z := -2147483648.

(** The value an [int] holds after a computation whose mathematical result
    is [z] (two's complement wrap-around). *)
Definition to_int (z : Z) : Z := (z + 2 ^ 31) mod 2 ^ 32 - 2 ^ 31.

(** The value an [unsigned] or [uint32_t] holds. *)
Definition to_uint32 (z : Z) : Z := z mod 2 ^ 32.

Definition bytes_of_string (s : string) : list Z :=
  map (fun c => Z.of_N (N_of_ascii c)) (list_ascii_of_string s).

(** ** Constants of the public headers

    The headers asn1.h, x509.h and x509_crt.h are not part of the sources
    at hand; the macros below carry the names used in x509_crt.c and the
    values of the library's public headers. *)

Definition MBEDTLS_ERR_ASN1_OUT_OF_DATA : Z := -96.        (* -0x0060 *)
Definition MBEDTLS_ERR_ASN1_UNEXPECTED_TAG : Z := -98.     (* -0x0062 *)
Definition MBEDTLS_ERR_ASN1_INVALID_LENGTH : Z := -100.    (* -0x0064 *)
Definition MBEDTLS_ERR_ASN1_LENGTH_MISMATCH : Z := -102.   (* -0x0066 *)

Definition MBEDTLS_ASN1_BOOLEAN : Z := 1.
Definition MBEDTLS_ASN1_INTEGER : Z := 2.
Definition MBEDTLS_ASN1_SEQUENCE : Z := 16.                (* 0x10 *)
Definition MBEDTLS_ASN1_CONSTRUCTED : Z := 32.             (* 0x20 *)
Definition MBEDTLS_ASN1_CONTEXT_SPECIFIC : Z := 128.       (* 0x80 *)
Definition MBEDTLS_ASN1_TAG_CLASS_MASK : Z := 192.         (* 0xC0 *)
Definition MBEDTLS_ASN1_TAG_VALUE_MASK : Z := 31.          (* 0x1F *)

Definition MBEDTLS_ERR_X509_CERT_VERIFY_FAILED : Z := -9984.  (* -0x2700 *)
Definition MBEDTLS_ERR_X509_BAD_INPUT_DATA : Z := -10240.     (* -0x2800 *)
Definition MBEDTLS_ERR_X509_FATAL_ERROR : Z := -12288.        (* -0x3000 *)

Definition MBEDTLS_X509_BADCERT_EXPIRED : Z := 1.
Definition MBEDTLS_X509_BADCERT_REVOKED : Z := 2.
Definition MBEDTLS_X509_BADCERT_CN_MISMATCH : Z := 4.
Definition MBEDTLS_X509_BADCERT_NOT_TRUSTED : Z := 8.
Definition MBEDTLS_X509_BADCRL_NOT_TRUSTED : Z := 16.
Definition MBEDTLS_X509_BADCRL_EXPIRED : Z := 32.
Definition MBEDTLS_X509_BADCERT_OTHER : Z := 256.
Definition MBEDTLS_X509_BADCERT_FUTURE : Z := 512.
Definition MBEDTLS_X509_BADCRL_FUTURE : Z := 1024.
Definition MBEDTLS_X509_BADCERT_BAD_MD : Z := 16384.
Definition MBEDTLS_X509_BADCERT_BAD_PK : Z := 32768.
Definition MBEDTLS_X509_BADCERT_BAD_KEY : Z := 65536.
Definition MBEDTLS_X509_BADCRL_BAD_MD : Z := 131072.
Definition MBEDTLS_X509_BADCRL_BAD_PK : Z := 262144.

Definition MBEDTLS_X509_KU_KEY_CERT_SIGN : Z := 4.
Definition MBEDTLS_X509_KU_CRL_SIGN : Z := 2.
Definition MBEDTLS_X509_KU_ENCIPHER_ONLY : Z := 1.
Definition MBEDTLS_X509_KU_DECIPHER_ONLY : Z := 32768.

Definition MBEDTLS_X509_EXT_KEY_USAGE : Z := 4.            (* 1 << 2 *)
Definition MBEDTLS_X509_EXT_SUBJECT_ALT_NAME : Z := 32.    (* 1 << 5 *)
Definition MBEDTLS_X509_EXT_BASIC_CONSTRAINTS : Z := 256.  (* 1 << 8 *)

Definition MBEDTLS_MD_NONE : Z := 0.
Definition MBEDTLS_PK_NONE : Z := 0.
Definition MBEDTLS_PK_RSA : Z := 1.
Definition MBEDTLS_PK_ECKEY : Z := 2.
Definition MBEDTLS_PK_ECKEY_DH : Z := 3.
Definition MBEDTLS_PK_ECDSA : Z := 4.
Definition MBEDTLS_PK_RSASSA_PSS : Z := 6.
Definition MBEDTLS_ECP_DP_NONE : Z := 0.

(** [MBEDTLS_X509_ID_FLAG( id )], that is [1 << ( id - 1 )]. *)
Definition MBEDTLS_X509_ID_FLAG (id : Z) : Z := Z.shiftl 1 (id - 1).

(** ** Interfaces of the collaborators

    x509_crt.c calls into asn1parse.c, x509.c, pk.c and md.c, none of which
    is among the sources at hand.  Each is an interface here; the functions
    of x509_crt.c are written against the interfaces, and the theorems hold
    for every implementation of them. *)

(** What a reader leaves behind: its return code, the value it wrote through
    its output pointer (if it wrote one) and the cursor. *)
Record asn1_read (A : Type) : Type := AsnRead {
  rd_ret : Z;
  rd_out : option A;
  rd_p : list Z
}.
Arguments AsnRead {A} _ _ _.
Arguments rd_ret {A} _.
Arguments rd_out {A} _.
Arguments rd_p {A} _.

(** The callback of the sequence-of traversal: [cb( ctx, tag, start, len )]
    with [ctx] captured. *)
Definition asn1_traverse_cb : Type := Z -> list Z -> Z.

Class Asn1Parse : Type := {
  (* int mbedtls_asn1_get_tag( p, end, &len, tag ) *)
  mbedtls_asn1_get_tag : list Z -> Z -> asn1_read nat;
  (* int mbedtls_asn1_get_bool( p, end, &val ) *)
  mbedtls_asn1_get_bool : list Z -> asn1_read Z;
  (* int mbedtls_asn1_get_int( p, end, &val ) *)
  mbedtls_asn1_get_int : list Z -> asn1_read Z;
  (* int mbedtls_asn1_traverse_sequence_of( p, end, tag_must_mask,
         tag_must_val, tag_may_mask, tag_may_val, cb, ctx ) *)
  mbedtls_asn1_traverse_sequence_of :
    list Z -> Z -> Z -> Z -> Z -> option asn1_traverse_cb -> Z
}.

(** The abort callback of the name comparison:
    [cb( ctx, oid, val, next_merged )] with [ctx] captured. *)
Definition x509_name_cb : Type := list Z -> list Z -> Z -> Z.

Record mbedtls_x509_time : Type := {
  year : Z; mon : Z; day : Z; hour : Z; min : Z; sec : Z
}.

Class X509Core : Type := {
  (* int mbedtls_x509_memcasecmp( s1, s2, len1, len2 ); [s1] and [s2] are
     the bytes from the two pointers to the ends of their buffers *)
  mbedtls_x509_memcasecmp : list Z -> list Z -> nat -> nat -> Z;
  (* int mbedtls_x509_name_cmp_raw( a, b, abort_check, abort_check_ctx ) *)
  mbedtls_x509_name_cmp_raw : list Z -> list Z -> option x509_name_cb -> Z;
  (* int mbedtls_x509_time_is_past( to ), nonzero read as true *)
  mbedtls_x509_time_is_past : mbedtls_x509_time -> bool;
  (* int mbedtls_x509_time_is_future( from ), nonzero read as true *)
  mbedtls_x509_time_is_future : mbedtls_x509_time -> bool
}.

(** ** The BasicConstraints decoder *)

(** The state [x509_get_basic_constraints] leaves: its return code, the
    cursor and the two output parameters. *)
Record basic_constraints_result : Type := {
  bc_ret : Z;
  bc_p : list Z;
  bc_ca_istrue : Z;
  bc_max_pathlen : Z
}.

Definition written {A : Type} (old : A) (w : option A) : A :=
  match w with Some v => v | None => old end.

Definition x509_get_basic_constraints `{Asn1Parse} (p : list Z)
  : basic_constraints_result :=
  let ca_istrue := 0 in                       (* DEFAULT FALSE *)
  let max_pathlen := 0 in                     (* endless *)
  let r := mbedtls_asn1_get_tag p
             (Z.lor MBEDTLS_ASN1_CONSTRUCTED MBEDTLS_ASN1_SEQUENCE) in
  if negb (rd_ret r =? 0) then
    Build_basic_constraints_result (rd_ret r) (rd_p r) ca_istrue max_pathlen
  else
  let p := rd_p r in
  match p with
  | [] => Build_basic_constraints_result 0 p ca_istrue max_pathlen
  | _ :: _ =>
    let rb := mbedtls_asn1_get_bool p in
    let ca_istrue := written ca_istrue (rd_out rb) in
    let p := rd_p rb in
    (* the body of [if( ( ret = get_bool ) != 0 )] *)
    let after_ca : Z * Z * list Z :=
      if negb (rd_ret rb =? 0) then
        if rd_ret rb =? MBEDTLS_ERR_ASN1_UNEXPECTED_TAG then
          let ri := mbedtls_asn1_get_int p in
          let ca_istrue := written ca_istrue (rd_out ri) in
          if negb (rd_ret ri =? 0) then (rd_ret ri, ca_istrue, rd_p ri)
          else (0, if negb (ca_istrue =? 0) then 1 else ca_istrue, rd_p ri)
        else (rd_ret rb, ca_istrue, p)
      else (0, ca_istrue, p) in
    let '(ret, ca_istrue, p) := after_ca in
    if negb (ret =? 0) then
      Build_basic_constraints_result ret p ca_istrue max_pathlen
    else
    match p with
    | [] => Build_basic_constraints_result 0 p ca_istrue max_pathlen
    | _ :: _ =>
      let rl := mbedtls_asn1_get_int p in
      let max_pathlen := written max_pathlen (rd_out rl) in
      let p := rd_p rl in
      if negb (rd_ret rl =? 0) then
        Build_basic_constraints_result (rd_ret rl) p ca_istrue max_pathlen
      else
      match p with
      | _ :: _ =>
        Build_basic_constraints_result MBEDTLS_ERR_ASN1_LENGTH_MISMATCH
          p ca_istrue max_pathlen
      | [] =>
        (* max_pathlen is incremented *)
        Build_basic_constraints_result 0 p ca_istrue (to_int (max_pathlen + 1))
      end
    end
  end.

(** ** The DNS wildcard matcher *)

(** The loop of [x509_check_wildcard]: the index of the first ['.'] of
    [cn], counted from [i], and [0] (the initial [cn_idx]) when there is
    none. *)
Fixpoint x509_check_wildcard_scan (cn : list Z) (i : nat) : nat :=
  match cn with
  | [] => 0%nat
  | c :: rest =>
    if c =? 46 then i else x509_check_wildcard_scan rest (S i)
  end.

Definition x509_check_wildcard `{X509Core} (cn buf : list Z) : Z :=
  (* We can't have a match if there is no wildcard to match *)
  if (length buf <? 3)%nat
     || negb (nth 0 buf 0 =? 42)   (* the star *)
     || negb (nth 1 buf 0 =? 46)   (* the dot *)
  then -1
  else
    let cn_idx := x509_check_wildcard_scan cn 0 in
    if (cn_idx =? 0)%nat then -1
    else if mbedtls_x509_memcasecmp (skipn 1 buf) (skipn cn_idx cn)
              (length buf - 1) (length cn - cn_idx) =? 0
         then 0
         else -1.

(** Check for CN match. *)
Definition x509_crt_check_cn `{X509Core} (buf cn : list Z) : Z :=
  (* Try exact match *)
  if mbedtls_x509_memcasecmp cn buf (length buf) (length cn) =? 0 then 0
  (* try wildcard match *)
  else if x509_check_wildcard cn buf =? 0 then 0
  else -1.

(** ** Certificates, frames, keys and profiles *)

Record mbedtls_x509_crt_profile : Type := {
  allowed_mds : Z;      (* MDs for signatures *)
  allowed_pks : Z;      (* PK algs for signatures *)
  allowed_curves : Z;   (* Elliptic curves for ECDSA *)
  rsa_min_bitlen : Z    (* Minimum size for RSA keys *)
}.

(** What x509_crt.c reads of a public-key context: [mbedtls_pk_get_type],
    [mbedtls_pk_get_bitlen], [mbedtls_pk_ec( pk )->grp.id], and the key
    itself, which only the verification primitive looks into. *)
Record mbedtls_pk_context : Type := {
  pk_get_type : Z;
  pk_get_bitlen : Z;
  pk_ec_grp_id : Z;
  pk_key : list Z
}.

Class PkMd : Type := {
  (* int mbedtls_pk_can_do( ctx, type ), nonzero read as true *)
  mbedtls_pk_can_do : mbedtls_pk_context -> Z -> bool;
  (* int mbedtls_pk_verify_ext( type, options, ctx, md_alg, hash, hash_len,
                                sig, sig_len ), options being NULL *)
  mbedtls_pk_verify_ext :
    Z -> mbedtls_pk_context -> Z -> list Z -> list Z -> Z;
  (* int mbedtls_md( mbedtls_md_info_from_type( md ), input, ilen, output ):
     the digest written, [None] for a nonzero return *)
  mbedtls_md : Z -> list Z -> option (list Z)
}.

Class Config : Type := {
  MBEDTLS_X509_MAX_INTERMEDIATE_CA : nat;
  (* whether MBEDTLS_X509_CHECK_KEY_USAGE is defined *)
  MBEDTLS_X509_CHECK_KEY_USAGE : bool
}.

(** Max size of verification chain: end-entity + intermediates + trusted
    root. *)
Definition X509_MAX_VERIFY_CHAIN_SIZE `{Config} : nat :=
  (MBEDTLS_X509_MAX_INTERMEDIATE_CA + 2)%nat.

(** The fields of [mbedtls_x509_crt_frame] that verification reads. *)
Record mbedtls_x509_crt_frame : Type := {
  version : Z;
  sig_md : Z;
  sig_pk : Z;
  valid_from : mbedtls_x509_time;
  valid_to : mbedtls_x509_time;
  raw : list Z;
  tbs : list Z;
  serial : list Z;
  issuer_raw : list Z;
  subject_raw : list Z;
  sig : list Z;
  subject_alt_raw : list Z;
  ca_istrue : Z;
  max_pathlen : Z;
  ext_types : Z;
  key_usage : Z
}.

(** A certificate: its DER, and what [mbedtls_x509_crt_frame_acquire] and
    [mbedtls_x509_crt_pk_acquire] hand out for it; [None] stands for a
    nonzero return of the acquisition (a mutex error, a failed allocation,
    a failed on-demand parse). *)
Record mbedtls_x509_crt : Type := {
  crt_raw : list Z;
  crt_frame : option mbedtls_x509_crt_frame;
  crt_pk : option mbedtls_pk_context
}.

Definition crt_ptr : Type := list mbedtls_x509_crt.

Record mbedtls_x509_crl_entry : Type := {
  entry_serial : list Z;
  revocation_date : mbedtls_x509_time
}.

Record mbedtls_x509_crl : Type := {
  crl_version : Z;
  crl_issuer_raw : list Z;
  crl_tbs : list Z;
  crl_sig : list Z;
  crl_sig_md : Z;
  crl_sig_pk : Z;
  this_update : mbedtls_x509_time;
  next_update : mbedtls_x509_time;
  crl_entry : list mbedtls_x509_crl_entry
}.

(** Default profile (without MBEDTLS_TLS_DEFAULT_ALLOW_SHA1_IN_CERTIFICATES):
    SHA-224 to SHA-512, any PK alg, any curve, RSA from 2048 bits. *)
Definition mbedtls_x509_crt_profile_default : mbedtls_x509_crt_profile := {|
  allowed_mds :=
    Z.lor (Z.lor (Z.lor (MBEDTLS_X509_ID_FLAG 5) (MBEDTLS_X509_ID_FLAG 6))
                 (MBEDTLS_X509_ID_FLAG 7))
          (MBEDTLS_X509_ID_FLAG 8);
  allowed_pks := 268435455;     (* 0xFFFFFFF *)
  allowed_curves := 268435455;  (* 0xFFFFFFF *)
  rsa_min_bitlen := 2048
|}.

(** Check md_alg against profile: 0 if acceptable, -1 otherwise. *)
Definition x509_profile_check_md_alg (profile : mbedtls_x509_crt_profile)
    (md_alg : Z) : Z :=
  if md_alg =? MBEDTLS_MD_NONE then -1
  else if negb (Z.land (allowed_mds profile) (MBEDTLS_X509_ID_FLAG md_alg) =? 0)
       then 0
       else -1.

(** Check pk_alg against profile: 0 if acceptable, -1 otherwise. *)
Definition x509_profile_check_pk_alg (profile : mbedtls_x509_crt_profile)
    (pk_alg : Z) : Z :=
  if pk_alg =? MBEDTLS_PK_NONE then -1
  else if negb (Z.land (allowed_pks profile) (MBEDTLS_X509_ID_FLAG pk_alg) =? 0)
       then 0
       else -1.

(** Check key against profile: 0 if acceptable, -1 otherwise. *)
Definition x509_profile_check_key (profile : mbedtls_x509_crt_profile)
    (pk : mbedtls_pk_context) : Z :=
  let pk_alg := pk_get_type pk in
  if (pk_alg =? MBEDTLS_PK_RSA) || (pk_alg =? MBEDTLS_PK_RSASSA_PSS) then
    if rsa_min_bitlen profile <=? pk_get_bitlen pk then 0 else -1
  else if (pk_alg =? MBEDTLS_PK_ECDSA) || (pk_alg =? MBEDTLS_PK_ECKEY)
          || (pk_alg =? MBEDTLS_PK_ECKEY_DH) then
    let gid := pk_ec_grp_id pk in
    if gid =? MBEDTLS_ECP_DP_NONE then -1
    else if negb (Z.land (allowed_curves profile) (MBEDTLS_X509_ID_FLAG gid) =? 0)
         then 0
         else -1
  else -1.

(** The BasicConstraints case of [x509_crt_get_ext_cb]: the decoder runs on
    two local ints, which are then stored in the frame. *)
Definition x509_crt_get_ext_cb_basic_constraints `{Asn1Parse}
    (frame : mbedtls_x509_crt_frame) (p : list Z)
  : Z * mbedtls_x509_crt_frame :=
  let r := x509_get_basic_constraints p in
  if negb (bc_ret r =? 0) then (bc_ret r, frame)
  else (0, {| version := version frame; sig_md := sig_md frame;
              sig_pk := sig_pk frame; valid_from := valid_from frame;
              valid_to := valid_to frame; raw := raw frame; tbs := tbs frame;
              serial := serial frame; issuer_raw := issuer_raw frame;
              subject_raw := subject_raw frame; sig := sig frame;
              subject_alt_raw := subject_alt_raw frame;
              ca_istrue := bc_ca_istrue r;
              max_pathlen := bc_max_pathlen r;
              ext_types := ext_types frame; key_usage := key_usage frame |}).

(** The pathlen constraint shown to the user ([mbedtls_x509_crt_info] prints
    [max_pathlen - 1], and only when [max_pathlen > 0]). *)
Definition x509_info_pathlen (frame : mbedtls_x509_crt_frame) : option Z :=
  if 0 <? max_pathlen frame then Some (max_pathlen frame - 1) else None.

(** ** Key usage and parenthood *)

Definition x509_crt_check_key_usage_frame (crt : mbedtls_x509_crt_frame)
    (usage : Z) : Z :=
  let may_mask :=
    Z.lor MBEDTLS_X509_KU_ENCIPHER_ONLY MBEDTLS_X509_KU_DECIPHER_ONLY in
  let not_may_mask := to_uint32 (Z.lnot may_mask) in
  if Z.land (ext_types crt) MBEDTLS_X509_EXT_KEY_USAGE =? 0 then 0
  else
    let usage_must := Z.land usage not_may_mask in
    if negb (Z.land (Z.land (key_usage crt) not_may_mask) usage_must
             =? usage_must)
    then MBEDTLS_ERR_X509_BAD_INPUT_DATA
    else
      let usage_may := Z.land usage may_mask in
      if negb (Z.lor (Z.land (key_usage crt) may_mask) usage_may =? usage_may)
      then MBEDTLS_ERR_X509_BAD_INPUT_DATA
      else 0.

Record mbedtls_x509_crt_sig_info : Type := {
  si_sig_md : Z;
  si_sig_pk : Z;
  si_crt_hash : list Z;
  si_sig : list Z;
  si_issuer_raw : list Z
}.

Definition x509_crt_get_sig_info `{PkMd} (frame : mbedtls_x509_crt_frame)
  : Z * option mbedtls_x509_crt_sig_info :=
  match mbedtls_md (sig_md frame) (tbs frame) with
  | None => (-1, None)   (* this can't happen except after an internal error *)
  | Some hash =>
    (0, Some {| si_sig_md := sig_md frame; si_sig_pk := sig_pk frame;
                si_crt_hash := hash; si_sig := sig frame;
                si_issuer_raw := issuer_raw frame |})
  end.

(** Check the signature of a certificate by its parent. *)
Definition x509_crt_check_signature `{PkMd}
    (sig_info : mbedtls_x509_crt_sig_info) (parent : mbedtls_x509_crt) : Z :=
  match crt_pk parent with
  | None => MBEDTLS_ERR_X509_FATAL_ERROR
  | Some pk =>
    (* Skip expensive computation on obvious mismatch *)
    if negb (mbedtls_pk_can_do pk (si_sig_pk sig_info)) then -1
    else mbedtls_pk_verify_ext (si_sig_pk sig_info) pk (si_sig_md sig_info)
           (si_crt_hash sig_info) (si_sig sig_info)
  end.

(** Check if 'parent' is a suitable parent (signing CA) for 'child':
    0 if yes, -1 if not; top means parent is a locally-trusted
    certificate. *)
Definition x509_crt_check_parent `{X509Core} `{Config}
    (sig_info : mbedtls_x509_crt_sig_info) (parent : mbedtls_x509_crt_frame)
    (top : bool) : Z :=
  (* Parent must be the issuer *)
  if negb (mbedtls_x509_name_cmp_raw (si_issuer_raw sig_info)
             (subject_raw parent) None =? 0)
  then -1
  else
    (* Parent must have the basicConstraints CA bit set as a general rule;
       exception: v1/v2 certificates that are locally trusted. *)
    let need_ca_bit := negb (top && (version parent <? 3)) in
    if need_ca_bit && (ca_istrue parent =? 0) then -1
    else if MBEDTLS_X509_CHECK_KEY_USAGE && need_ca_bit
            && negb (x509_crt_check_key_usage_frame parent
                       MBEDTLS_X509_KU_KEY_CERT_SIGN =? 0)
    then -1
    else 0.

(** ** Finding a parent *)

(** What can go wrong below the level of return codes. *)
Inductive fault : Type :=
| UninitialisedRead   (* a local is read before anything was stored in it *)
| NullDereference     (* a NULL certificate pointer is dereferenced *)
| ChainOverflow       (* an access beyond the items of the verify chain *)
| LoopBudget.         (* the loop budget of the embedding ran out *)

Inductive outcome (A : Type) : Type :=
| Returns (a : A)
| Faults (f : fault).
Arguments Returns {A} _.
Arguments Faults {A} _.

(** The three locals that [x509_crt_find_parent_in] computes while it holds
    the frame of a candidate. *)
Definition find_parent_in_parent_valid `{X509Core}
    (parent : mbedtls_x509_crt_frame) : bool :=
  mbedtls_x509_time_is_past (valid_from parent)
  && mbedtls_x509_time_is_future (valid_to parent).

(** basic parenting skills (name, CA bit, key usage) *)
Definition find_parent_in_parent_match `{X509Core} `{Config}
    (child_sig : mbedtls_x509_crt_sig_info) (parent : mbedtls_x509_crt_frame)
    (top : bool) : bool :=
  x509_crt_check_parent child_sig parent top =? 0.

(** +1 because the stored max_pathlen is 1 higher than the actual value.
    [path_cnt] and [self_cnt] are [unsigned], so is [1 + path_cnt -
    self_cnt]; the cast of [max_pathlen] to [size_t] is evaluated only
    when [max_pathlen > 0], where it changes nothing. *)
Definition find_parent_in_path_len_ok (parent : mbedtls_x509_crt_frame)
    (path_cnt self_cnt : Z) : bool :=
  negb ((0 <? max_pathlen parent)
        && (max_pathlen parent <? to_uint32 (1 + path_cnt - self_cnt))).

(** What a call leaves: the return code and, when the function came to
    store them, [*r_parent] and [*r_signature_is_good]. *)
Record find_parent_in_result : Type := {
  fpi_ret : Z;
  fpi_out : option (crt_ptr * bool)
}.

(** The [for] loop of [x509_crt_find_parent_in] from [parent_crt] on, with
    the fallback found so far. *)
Fixpoint x509_crt_find_parent_in_from `{X509Core} `{Config} `{PkMd}
    (child_sig : mbedtls_x509_crt_sig_info) (parent_crt : crt_ptr)
    (top : bool) (path_cnt self_cnt : Z)
    (fallback_parent : crt_ptr) (fallback_signature_is_good : bool)
  : find_parent_in_result :=
  match parent_crt with
  | [] =>
    {| fpi_ret := 0;
       fpi_out := Some (fallback_parent, fallback_signature_is_good) |}
  | c :: next =>
    match crt_frame c with
    | None => {| fpi_ret := MBEDTLS_ERR_X509_FATAL_ERROR; fpi_out := None |}
    | Some parent =>
      let parent_valid := find_parent_in_parent_valid parent in
      let parent_match := find_parent_in_parent_match child_sig parent top in
      let path_len_ok := find_parent_in_path_len_ok parent path_cnt self_cnt in
      if negb parent_match || negb path_len_ok then
        x509_crt_find_parent_in_from child_sig next top path_cnt self_cnt
          fallback_parent fallback_signature_is_good
      else
        (* Signature *)
        let ret := x509_crt_check_signature child_sig c in
        let signature_is_good := ret =? 0 in
        if top && negb signature_is_good then
          x509_crt_find_parent_in_from child_sig next top path_cnt self_cnt
            fallback_parent fallback_signature_is_good
        else if negb parent_valid then
          (* optional time check *)
          match fallback_parent with
          | [] =>
            x509_crt_find_parent_in_from child_sig next top path_cnt self_cnt
              parent_crt signature_is_good
          | _ :: _ =>
            x509_crt_find_parent_in_from child_sig next top path_cnt self_cnt
              fallback_parent fallback_signature_is_good
          end
        else
          {| fpi_ret := 0; fpi_out := Some (parent_crt, signature_is_good) |}
    end
  end.

Definition x509_crt_find_parent_in `{X509Core} `{Config} `{PkMd}
    (child_sig : mbedtls_x509_crt_sig_info) (candidates : crt_ptr)
    (top : bool) (path_cnt self_cnt : Z) : find_parent_in_result :=
  x509_crt_find_parent_in_from child_sig candidates top path_cnt self_cnt
    [] false.

(** The outputs of [x509_crt_find_parent]. *)
Record find_parent_result : Type := {
  fp_parent : crt_ptr;
  fp_parent_is_trusted : bool;
  fp_signature_is_good : option bool   (* [None]: nothing stored yet *)
}.

(** Find a parent in trusted CAs or the provided chain, or return NULL.
    [parent] and [signature_is_good] are what the caller's variables hold
    on entry, [None] when nothing was stored in them yet.  The return code
    of [x509_crt_find_parent_in] is dropped, the function returns 0. *)
Definition x509_crt_find_parent `{X509Core} `{Config} `{PkMd}
    (child_sig : mbedtls_x509_crt_sig_info) (rest trust_ca : crt_ptr)
    (parent : option crt_ptr) (signature_is_good : option bool)
    (path_cnt self_cnt : Z) : outcome find_parent_result :=
  let store (r : find_parent_in_result)
            (ps : option crt_ptr * option bool) :=
    match fpi_out r with
    | Some (p, s) => (Some p, Some s)
    | None => ps
    end in
  (* first iteration: the trusted CAs *)
  let r1 := x509_crt_find_parent_in child_sig trust_ca true path_cnt self_cnt in
  let '(parent, signature_is_good) := store r1 (parent, signature_is_good) in
  match parent with
  | None => Faults UninitialisedRead
  | Some ((_ :: _) as p) =>
    (* stop here if found *)
    Returns {| fp_parent := p; fp_parent_is_trusted := true;
               fp_signature_is_good := signature_is_good |}
  | Some [] =>
    (* second iteration: the rest of the chain *)
    let r2 := x509_crt_find_parent_in child_sig rest false path_cnt self_cnt in
    let '(parent, signature_is_good) := store r2 (parent, signature_is_good) in
    match parent with
    | None => Faults UninitialisedRead
    | Some [] =>
      (* extra precaution against mistakes in the caller *)
      Returns {| fp_parent := []; fp_parent_is_trusted := false;
                 fp_signature_is_good := Some false |}
    | Some ((_ :: _) as p) =>
      Returns {| fp_parent := p; fp_parent_is_trusted := false;
                 fp_signature_is_good := signature_is_good |}
    end
  end.

(** [memcmp( a, b, len ) == 0] on two spans of the same length, and the
    length test that precedes it. *)
Fixpoint bytes_eqb (a b : list Z) : bool :=
  match a, b with
  | [], [] => true
  | x :: a', y :: b' => (x =? y) && bytes_eqb a' b'
  | _, _ => false
  end.

(** Check if an end-entity certificate is locally trusted: look for an
    exact match with a trusted cert. *)
Fixpoint x509_crt_check_ee_locally_trusted (crt : mbedtls_x509_crt_frame)
    (trust_ca : crt_ptr) : Z :=
  match trust_ca with
  | [] => -1   (* too bad *)
  | cur :: next =>
    if (length (raw crt) =? length (crt_raw cur))%nat
       && bytes_eqb (raw crt) (crt_raw cur)
    then 0
    else x509_crt_check_ee_locally_trusted crt next
  end.

(** ** Revocation lists *)

(** Return 1 if the certificate is revoked, or 0 otherwise.  The walk over
    the entries ends at the first one with an empty serial. *)
Fixpoint x509_serial_is_revoked `{X509Core} (serial : list Z)
    (entries : list mbedtls_x509_crl_entry) : Z :=
  match entries with
  | [] => 0
  | cur :: next =>
    if (length (entry_serial cur) =? 0)%nat then 0
    else if (length serial =? length (entry_serial cur))%nat
            && bytes_eqb serial (entry_serial cur)
            && mbedtls_x509_time_is_past (revocation_date cur)
    then 1
    else x509_serial_is_revoked serial next
  end.

(** The [while] loop of [x509_crt_verifycrl]. *)
Fixpoint x509_crt_verifycrl_loop `{X509Core} `{Config} `{PkMd}
    (crt_serial ca_subject : list Z) (can_sign : bool)
    (pk : mbedtls_pk_context) (crl_list : list mbedtls_x509_crl)
    (profile : mbedtls_x509_crt_profile) (flags : Z) : Z :=
  match crl_list with
  | [] => flags
  | crl :: next =>
    if (crl_version crl =? 0)
       || negb (mbedtls_x509_name_cmp_raw (crl_issuer_raw crl) ca_subject None
                =? 0)
    then x509_crt_verifycrl_loop crt_serial ca_subject can_sign pk next
           profile flags
    else
    (* Check if the CA is configured to sign CRLs *)
    if MBEDTLS_X509_CHECK_KEY_USAGE && negb can_sign
    then Z.lor flags MBEDTLS_X509_BADCRL_NOT_TRUSTED
    else
    (* Check if CRL is correctly signed by the trusted CA *)
    let flags :=
      if negb (x509_profile_check_md_alg profile (crl_sig_md crl) =? 0)
      then Z.lor flags MBEDTLS_X509_BADCRL_BAD_MD else flags in
    let flags :=
      if negb (x509_profile_check_pk_alg profile (crl_sig_pk crl) =? 0)
      then Z.lor flags MBEDTLS_X509_BADCRL_BAD_PK else flags in
    match mbedtls_md (crl_sig_md crl) (crl_tbs crl) with
    | None =>
      (* this can't happen except after an internal error *)
      Z.lor flags MBEDTLS_X509_BADCRL_NOT_TRUSTED
    | Some hash =>
      let flags :=
        if negb (x509_profile_check_key profile pk =? 0)
        then Z.lor flags MBEDTLS_X509_BADCERT_BAD_KEY else flags in
      if negb (mbedtls_pk_verify_ext (crl_sig_pk crl) pk (crl_sig_md crl)
                 hash (crl_sig crl) =? 0)
      then Z.lor flags MBEDTLS_X509_BADCRL_NOT_TRUSTED
      else
        (* Check for validity of CRL (Do not drop out) *)
        let flags :=
          if mbedtls_x509_time_is_past (next_update crl)
          then Z.lor flags MBEDTLS_X509_BADCRL_EXPIRED else flags in
        let flags :=
          if mbedtls_x509_time_is_future (this_update crl)
          then Z.lor flags MBEDTLS_X509_BADCRL_FUTURE else flags in
        (* Check if certificate is revoked *)
        if negb (x509_serial_is_revoked crt_serial (crl_entry crl) =? 0)
        then Z.lor flags MBEDTLS_X509_BADCERT_REVOKED
        else x509_crt_verifycrl_loop crt_serial ca_subject can_sign pk next
               profile flags
    end
  end.

(** Check that the given certificate is not revoked according to the CRL.
    Skip validation if no CRL for the given CA is present. *)
Definition x509_crt_verifycrl `{X509Core} `{Config} `{PkMd}
    (crt_serial : list Z) (ca_crt : crt_ptr)
    (crl_list : list mbedtls_x509_crl) (profile : mbedtls_x509_crt_profile)
  : Z :=
  match ca_crt with
  | [] => 0
  | ca_crt :: _ =>
    match crt_frame ca_crt with
    | None => MBEDTLS_X509_BADCRL_NOT_TRUSTED
    | Some ca =>
      let ca_subject := subject_raw ca in
      let can_sign :=
        x509_crt_check_key_usage_frame ca MBEDTLS_X509_KU_CRL_SIGN =? 0 in
      match crt_pk ca_crt with
      | None => MBEDTLS_X509_BADCRL_NOT_TRUSTED
      | Some pk =>
        x509_crt_verifycrl_loop crt_serial ca_subject can_sign pk crl_list
          profile 0
      end
    end
  end.

(** ** The verify chain *)

(** Item in a verification chain: cert and flags for it. *)
Record mbedtls_x509_crt_verify_chain_item : Type := {
  item_crt : crt_ptr;
  item_flags : Z
}.

(** The chain: a fixed array of items and the number of them in use. *)
Record mbedtls_x509_crt_verify_chain : Type := {
  items : list mbedtls_x509_crt_verify_chain_item;
  len : nat;
  trust_ca_cb_result : crt_ptr
}.

(** Reset (init or clear) a verify_chain. *)
Definition x509_crt_verify_chain_reset `{Config}
  : mbedtls_x509_crt_verify_chain :=
  {| items := replicate X509_MAX_VERIFY_CHAIN_SIZE
                {| item_crt := []; item_flags := to_uint32 (-1) |};
     len := 0;
     trust_ca_cb_result := [] |}.

(** [cur = &ver_chain->items[ver_chain->len]; cur->crt = child_crt;
    cur->flags = 0; ver_chain->len++;].  A store beyond the array has no
    defined meaning: it is the fault [ChainOverflow]. *)
Definition verify_chain_add (ver_chain : mbedtls_x509_crt_verify_chain)
    (child_crt : crt_ptr) : outcome mbedtls_x509_crt_verify_chain :=
  if (len ver_chain <? length (items ver_chain))%nat then
    Returns {| items := <[len ver_chain :=
                            {| item_crt := child_crt; item_flags := 0 |}]>
                          (items ver_chain);
               len := S (len ver_chain);
               trust_ca_cb_result := trust_ca_cb_result ver_chain |}
  else Faults ChainOverflow.

(** A store through [flags = &cur->flags], [cur] being item [i]. *)
Definition verify_chain_set_flags (ver_chain : mbedtls_x509_crt_verify_chain)
    (i : nat) (flags : Z) : mbedtls_x509_crt_verify_chain :=
  {| items := alter (fun it => {| item_crt := item_crt it;
                                  item_flags := flags |}) i (items ver_chain);
     len := len ver_chain;
     trust_ca_cb_result := trust_ca_cb_result ver_chain |}.

Definition verify_chain_set_cb_result
    (ver_chain : mbedtls_x509_crt_verify_chain) (res : crt_ptr)
  : mbedtls_x509_crt_verify_chain :=
  {| items := items ver_chain; len := len ver_chain;
     trust_ca_cb_result := res |}.

(** The trusted-CA callback [f_ca_cb( p_ca_cb, child, &candidates )] with
    its context captured: the return code and the list it hands out. *)
Definition mbedtls_x509_crt_ca_cb_t : Type := crt_ptr -> Z * crt_ptr.

(** The locals of [x509_crt_verify_chain] that live across iterations of
    its loop.  [parent_crt] and [signature_is_good] hold nothing ([None])
    until the first store. *)
Record verify_chain_state : Type := {
  vs_chain : mbedtls_x509_crt_verify_chain;
  vs_child_crt : crt_ptr;
  vs_parent_crt : option crt_ptr;
  vs_child_is_trusted : bool;
  vs_signature_is_good : option bool;
  vs_self_cnt : Z
}.

(** How one pass through the loop body ends. *)
Inductive verify_chain_step_result : Type :=
| StepReturn (ret : Z) (ver_chain : mbedtls_x509_crt_verify_chain)
| StepNext (st : verify_chain_state).

(** What the first half of a pass hands to the second: the chain with the
    child stored in it, the flags gathered for the child so far, the locals
    [self_issued] and [child_serial], and the outputs of
    [x509_crt_find_parent]. *)
Record verify_chain_search : Type := {
  sr_chain : mbedtls_x509_crt_verify_chain;
  sr_flags : Z;
  sr_self_issued : bool;
  sr_child_serial : list Z;
  sr_found : find_parent_result
}.

Inductive verify_chain_search_result : Type :=
| SearchReturn (ret : Z) (ver_chain : mbedtls_x509_crt_verify_chain)
| SearchDone (sr : verify_chain_search).

(** The body of the [while( 1 )] of [x509_crt_verify_chain], from its top
    through the call of [x509_crt_find_parent]. *)
Definition x509_crt_verify_chain_search `{X509Core} `{Config} `{PkMd}
    (trust_ca : crt_ptr) (f_ca_cb : option mbedtls_x509_crt_ca_cb_t)
    (profile : mbedtls_x509_crt_profile) (st : verify_chain_state)
  : outcome verify_chain_search_result :=
  let child_crt := vs_child_crt st in
  (* Add certificate to the verification chain *)
  match verify_chain_add (vs_chain st) child_crt with
  | Faults f => Faults f
  | Returns ver_chain =>
  let cur := (len ver_chain - 1)%nat in
  (* Obtain list of potential trusted signers from CA callback,
     or use statically provided list. *)
  let ca :=
    match f_ca_cb with
    | Some cb =>
      let '(ret, res) := cb child_crt in
      (ret, verify_chain_set_cb_result ver_chain res, res)
    | None => (0, ver_chain, trust_ca)
    end in
  let '(ret, ver_chain, cur_trust_ca) := ca in
  if negb (ret =? 0) then
    Returns (SearchReturn MBEDTLS_ERR_X509_FATAL_ERROR ver_chain)
  else
  let leave (ret : Z) (flags : Z) :=
    Returns (SearchReturn ret (verify_chain_set_flags ver_chain cur flags)) in
  let flags := 0 in
  match child_crt with
  | [] => Faults NullDereference
  | child_c :: child_next =>
  match crt_frame child_c with
  | None => leave MBEDTLS_ERR_X509_FATAL_ERROR flags
  | Some child =>
  (* Check time-validity (all certificates) *)
  let flags := if mbedtls_x509_time_is_past (valid_to child)
               then Z.lor flags MBEDTLS_X509_BADCERT_EXPIRED else flags in
  let flags := if mbedtls_x509_time_is_future (valid_from child)
               then Z.lor flags MBEDTLS_X509_BADCERT_FUTURE else flags in
  (* Stop here for trusted roots (but not for trusted EE certs) *)
  if vs_child_is_trusted st then leave 0 flags
  else
  let self_issued :=
    mbedtls_x509_name_cmp_raw (issuer_raw child) (subject_raw child) None
    =? 0 in
  (* Check signature algorithm: MD & PK algs *)
  let flags := if negb (x509_profile_check_md_alg profile (sig_md child) =? 0)
               then Z.lor flags MBEDTLS_X509_BADCERT_BAD_MD else flags in
  let flags := if negb (x509_profile_check_pk_alg profile (sig_pk child) =? 0)
               then Z.lor flags MBEDTLS_X509_BADCERT_BAD_PK else flags in
  (* Special case: EE certs that are locally trusted *)
  if (len ver_chain =? 1)%nat && self_issued
     && (x509_crt_check_ee_locally_trusted child trust_ca =? 0)
  then leave 0 flags
  else
  let child_serial := serial child in
  match x509_crt_get_sig_info child with
  | (_, None) => leave MBEDTLS_ERR_X509_FATAL_ERROR flags
  | (_, Some child_sig) =>
  (* Look for a parent in trusted CAs or up the chain *)
  match x509_crt_find_parent child_sig child_next cur_trust_ca
          (vs_parent_crt st) (vs_signature_is_good st)
          (to_uint32 (Z.of_nat (len ver_chain) - 1)) (vs_self_cnt st) with
  | Faults f => Faults f
  | Returns found =>
    Returns (SearchDone {| sr_chain := ver_chain; sr_flags := flags;
                           sr_self_issued := self_issued;
                           sr_child_serial := child_serial;
                           sr_found := found |})
  end end end end end.

(** The rest of the body, from the test of [parent_crt] against NULL on;
    [self_cnt] is the local as the pass found it. *)
Definition x509_crt_verify_chain_link `{X509Core} `{Config} `{PkMd}
    (ca_crl : list mbedtls_x509_crl) (profile : mbedtls_x509_crt_profile)
    (self_cnt : Z) (sr : verify_chain_search)
  : outcome verify_chain_step_result :=
  let ver_chain := sr_chain sr in
  let cur := (len ver_chain - 1)%nat in
  let flags := sr_flags sr in
  let leave (ret : Z) (flags : Z) :=
    Returns (StepReturn ret (verify_chain_set_flags ver_chain cur flags)) in
  let parent_crt := fp_parent (sr_found sr) in
  let parent_is_trusted := fp_parent_is_trusted (sr_found sr) in
  match parent_crt with
  | [] =>
    (* No parent? We're done here *)
    leave 0 (Z.lor flags MBEDTLS_X509_BADCERT_NOT_TRUSTED)
  | parent_c :: _ =>
  (* Count intermediate self-issued (not necessarily self-signed) certs.
     These can occur with some strategies for key rollover, see [SIRO],
     and should be excluded from max_pathlen checks. *)
  let self_cnt :=
    if negb (len ver_chain =? 1)%nat && sr_self_issued sr
    then to_uint32 (self_cnt + 1) else self_cnt in
  (* path_cnt is 0 for the first intermediate CA,
     and if parent is trusted it's not an intermediate CA *)
  if negb parent_is_trusted
     && (MBEDTLS_X509_MAX_INTERMEDIATE_CA <? len ver_chain)%nat
  then
    (* return immediately to avoid overflow the chain array *)
    leave MBEDTLS_ERR_X509_FATAL_ERROR flags
  else
  match fp_signature_is_good (sr_found sr) with
  | None => Faults UninitialisedRead
  | Some signature_is_good =>
  (* signature was checked while searching parent *)
  let flags := if negb signature_is_good
               then Z.lor flags MBEDTLS_X509_BADCERT_NOT_TRUSTED else flags in
  match crt_pk parent_c with
  | None => leave MBEDTLS_ERR_X509_FATAL_ERROR flags
  | Some parent_pk =>
  (* check size of signing key *)
  let flags := if negb (x509_profile_check_key profile parent_pk =? 0)
               then Z.lor flags MBEDTLS_X509_BADCERT_BAD_KEY else flags in
  (* Check trusted CA's CRL for the given crt *)
  let flags :=
    Z.lor flags (x509_crt_verifycrl (sr_child_serial sr) parent_crt ca_crl
                   profile) in
  (* prepare for next iteration *)
  Returns (StepNext
    {| vs_chain := verify_chain_set_flags ver_chain cur flags;
       vs_child_crt := parent_crt;
       vs_parent_crt := Some [];
       vs_child_is_trusted := parent_is_trusted;
       vs_signature_is_good := Some false;
       vs_self_cnt := self_cnt |})
  end end end.

(** One pass through the body of the [while( 1 )] of
    [x509_crt_verify_chain]. *)
Definition x509_crt_verify_chain_body `{X509Core} `{Config} `{PkMd}
    (trust_ca : crt_ptr) (ca_crl : list mbedtls_x509_crl)
    (f_ca_cb : option mbedtls_x509_crt_ca_cb_t)
    (profile : mbedtls_x509_crt_profile) (st : verify_chain_state)
  : outcome verify_chain_step_result :=
  match x509_crt_verify_chain_search trust_ca f_ca_cb profile st with
  | Faults f => Faults f
  | Returns (SearchReturn ret ver_chain) => Returns (StepReturn ret ver_chain)
  | Returns (SearchDone sr) =>
    x509_crt_verify_chain_link ca_crl profile (vs_self_cnt st) sr
  end.

(** The [while( 1 )] loop, with a budget of passes. *)
Fixpoint x509_crt_verify_chain_loop `{X509Core} `{Config} `{PkMd}
    (budget : nat)
    (trust_ca : crt_ptr) (ca_crl : list mbedtls_x509_crl)
    (f_ca_cb : option mbedtls_x509_crt_ca_cb_t)
    (profile : mbedtls_x509_crt_profile) (st : verify_chain_state)
  : outcome (Z * mbedtls_x509_crt_verify_chain) :=
  match budget with
  | O => Faults LoopBudget
  | S budget' =>
    match x509_crt_verify_chain_body trust_ca ca_crl f_ca_cb profile st with
    | Faults f => Faults f
    | Returns (StepReturn ret ver_chain) => Returns (ret, ver_chain)
    | Returns (StepNext st') =>
      x509_crt_verify_chain_loop budget' trust_ca ca_crl f_ca_cb profile st'
    end
  end.

(** Build and verify a certificate chain.  A pass that goes on to the next
    one has stored an item, so the loop makes at most as many passes as the
    array has free items, and one more; the budget is that number. *)
Definition x509_crt_verify_chain `{X509Core} `{Config} `{PkMd}
    (crt trust_ca : crt_ptr) (ca_crl : list mbedtls_x509_crl)
    (f_ca_cb : option mbedtls_x509_crt_ca_cb_t)
    (profile : mbedtls_x509_crt_profile)
    (ver_chain : mbedtls_x509_crt_verify_chain)
  : outcome (Z * mbedtls_x509_crt_verify_chain) :=
  x509_crt_verify_chain_loop
    (S (length (items ver_chain) - len ver_chain))
    trust_ca ca_crl f_ca_cb profile
    {| vs_chain := ver_chain;
       vs_child_crt := crt;
       vs_parent_crt := None;
       vs_child_is_trusted := false;
       vs_signature_is_good := None;
       vs_self_cnt := 0 |}.

(** ** Host name, flag merge and the entry points *)

(** MBEDTLS_OID_AT_CN, the OID 2.5.4.3. *)
Definition MBEDTLS_OID_AT_CN : list Z := [85; 4; 3].

(** The abort callback handed to the name comparison; [cn] is the context:
    the bytes of the requested name, up to its terminating NUL. *)
Definition x509_crt_check_name `{X509Core} (cn : list Z)
    (oid val : list Z) (next_merged : Z) : Z :=
  if bytes_eqb MBEDTLS_OID_AT_CN oid && (x509_crt_check_cn val cn =? 0)
  then 1 else 0.

(** The callback handed to the traversal of the SubjectAltName. *)
Definition x509_crt_subject_alt_check_name `{X509Core} (cn : list Z)
    (tag : Z) (data : list Z) : Z :=
  if x509_crt_check_cn data cn =? 0 then 1 else 0.

(** Verify the requested CN - only call this if cn is not NULL!  The
    result is the return code and [*flags]. *)
Definition x509_crt_verify_name `{X509Core} `{Asn1Parse}
    (crt : mbedtls_x509_crt) (cn : list Z) (flags : Z) : Z * Z :=
  match crt_frame crt with
  | None => (MBEDTLS_ERR_X509_FATAL_ERROR, flags)
  | Some frame =>
    let ret :=
      if negb (Z.land (ext_types frame) MBEDTLS_X509_EXT_SUBJECT_ALT_NAME =? 0)
      then
        mbedtls_asn1_traverse_sequence_of (subject_alt_raw frame)
          MBEDTLS_ASN1_TAG_CLASS_MASK MBEDTLS_ASN1_CONTEXT_SPECIFIC
          MBEDTLS_ASN1_TAG_VALUE_MASK 2 (* SubjectAlt DNS *)
          (Some (x509_crt_subject_alt_check_name cn))
      else
        mbedtls_x509_name_cmp_raw (subject_raw frame) (subject_raw frame)
          (Some (x509_crt_check_name cn)) in
    if ret =? 1 then (0, flags)
    else
      let ret := if negb (ret =? 0) then MBEDTLS_ERR_X509_FATAL_ERROR
                 else ret in
      (ret, Z.lor flags MBEDTLS_X509_BADCERT_CN_MISMATCH)
  end.

(** The verdict callback [f_vrfy( p_vrfy, crt, depth, &flags )] with its
    context captured: the return code and what it leaves in [*flags]. *)
Definition x509_vrfy_cb : Type := crt_ptr -> Z -> Z -> Z * Z.

(** The [for( i = ver_chain->len; i != 0; --i )] loop of
    [x509_crt_merge_flags_with_cb], from [i] on. *)
Fixpoint x509_crt_merge_flags_with_cb_from (i : nat) (flags : Z)
    (ver_chain : mbedtls_x509_crt_verify_chain) (f_vrfy : option x509_vrfy_cb)
  : outcome (Z * Z) :=
  match i with
  | O => Returns (0, flags)
  | S i' =>
    match items ver_chain !! i' with
    | None => Faults ChainOverflow
    | Some cur =>
      let cur_flags := item_flags cur in
      match f_vrfy with
      | Some f =>
        let '(ret, cur_flags) := f (item_crt cur) (Z.of_nat i') cur_flags in
        let cur_flags := to_uint32 cur_flags in
        if negb (ret =? 0) then Returns (ret, flags)
        else x509_crt_merge_flags_with_cb_from i' (Z.lor flags cur_flags)
               ver_chain f_vrfy
      | None =>
        x509_crt_merge_flags_with_cb_from i' (Z.lor flags cur_flags)
          ver_chain f_vrfy
      end
    end
  end.

(** Merge the flags for all certs in the chain, after calling callback. *)
Definition x509_crt_merge_flags_with_cb (flags : Z)
    (ver_chain : mbedtls_x509_crt_verify_chain) (f_vrfy : option x509_vrfy_cb)
  : outcome (Z * Z) :=
  x509_crt_merge_flags_with_cb_from (len ver_chain) flags ver_chain f_vrfy.

(** The code from the label [exit] on: the return code and [*flags]. *)
Definition x509_crt_verify_exit (ret flags : Z) : Z * Z :=
  (* prevent misuse of the vrfy callback *)
  let ret := if ret =? MBEDTLS_ERR_X509_CERT_VERIFY_FAILED
             then MBEDTLS_ERR_X509_FATAL_ERROR else ret in
  if negb (ret =? 0) then (ret, to_uint32 (-1))
  else if negb (flags =? 0) then (MBEDTLS_ERR_X509_CERT_VERIFY_FAILED, flags)
  else (0, flags).

(** Verify the certificate validity, with profile, restartable version.
    [profile] and [cn] are [None] for NULL; the result is the return code
    and [*flags]. *)
Definition x509_crt_verify_restartable_ca_cb
    `{X509Core} `{Asn1Parse} `{Config} `{PkMd}
    (crt trust_ca : crt_ptr) (ca_crl : list mbedtls_x509_crl)
    (f_ca_cb : option mbedtls_x509_crt_ca_cb_t)
    (profile : option mbedtls_x509_crt_profile) (cn : option (list Z))
    (f_vrfy : option x509_vrfy_cb) : outcome (Z * Z) :=
  let flags := 0 in
  let ee_flags := 0 in
  let ver_chain := x509_crt_verify_chain_reset in
  match profile with
  | None => Returns (x509_crt_verify_exit MBEDTLS_ERR_X509_BAD_INPUT_DATA flags)
  | Some profile =>
  match crt with
  | [] => Faults NullDereference
  | ee :: _ =>
  (* check name if requested *)
  let '(ret, ee_flags) :=
    match cn with
    | Some cn => x509_crt_verify_name ee cn ee_flags
    | None => (0, ee_flags)
    end in
  if negb (ret =? 0) then Returns (ret, flags)
  else
  match crt_pk ee with
  | None => Returns (MBEDTLS_ERR_X509_FATAL_ERROR, flags)
  | Some pk =>
  (* Check the type and size of the key *)
  let pk_type := pk_get_type pk in
  let ee_flags := if negb (x509_profile_check_pk_alg profile pk_type =? 0)
                  then Z.lor ee_flags MBEDTLS_X509_BADCERT_BAD_PK
                  else ee_flags in
  let ee_flags := if negb (x509_profile_check_key profile pk =? 0)
                  then Z.lor ee_flags MBEDTLS_X509_BADCERT_BAD_KEY
                  else ee_flags in
  (* Check the chain *)
  match x509_crt_verify_chain crt trust_ca ca_crl f_ca_cb profile ver_chain with
  | Faults f => Faults f
  | Returns (ret, ver_chain) =>
    if negb (ret =? 0) then Returns (x509_crt_verify_exit ret flags)
    else
    (* Merge end-entity flags *)
    match items ver_chain !! 0%nat with
    | None => Faults ChainOverflow
    | Some it0 =>
      let ver_chain :=
        verify_chain_set_flags ver_chain 0 (Z.lor (item_flags it0) ee_flags) in
      (* Build final flags, calling callback on the way if any *)
      match x509_crt_merge_flags_with_cb flags ver_chain f_vrfy with
      | Faults f => Faults f
      | Returns (ret, flags) => Returns (x509_crt_verify_exit ret flags)
      end
    end
  end end end end.

(** Verify the certificate validity (default profile, not restartable). *)
Definition mbedtls_x509_crt_verify `{X509Core} `{Asn1Parse} `{Config} `{PkMd}
    (crt trust_ca : crt_ptr) (ca_crl : list mbedtls_x509_crl)
    (cn : option (list Z)) (f_vrfy : option x509_vrfy_cb) : outcome (Z * Z) :=
  x509_crt_verify_restartable_ca_cb crt trust_ca ca_crl None
    (Some mbedtls_x509_crt_profile_default) cn f_vrfy.

(** Verify the certificate validity (user-chosen profile, not
    restartable). *)
Definition mbedtls_x509_crt_verify_with_profile
    `{X509Core} `{Asn1Parse} `{Config} `{PkMd}
    (crt trust_ca : crt_ptr) (ca_crl : list mbedtls_x509_crl)
    (profile : option mbedtls_x509_crt_profile)
    (cn : option (list Z)) (f_vrfy : option x509_vrfy_cb) : outcome (Z * Z) :=
  x509_crt_verify_restartable_ca_cb crt trust_ca ca_crl None profile cn f_vrfy.

(** Verify the certificate validity (user-chosen profile, CA callback, not
    restartable). *)
Definition mbedtls_x509_crt_verify_with_ca_cb
    `{X509Core} `{Asn1Parse} `{Config} `{PkMd}
    (crt : crt_ptr) (f_ca_cb : option mbedtls_x509_crt_ca_cb_t)
    (profile : option mbedtls_x509_crt_profile)
    (cn : option (list Z)) (f_vrfy : option x509_vrfy_cb) : outcome (Z * Z) :=
  x509_crt_verify_restartable_ca_cb crt [] [] f_ca_cb profile cn f_vrfy.

(** The restartable entry point; in this build [rs_ctx] is not looked at. *)
Definition mbedtls_x509_crt_verify_restartable
    `{X509Core} `{Asn1Parse} `{Config} `{PkMd}
    (crt trust_ca : crt_ptr) (ca_crl : list mbedtls_x509_crl)
    (profile : option mbedtls_x509_crt_profile)
    (cn : option (list Z)) (f_vrfy : option x509_vrfy_cb) : outcome (Z * Z) :=
  x509_crt_verify_restartable_ca_cb crt trust_ca ca_crl None profile cn f_vrfy.

(** ** The statements of the specification, in its words *)

(** [k] is the position of the first ['.'] of [cn]. *)
Definition first_dot_at (cn : list Z) (k : nat) : Prop :=
  cn !! k = Some 46 /\ forall j : nat, (j < k)%nat -> cn !! j <> Some 46.

(** §4.D, the wildcard alternative of the DNS match: "the pattern begins
    with [*.] and, letting k be the position of the first [.] in the
    candidate, the pattern's tail [1..] equals the candidate's tail [k..]
    case-insensitively, and k > 0". *)
Definition spec_wildcard_match `{X509Core} (cn buf : list Z) : Prop :=
  (3 <= length buf)%nat /\ buf !! 0%nat = Some 42 /\ buf !! 1%nat = Some 46
  /\ exists k : nat,
       first_dot_at cn k /\ (0 < k)%nat
       /\ mbedtls_x509_memcasecmp (skipn 1 buf) (skipn k cn)
            (length buf - 1) (length cn - k) = 0.

(** §4.E.4: "parent_match (subject equals child's issuer and, unless
    (top && parent.version < 3), ca_istrue, and, when key-usage checking is
    enabled, KEY_CERT_SIGN is permitted)", as three conjuncts. *)
Definition spec_parent_match `{X509Core} `{Config}
    (child_sig : mbedtls_x509_crt_sig_info) (parent : mbedtls_x509_crt_frame)
    (top : bool) : Prop :=
  mbedtls_x509_name_cmp_raw (si_issuer_raw child_sig) (subject_raw parent) None
    = 0
  /\ (~ (top = true /\ version parent < 3) -> ca_istrue parent <> 0)
  /\ (MBEDTLS_X509_CHECK_KEY_USAGE = true ->
      x509_crt_check_key_usage_frame parent MBEDTLS_X509_KU_KEY_CERT_SIGN = 0).

(** The same with the key usage asked for only where the CA bit is. *)
Definition amended_parent_match `{X509Core} `{Config}
    (child_sig : mbedtls_x509_crt_sig_info) (parent : mbedtls_x509_crt_frame)
    (top : bool) : Prop :=
  mbedtls_x509_name_cmp_raw (si_issuer_raw child_sig) (subject_raw parent) None
    = 0
  /\ (~ (top = true /\ version parent < 3) ->
      ca_istrue parent <> 0
      /\ (MBEDTLS_X509_CHECK_KEY_USAGE = true ->
          x509_crt_check_key_usage_frame parent MBEDTLS_X509_KU_KEY_CERT_SIGN
            = 0)).

(** §4.E.4: "path_len_ok (!( parent.max_pathlen > 0 && parent.max_pathlen <
    1 + path_cnt - self_cnt ))", over the integers. *)
Definition spec_path_len_ok (parent : mbedtls_x509_crt_frame)
    (path_cnt self_cnt : Z) : bool :=
  negb ((0 <? max_pathlen parent)
        && (max_pathlen parent <? 1 + path_cnt - self_cnt)).

(** The suitable candidates of the comment above
    [x509_crt_find_parent_in]: the name matches, the CA bit and the key
    usage are as needed, the pathlen constraint is met and, for trusted
    roots, the signature is correct. *)
Definition find_parent_in_suitable `{X509Core} `{Config} `{PkMd}
    (child_sig : mbedtls_x509_crt_sig_info) (top : bool)
    (path_cnt self_cnt : Z) (c : mbedtls_x509_crt) : bool :=
  match crt_frame c with
  | Some parent =>
    find_parent_in_parent_match child_sig parent top
    && find_parent_in_path_len_ok parent path_cnt self_cnt
    && (negb top || (x509_crt_check_signature child_sig c =? 0))
  | None => false
  end.

Definition find_parent_in_time_valid `{X509Core} (c : mbedtls_x509_crt)
  : bool :=
  match crt_frame c with
  | Some parent => find_parent_in_parent_valid parent
  | None => false
  end.

(** The first node of a list whose certificate satisfies [P], NULL when
    there is none. *)
Fixpoint first_from (P : mbedtls_x509_crt -> bool) (l : crt_ptr) : crt_ptr :=
  match l with
  | [] => []
  | c :: next => if P c then l else first_from P next
  end.

(** §4.E.4: "return the time-valid match, or the fallback, or nothing". *)
Definition spec_find_parent_in `{X509Core} `{Config} `{PkMd}
    (child_sig : mbedtls_x509_crt_sig_info) (candidates : crt_ptr)
    (top : bool) (path_cnt self_cnt : Z) : crt_ptr :=
  let suitable := find_parent_in_suitable child_sig top path_cnt self_cnt in
  match first_from (fun c => suitable c && find_parent_in_time_valid c)
          candidates with
  | [] => first_from suitable candidates
  | (_ :: _) as p => p
  end.

(** §8: "a chain [R] where R.issuer == R.subject and R in trust yields
    flags 0 when R is time-valid and passes the profile", for a call
    without a host name and with any verdict callback. *)
Definition spec_trusted_root_verifies : Prop :=
  forall (X : X509Core) (A : Asn1Parse) (C : Config) (P : PkMd)
         (R : mbedtls_x509_crt) (frame : mbedtls_x509_crt_frame)
         (pk : mbedtls_pk_context) (trust_ca : crt_ptr)
         (ca_crl : list mbedtls_x509_crl) (profile : mbedtls_x509_crt_profile)
         (f_vrfy : option x509_vrfy_cb),
    crt_frame R = Some frame ->
    crt_pk R = Some pk ->
    mbedtls_x509_name_cmp_raw (issuer_raw frame) (subject_raw frame) None = 0 ->
    (exists T, In T trust_ca /\ crt_raw T = raw frame) ->
    mbedtls_x509_time_is_past (valid_to frame) = false ->
    mbedtls_x509_time_is_future (valid_from frame) = false ->
    x509_profile_check_md_alg profile (sig_md frame) = 0 ->
    x509_profile_check_pk_alg profile (sig_pk frame) = 0 ->
    x509_profile_check_pk_alg profile (pk_get_type pk) = 0 ->
    x509_profile_check_key profile pk = 0 ->
    x509_crt_verify_restartable_ca_cb [R] trust_ca ca_crl None (Some profile)
      None f_vrfy = Returns (0, 0).

(** A frame with another subject. *)
Definition frame_with_subject (frame : mbedtls_x509_crt_frame)
    (subject : list Z) : mbedtls_x509_crt_frame :=
  {| version := version frame; sig_md := sig_md frame; sig_pk := sig_pk frame;
     valid_from := valid_from frame; valid_to := valid_to frame;
     raw := raw frame; tbs := tbs frame; serial := serial frame;
     issuer_raw := issuer_raw frame; subject_raw := subject;
     sig := sig frame; subject_alt_raw := subject_alt_raw frame;
     ca_istrue := ca_istrue frame; max_pathlen := max_pathlen frame;
     ext_types := ext_types frame; key_usage := key_usage frame |}.

(** A certificate with another frame. *)
Definition crt_with_frame (crt : mbedtls_x509_crt)
    (frame : mbedtls_x509_crt_frame) : mbedtls_x509_crt :=
  {| crt_raw := crt_raw crt; crt_frame := Some frame; crt_pk := crt_pk crt |}.

(** ** A reference implementation of the interfaces

    The interfaces above are met here by executable definitions, on which
    the functions of x509_crt.c can be run on concrete certificates.  The
    files that implement them in the library (asn1parse.c, x509.c, pk.c,
    md.c, config.h) are not among the sources, so every definition of this
    module is written from the specification. *)

Module Reference.

(** Modelled from the spec: the value of the content bytes of an INTEGER
    or of a long-form length of §4.A, read big-endian (asn1parse.c is not
    among the sources). *)
Definition be_value (bs : list Z) : Z :=
  fold_left (fun acc b => acc * 256 + b) bs 0.

(** Modelled from the spec: the length part of the tag reader of §4.A
    (asn1parse.c is not among the sources), which "reads ASN.1
    tag/length/value triples ... with strict length accounting" and rejects
    "numeric overflow on length decoding": the short form and the long
    forms of one to four length bytes; a length beyond the bytes that remain
    is OUT_OF_DATA, any other form INVALID_LENGTH. *)
Definition asn1_get_len (p : list Z) : asn1_read nat :=
  let finish (n : Z) (rest : list Z) : asn1_read nat :=
    if Z.of_nat (length rest) <? n
    then AsnRead MBEDTLS_ERR_ASN1_OUT_OF_DATA (Some (Z.to_nat n)) rest
    else AsnRead 0 (Some (Z.to_nat n)) rest in
  match p with
  | [] => AsnRead MBEDTLS_ERR_ASN1_OUT_OF_DATA None p
  | b :: rest =>
    if Z.land b 128 =? 0 then finish b rest
    else
      let n := Z.to_nat (Z.land b 127) in
      if (1 <=? n)%nat && (n <=? 4)%nat then
        if (length rest <? n)%nat
        then AsnRead MBEDTLS_ERR_ASN1_OUT_OF_DATA None p
        else finish (be_value (firstn n rest)) (skipn n rest)
      else AsnRead MBEDTLS_ERR_ASN1_INVALID_LENGTH None p
  end.

(** Modelled from the spec: [get_tag(&cursor, end, expected_tag) -> len] of
    §4.A; an empty range is OUT_OF_DATA, another tag UNEXPECTED_TAG with
    the cursor left in place. *)
Definition asn1_get_tag (p : list Z) (tag : Z) : asn1_read nat :=
  match p with
  | [] => AsnRead MBEDTLS_ERR_ASN1_OUT_OF_DATA None p
  | b :: rest =>
    if negb (b =? tag) then AsnRead MBEDTLS_ERR_ASN1_UNEXPECTED_TAG None p
    else asn1_get_len rest
  end.

(** Modelled from the spec: [get_bool] of §4.A, a BOOLEAN of one content
    byte, read as 1 when the byte is not zero and as 0 otherwise. *)
Definition asn1_get_bool (p : list Z) : asn1_read Z :=
  let r := asn1_get_tag p MBEDTLS_ASN1_BOOLEAN in
  if negb (rd_ret r =? 0) then AsnRead (rd_ret r) None (rd_p r)
  else
    match rd_out r, rd_p r with
    | Some 1%nat, b :: rest =>
      AsnRead 0 (Some (if negb (b =? 0) then 1 else 0)) rest
    | _, _ => AsnRead MBEDTLS_ERR_ASN1_INVALID_LENGTH None (rd_p r)
    end.

(** Modelled from the spec: [get_int] of §4.A, a non-negative INTEGER of
    one to [sizeof( int )] = 4 content bytes read big-endian into an
    [int]; an empty, longer or negative one is INVALID_LENGTH. *)
Definition asn1_get_int (p : list Z) : asn1_read Z :=
  let r := asn1_get_tag p MBEDTLS_ASN1_INTEGER in
  if negb (rd_ret r =? 0) then AsnRead (rd_ret r) None (rd_p r)
  else
    let n := written 0%nat (rd_out r) in
    if (n =? 0)%nat || (4 <? n)%nat
       || negb (Z.land (nth 0 (rd_p r) 0) 128 =? 0)
    then AsnRead MBEDTLS_ERR_ASN1_INVALID_LENGTH None (rd_p r)
    else AsnRead 0 (Some (be_value (firstn n (rd_p r)))) (skipn n (rd_p r)).

(** Modelled from the spec: the loop of the sequence-of traversal of §4.A
    (asn1parse.c is not among the sources) over the elements of a SEQUENCE
    OF, one tag-length-value triple per pass; [budget] bounds the passes by
    the number of bytes. *)
Fixpoint asn1_traverse_elements (budget : nat) (p : list Z)
    (tag_must_mask tag_must_val tag_may_mask tag_may_val : Z)
    (cb : option asn1_traverse_cb) : Z :=
  match budget, p with
  | _, [] => 0
  | O, _ :: _ => MBEDTLS_ERR_ASN1_OUT_OF_DATA
  | S budget', tag :: rest =>
    if negb (Z.land tag tag_must_mask =? tag_must_val)
    then MBEDTLS_ERR_ASN1_UNEXPECTED_TAG
    else
      let r := asn1_get_len rest in
      if negb (rd_ret r =? 0) then rd_ret r
      else
        let n := written 0%nat (rd_out r) in
        let ret :=
          match cb with
          | Some f =>
            if Z.land tag tag_may_mask =? tag_may_val
            then f tag (firstn n (rd_p r)) else 0
          | None => 0
          end in
        if negb (ret =? 0) then ret
        else asn1_traverse_elements budget' (skipn n (rd_p r))
               tag_must_mask tag_must_val tag_may_mask tag_may_val cb
  end.

(** Modelled from the spec: the "generic sequence-of traversal" of §4.A:
    "given a range holding SEQUENCE OF X and a per-element callback, it
    iterates until exhausted, enforcing that each element's declared tag
    satisfies a ... filter".  The first mask and value are enforced on every
    element (UNEXPECTED_TAG otherwise); the second pair selects the elements
    handed to the callback, and the first nonzero answer of the callback
    ends the traversal and is returned. *)
Definition asn1_traverse_sequence_of (p : list Z)
    (tag_must_mask tag_must_val tag_may_mask tag_may_val : Z)
    (cb : option asn1_traverse_cb) : Z :=
  let r := asn1_get_tag p
             (Z.lor MBEDTLS_ASN1_CONSTRUCTED MBEDTLS_ASN1_SEQUENCE) in
  if negb (rd_ret r =? 0) then rd_ret r
  else if negb (written 0%nat (rd_out r) =? length (rd_p r))%nat
  then MBEDTLS_ERR_ASN1_LENGTH_MISMATCH
  else asn1_traverse_elements (length (rd_p r)) (rd_p r)
         tag_must_mask tag_must_val tag_may_mask tag_may_val cb.

#[export] Instance asn1parse : Asn1Parse := {|
  mbedtls_asn1_get_tag := asn1_get_tag;
  mbedtls_asn1_get_bool := asn1_get_bool;
  mbedtls_asn1_get_int := asn1_get_int;
  mbedtls_asn1_traverse_sequence_of := asn1_traverse_sequence_of
|}.

(** Modelled from the spec: the case-insensitive equality of §4.D on two
    bytes (x509.c is not among the sources): equal, or differing in bit 5
    only with the first of them a letter. *)
Definition casecmp_byte (a b : Z) : bool :=
  let diff := Z.lxor a b in
  (diff =? 0)
  || ((diff =? 32)
      && (((97 <=? a) && (a <=? 122)) || ((65 <=? a) && (a <=? 90)))).

(** Modelled from the spec: the same on two runs of bytes of the same
    length. *)
Fixpoint casecmp_bytes (s1 s2 : list Z) : bool :=
  match s1, s2 with
  | [], [] => true
  | a :: s1', b :: s2' => casecmp_byte a b && casecmp_bytes s1' s2'
  | _, _ => false
  end.

(** Modelled from the spec: the "case-insensitive byte equality" of §4.D
    (x509.c is not among the sources): 0 when the two lengths are the same
    and the two runs agree over that length byte for byte up to the case of
    letters, -1 otherwise. *)
Definition x509_memcasecmp (s1 s2 : list Z) (len1 len2 : nat) : Z :=
  if negb (len1 =? len2)%nat then -1
  else if casecmp_bytes (firstn len1 s1) (firstn len1 s2) then 0 else -1.

(** Modelled from the spec: one entry of the RDN sequence of §3 (x509.c is
    not among the sources): OID, string tag, value, and whether the next
    atom belongs to the same RDN. *)
Record name_atom : Type := {
  atom_oid : list Z;
  atom_tag : Z;
  atom_val : list Z;
  atom_merged : bool
}.

(** Modelled from the spec: the atoms of one RDN of §3, a SET OF
    SEQUENCE { OID, value } (x509.c is not among the sources). *)
Fixpoint name_set_atoms (budget : nat) (p : list Z) : option (list name_atom) :=
  match budget, p with
  | _, [] => Some []
  | O, _ :: _ => None
  | S budget', _ :: _ =>
    let rs := asn1_get_tag p
                (Z.lor MBEDTLS_ASN1_CONSTRUCTED MBEDTLS_ASN1_SEQUENCE) in
    if negb (rd_ret rs =? 0) then None
    else
      let n := written 0%nat (rd_out rs) in
      let body := firstn n (rd_p rs) in
      let after := skipn n (rd_p rs) in
      let ro := asn1_get_tag body 6 (* OBJECT IDENTIFIER *) in
      if negb (rd_ret ro =? 0) then None
      else
        let no := written 0%nat (rd_out ro) in
        let oid := firstn no (rd_p ro) in
        match skipn no (rd_p ro) with
        | [] => None
        | tag :: rest =>
          let rv := asn1_get_len rest in
          if negb (rd_ret rv =? 0) then None
          else
            let nv := written 0%nat (rd_out rv) in
            if negb (nv =? length (rd_p rv))%nat then None
            else
              match name_set_atoms budget' after with
              | None => None
              | Some more =>
                Some ({| atom_oid := oid; atom_tag := tag;
                         atom_val := rd_p rv;
                         atom_merged := negb (length more =? 0)%nat |}
                      :: more)
              end
        end
  end.

(** Modelled from the spec: the atoms of the RDNs of a name body, SET by
    SET (x509.c is not among the sources). *)
Fixpoint name_rdn_atoms (budget : nat) (p : list Z) : option (list name_atom) :=
  match budget, p with
  | _, [] => Some []
  | O, _ :: _ => None
  | S budget', _ :: _ =>
    let r := asn1_get_tag p 49 (* CONSTRUCTED | SET *) in
    if negb (rd_ret r =? 0) then None
    else
      let n := written 0%nat (rd_out r) in
      match name_set_atoms n (firstn n (rd_p r)),
            name_rdn_atoms budget' (skipn n (rd_p r)) with
      | Some atoms, Some more => Some (atoms ++ more)
      | _, _ => None
      end
  end.

(** Modelled from the spec: the "RDN sequence" of §3 for a raw name, "an
    ordered linked chain of (OID, tag, value_span, merged_flag) entries"
    (x509.c is not among the sources). *)
Definition name_atoms (name_raw : list Z) : option (list name_atom) :=
  let r := asn1_get_tag name_raw
             (Z.lor MBEDTLS_ASN1_CONSTRUCTED MBEDTLS_ASN1_SEQUENCE) in
  if negb (rd_ret r =? 0) then None
  else if negb (written 0%nat (rd_out r) =? length (rd_p r))%nat then None
  else name_rdn_atoms (length (rd_p r)) (rd_p r).

(** Modelled from the spec: the "whitespace-folding" of §4.D (x509.c is
    not among the sources): no leading or trailing space, runs of spaces
    reduced to one. *)
Fixpoint fold_spaces (pending : bool) (started : bool) (s : list Z) : list Z :=
  match s with
  | [] => []
  | c :: s' =>
    if c =? 32 then fold_spaces started started s'
    else (if pending then [32] else []) ++ c :: fold_spaces false true s'
  end.

(** Modelled from the spec: the string types "PrintableString/UTF8String"
    of §4.D (x509.c is not among the sources). *)
Definition is_string_tag (tag : Z) : bool :=
  (tag =? 12) (* UTF8String *) || (tag =? 19) (* PrintableString *).

(** Modelled from the spec: the comparator of values of §4.D, "dictated by
    the string type (case-insensitive, whitespace-folding for
    PrintableString/UTF8String ...; byte-equality elsewhere)" (x509.c is not
    among the sources). *)
Definition name_value_eqb (a b : name_atom) : bool :=
  ((atom_tag a =? atom_tag b) && bytes_eqb (atom_val a) (atom_val b))
  || (is_string_tag (atom_tag a) && is_string_tag (atom_tag b)
      && casecmp_bytes (fold_spaces false false (atom_val a))
                       (fold_spaces false false (atom_val b))).

(** Modelled from the spec: the atoms of two names compared pairwise
    (§4.D; x509.c is not among the sources), the abort callback asked after
    each pair that agrees. *)
Fixpoint name_cmp_atoms (a b : list name_atom) (cb : option x509_name_cb) : Z :=
  match a, b with
  | [], [] => 0
  | x :: a', y :: b' =>
    if bytes_eqb (atom_oid x) (atom_oid y) && name_value_eqb x y
       && eqb (atom_merged x) (atom_merged y)
    then
      let ret :=
        match cb with
        | Some f => f (atom_oid x) (atom_val x) (if atom_merged x then 1 else 0)
        | None => 0
        end in
      if negb (ret =? 0) then ret else name_cmp_atoms a' b' cb
    else 1
  | _, _ => 1
  end.

(** Modelled from the spec: the "name comparison" of §4.D (x509.c is not
    among the sources): "two RDN sequences are equal iff they have the same
    number of top-level RDNs, and for each position the same number of
    atoms, and for each atom the OIDs are byte-equal and the values compare
    equal".  0 for equal names, 1 for different ones, a negative code for
    a name that does not parse; an abort callback that answers nonzero
    ends the comparison with its answer. *)
Definition x509_name_cmp_raw (a b : list Z) (cb : option x509_name_cb) : Z :=
  match name_atoms a, name_atoms b with
  | Some atoms_a, Some atoms_b => name_cmp_atoms atoms_a atoms_b cb
  | _, _ => -9088   (* MBEDTLS_ERR_X509_INVALID_NAME, -0x2380 *)
  end.

(** Modelled from the spec: the clock of scenario 1 of §8, "now =
    2025-01-01" (the platform time is not among the sources). *)
Definition now : mbedtls_x509_time :=
  {| year := 2025; mon := 1; day := 1; hour := 0; min := 0; sec := 0 |}.

(** Modelled from the spec: the calendar order of two times (x509.c is not
    among the sources), as the order of their digits. *)
Definition time_key (t : mbedtls_x509_time) : Z :=
  ((((year t * 100 + mon t) * 100 + day t) * 100 + hour t) * 100 + min t)
  * 100 + sec t.

(** Modelled from the spec: "EXPIRED if valid_to is past" (§4.E.3),
    against the clock [now] (x509.c is not among the sources). *)
Definition x509_time_is_past (t : mbedtls_x509_time) : bool :=
  time_key t <? time_key now.

(** Modelled from the spec: "FUTURE if valid_from is in the future"
    (§4.E.3), against the clock [now] (x509.c is not among the sources). *)
Definition x509_time_is_future (t : mbedtls_x509_time) : bool :=
  time_key now <? time_key t.

#[export] Instance x509core : X509Core := {|
  mbedtls_x509_memcasecmp := x509_memcasecmp;
  mbedtls_x509_name_cmp_raw := x509_name_cmp_raw;
  mbedtls_x509_time_is_past := x509_time_is_past;
  mbedtls_x509_time_is_future := x509_time_is_future
|}.

(** Modelled from the spec: the backend capabilities of §9
    ([Hash::update/finish], [PublicKey::verify], [PublicKey::can_do]), which
    the specification leaves to external collaborators (md.c and pk.c are
    not among the sources), as a toy scheme: the digest of a message is its
    byte sum modulo 256 followed by its length modulo 256, and a signature
    is valid for a key when it is the digest followed by the key. *)
Definition toy_md (md_alg : Z) (input : list Z) : option (list Z) :=
  if md_alg =? MBEDTLS_MD_NONE then None
  else Some [fold_left Z.add input 0 mod 256;
             Z.of_nat (length input) mod 256].

(** Modelled from the spec: [PublicKey::can_do] of §9 in the toy scheme
    (pk.c is not among the sources): a key does the algorithm of its
    type. *)
Definition toy_pk_can_do (pk : mbedtls_pk_context) (type : Z) : bool :=
  pk_get_type pk =? type.

(** Modelled from the spec: [PublicKey::verify] of §9 in the toy scheme
    (pk.c is not among the sources). *)
Definition toy_pk_verify_ext (type : Z) (pk : mbedtls_pk_context)
    (md_alg : Z) (hash sig : list Z) : Z :=
  if bytes_eqb sig (hash ++ pk_key pk) then 0
  else -17280.   (* MBEDTLS_ERR_RSA_VERIFY_FAILED, -0x4380 *)

#[export] Instance pkmd : PkMd := {|
  mbedtls_pk_can_do := toy_pk_can_do;
  mbedtls_pk_verify_ext := toy_pk_verify_ext;
  mbedtls_md := toy_md
|}.

(** Modelled from the spec: the configuration of the scenarios of §8
    (config.h is not among the sources), "MAX_INTERMEDIATE_CA=8" and the
    key usage checked. *)
#[export] Instance config : Config := {|
  MBEDTLS_X509_MAX_INTERMEDIATE_CA := 8;
  MBEDTLS_X509_CHECK_KEY_USAGE := true
|}.

End Reference.

(** ** Sample certificates for the scenarios of §8 *)

Module Samples.
Import Reference.

Definition der_tlv (tag : Z) (body : list Z) : list Z :=
  tag :: Z.of_nat (length body) :: body.

(** The DER of the name [CN=s]. *)
Definition der_name_cn (s : string) : list Z :=
  der_tlv 48 (der_tlv 49 (der_tlv 48
    (der_tlv 6 MBEDTLS_OID_AT_CN ++ der_tlv 12 (bytes_of_string s)))).

(** A GeneralNames with one entry per pair of context tag and name. *)
Definition der_general_names (entries : list (Z * string)) : list Z :=
  der_tlv 48
    (concat (map (fun e => der_tlv (128 + fst e) (bytes_of_string (snd e)))
                 entries)).

Definition t2020 : mbedtls_x509_time :=
  {| year := 2020; mon := 1; day := 1; hour := 0; min := 0; sec := 0 |}.
Definition t2030 : mbedtls_x509_time :=
  {| year := 2030; mon := 1; day := 1; hour := 0; min := 0; sec := 0 |}.

Definition rsa_key (key : list Z) : mbedtls_pk_context :=
  {| pk_get_type := MBEDTLS_PK_RSA; pk_get_bitlen := 2048;
     pk_ec_grp_id := MBEDTLS_ECP_DP_NONE; pk_key := key |}.

(** The frame of a v3 certificate for [subject], issued by [issuer] and
    signed (SHA-256, RSA) with [issuer_key]. *)
Definition sample_frame (subject issuer : string) (issuer_key : list Z)
    (ca : Z) (not_before not_after : mbedtls_x509_time)
  : mbedtls_x509_crt_frame :=
  let tbs := der_name_cn issuer ++ der_name_cn subject in
  let sig := written [] (toy_md 6 tbs) ++ issuer_key in
  {| version := 3; sig_md := 6; sig_pk := MBEDTLS_PK_RSA;
     valid_from := not_before; valid_to := not_after;
     raw := tbs ++ sig; tbs := tbs; serial := [1];
     issuer_raw := der_name_cn issuer; subject_raw := der_name_cn subject;
     sig := sig; subject_alt_raw := [];
     ca_istrue := ca; max_pathlen := 0;
     ext_types := if ca =? 0 then 0 else MBEDTLS_X509_EXT_BASIC_CONSTRAINTS;
     key_usage := 0 |}.

Definition sample_crt (subject issuer : string) (key issuer_key : list Z)
    (ca : Z) : mbedtls_x509_crt :=
  let f := sample_frame subject issuer issuer_key ca t2020 t2030 in
  {| crt_raw := raw f; crt_frame := Some f; crt_pk := Some (rsa_key key) |}.

(** A self-signed root [R], an end entity [EE] issued by [I1], and the
    intermediates [I1] .. [I10], each issued by the next and [I10] by
    [R]. *)
Definition R : mbedtls_x509_crt := sample_crt "R" "R" [100] [100] 1.
Definition EE : mbedtls_x509_crt := sample_crt "EE" "I1" [0] [1] 0.
Definition I1 : mbedtls_x509_crt := sample_crt "I1" "I2" [1] [2] 1.
Definition I2 : mbedtls_x509_crt := sample_crt "I2" "I3" [2] [3] 1.
Definition I3 : mbedtls_x509_crt := sample_crt "I3" "I4" [3] [4] 1.
Definition I4 : mbedtls_x509_crt := sample_crt "I4" "I5" [4] [5] 1.
Definition I5 : mbedtls_x509_crt := sample_crt "I5" "I6" [5] [6] 1.
Definition I6 : mbedtls_x509_crt := sample_crt "I6" "I7" [6] [7] 1.
Definition I7 : mbedtls_x509_crt := sample_crt "I7" "I8" [7] [8] 1.
Definition I8 : mbedtls_x509_crt := sample_crt "I8" "I9" [8] [9] 1.
Definition I9 : mbedtls_x509_crt := sample_crt "I9" "I10" [9] [10] 1.
Definition I10 : mbedtls_x509_crt := sample_crt "I10" "R" [10] [100] 1.

Definition long_chain : crt_ptr :=
  [EE; I1; I2; I3; I4; I5; I6; I7; I8; I9; I10].

(** A chain of the greatest length that still verifies: eight
    intermediates below [R]. *)
Definition EE3 : mbedtls_x509_crt := sample_crt "EE3" "I3" [0] [3] 0.
Definition full_chain : crt_ptr := [EE3; I3; I4; I5; I6; I7; I8; I9; I10].

(** An end entity whose frame cannot be acquired. *)
Definition EE_no_frame : mbedtls_x509_crt :=
  {| crt_raw := crt_raw EE; crt_frame := None; crt_pk := crt_pk EE |}.

(** An end entity whose public key cannot be acquired. *)
Definition EE_no_pk : mbedtls_x509_crt :=
  {| crt_raw := crt_raw EE; crt_frame := crt_frame EE; crt_pk := None |}.

(** A verdict callback that objects to every certificate. *)
Definition vrfy_other : x509_vrfy_cb :=
  fun _ _ flags => (0, Z.lor flags MBEDTLS_X509_BADCERT_OTHER).

(** A verdict callback that leaves every verdict as it is. *)
Definition vrfy_keep : x509_vrfy_cb := fun _ _ flags => (0, flags).

(** BasicConstraints with cA TRUE and pathLenConstraint 2147483647:
    30 09 01 01 FF 02 04 7F FF FF FF. *)
Definition bc_pathlen_int_max : list Z :=
  [48; 9; 1; 1; 255; 2; 4; 127; 255; 255; 255].

(** BasicConstraints with cA TRUE and pathLenConstraint 3. *)
Definition bc_pathlen_3 : list Z := [48; 6; 1; 1; 255; 2; 1; 3].

(** BasicConstraints with an INTEGER 5 where the BOOLEAN is expected. *)
Definition bc_ca_integer : list Z := [48; 3; 2; 1; 5].

(** A version 1 certificate named [R] whose KeyUsage extension has
    digitalSignature (0x80) only, and the signature information of a child
    issued by [R]. *)
Definition v1_root_frame : mbedtls_x509_crt_frame :=
  let f := sample_frame "R" "R" [100] 0 t2020 t2030 in
  {| version := 1; sig_md := sig_md f; sig_pk := sig_pk f;
     valid_from := valid_from f; valid_to := valid_to f;
     raw := raw f; tbs := tbs f; serial := serial f;
     issuer_raw := issuer_raw f; subject_raw := subject_raw f;
     sig := sig f; subject_alt_raw := [];
     ca_istrue := 0; max_pathlen := 0;
     ext_types := MBEDTLS_X509_EXT_KEY_USAGE; key_usage := 128 |}.

Definition sig_info_of (c : mbedtls_x509_crt) : mbedtls_x509_crt_sig_info :=
  match crt_frame c with
  | Some f =>
    match x509_crt_get_sig_info f with
    | (_, Some s) => s
    | (_, None) =>
      {| si_sig_md := 0; si_sig_pk := 0; si_crt_hash := []; si_sig := [];
         si_issuer_raw := [] |}
    end
  | None =>
    {| si_sig_md := 0; si_sig_pk := 0; si_crt_hash := []; si_sig := [];
       si_issuer_raw := [] |}
  end.

(** An older version of [R], same name and key, expired in 2020. *)
Definition t2010 : mbedtls_x509_time :=
  {| year := 2010; mon := 1; day := 1; hour := 0; min := 0; sec := 0 |}.
Definition t2019 : mbedtls_x509_time :=
  {| year := 2019; mon := 12; day := 31; hour := 0; min := 0; sec := 0 |}.
Definition R_old : mbedtls_x509_crt :=
  let f := sample_frame "R" "R" [100] 1 t2010 t2019 in
  {| crt_raw := raw f ++ [0]; crt_frame := Some f;
     crt_pk := Some (rsa_key [100]) |}.

(** A root of the same name with another key. *)
Definition R_other_key : mbedtls_x509_crt := sample_crt "R" "R" [77] [77] 1.

(** A server certificate with the subject CN=example.com and a
    SubjectAltName holding the dNSName other.example.org and the
    rfc822Name example.com. *)
Definition san_frame : mbedtls_x509_crt_frame :=
  let f := sample_frame "example.com" "R" [100] 0 t2020 t2030 in
  {| version := 3; sig_md := sig_md f; sig_pk := sig_pk f;
     valid_from := valid_from f; valid_to := valid_to f;
     raw := raw f; tbs := tbs f; serial := serial f;
     issuer_raw := issuer_raw f; subject_raw := subject_raw f;
     sig := sig f;
     subject_alt_raw :=
       der_general_names
         [(2, "other.example.org"%string); (1, "example.com"%string)];
     ca_istrue := 0; max_pathlen := 0;
     ext_types := MBEDTLS_X509_EXT_SUBJECT_ALT_NAME; key_usage := 0 |}.

Definition san_crt : mbedtls_x509_crt :=
  {| crt_raw := raw san_frame; crt_frame := Some san_frame;
     crt_pk := Some (rsa_key [0]) |}.

(** The same certificate without the extension. *)
Definition cn_only_crt : mbedtls_x509_crt :=
  sample_crt "example.com" "R" [0] [100] 0.

End Samples.

(** ** Invariants of the chain-building loop *)

(** At the top of a pass the array has its declared size, and the chain
    holds at most MBEDTLS_X509_MAX_INTERMEDIATE_CA certificates below an
    untrusted child, one more below a trusted one. *)
Definition verify_chain_inv `{Config} (st : verify_chain_state) : Prop :=
  length (items (vs_chain st)) = X509_MAX_VERIFY_CHAIN_SIZE
  /\ (len (vs_chain st)
      <= MBEDTLS_X509_MAX_INTERMEDIATE_CA
         + (if vs_child_is_trusted st then 1 else 0))%nat.

(** [self_cnt] never exceeds the [path_cnt] of the pass, which is the
    number of certificates already in the chain. *)
Definition self_cnt_inv (st : verify_chain_state) : Prop :=
  0 <= vs_self_cnt st <= Z.of_nat (Nat.pred (len (vs_chain st))).

(** ** Sample states of the chain-building loop *)

Module States.
Import Reference Samples.

(** The state in which [x509_crt_verify_chain] enters its loop. *)
Definition initial (crt : crt_ptr) : verify_chain_state :=
  {| vs_chain := x509_crt_verify_chain_reset;
     vs_child_crt := crt;
     vs_parent_crt := None;
     vs_child_is_trusted := false;
     vs_signature_is_good := None;
     vs_self_cnt := 0 |}.

(** One pass with [R] trusted, no CRL and the default profile; a pass that
    does not go on leaves the state as it is. *)
Definition pass (st : verify_chain_state) : verify_chain_state :=
  match x509_crt_verify_chain_body [R] [] None
          mbedtls_x509_crt_profile_default st with
  | Returns (StepNext st') => st'
  | _ => st
  end.

(** The long chain after one pass, and after nine: [EE] and [I1] .. [I8]
    are in the chain, [I8] is the child and [I9] would be its parent. *)
Definition after_one : verify_chain_state := pass (initial long_chain).

Definition after_eight : verify_chain_state :=
  pass (pass (pass (pass (pass (pass (pass after_one)))))).

(** What the search of the ninth pass hands over: nine certificates in the
    chain and the untrusted parent [I9]. *)
Definition ninth_search : verify_chain_search :=
  match x509_crt_verify_chain_search [R] None
          mbedtls_x509_crt_profile_default after_eight with
  | Returns (SearchDone sr) => sr
  | _ =>
    {| sr_chain := x509_crt_verify_chain_reset; sr_flags := 0;
       sr_self_issued := false; sr_child_serial := [];
       sr_found := {| fp_parent := []; fp_parent_is_trusted := false;
                      fp_signature_is_good := None |} |}
  end.

End States.

(** ** Key usage and revocation: the public functions *)

(** [mbedtls_x509_crt_check_key_usage], which exists when
    MBEDTLS_X509_CHECK_KEY_USAGE is defined. *)
Definition mbedtls_x509_crt_check_key_usage (crt : mbedtls_x509_crt)
    (usage : Z) : Z :=
  match crt_frame crt with
  | None => MBEDTLS_ERR_X509_FATAL_ERROR
  | Some frame => x509_crt_check_key_usage_frame frame usage
  end.

(** [mbedtls_x509_crt_is_revoked]: the serial of the certificate is looked
    up in the entries of the one CRL handed in. *)
Definition mbedtls_x509_crt_is_revoked `{X509Core} (crt : mbedtls_x509_crt)
    (crl : mbedtls_x509_crl) : Z :=
  match crt_frame crt with
  | None => MBEDTLS_ERR_X509_FATAL_ERROR
  | Some frame => x509_serial_is_revoked (serial frame) (crl_entry crl)
  end.

(** The CRLs that [x509_crt_verifycrl] looks into: those of a version other
    than 0 whose issuer is the subject of the CA. *)
Definition crl_of_ca `{X509Core} (ca_subject : list Z) (crl : mbedtls_x509_crl)
  : bool :=
  negb (crl_version crl =? 0)
  && (mbedtls_x509_name_cmp_raw (crl_issuer_raw crl) ca_subject None =? 0).

(** ** Sample revocation lists for the scenarios of §8 *)

Module CrlSamples.
Import Reference Samples.

Definition t2024 : mbedtls_x509_time :=
  {| year := 2024; mon := 1; day := 1; hour := 0; min := 0; sec := 0 |}.

(** A version 2 CRL issued by [issuer] and signed (SHA-256, RSA) with
    [issuer_key], in force from 2020 to 2030, with the given entries. *)
Definition sample_crl (issuer : string) (issuer_key : list Z)
    (entries : list mbedtls_x509_crl_entry) : mbedtls_x509_crl :=
  let tbs := der_name_cn issuer ++ concat (map entry_serial entries) in
  {| crl_version := 2; crl_issuer_raw := der_name_cn issuer;
     crl_tbs := tbs; crl_sig := written [] (toy_md 6 tbs) ++ issuer_key;
     crl_sig_md := 6; crl_sig_pk := MBEDTLS_PK_RSA;
     this_update := t2020; next_update := t2030;
     crl_entry := entries |}.

(** Scenario 5: a CRL of [R] that lists the serial 1 as revoked on
    2024-01-01. *)
Definition R_crl : mbedtls_x509_crl :=
  sample_crl "R" [100] [{| entry_serial := [1]; revocation_date := t2024 |}].

(** A CRL of [R] that lists another serial, and a CRL of another issuer. *)
Definition R_crl_other_serial : mbedtls_x509_crl :=
  sample_crl "R" [100] [{| entry_serial := [7]; revocation_date := t2024 |}].
Definition I1_crl : mbedtls_x509_crl :=
  sample_crl "I1" [1] [{| entry_serial := [1]; revocation_date := t2024 |}].

End CrlSamples.

(** ** The merged flag word, in closed form *)

(** What the loop of [x509_crt_merge_flags_with_cb] gets for the item at
    depth [i]: the answer of the verdict callback and the flags it leaves
    (0 and the flags of the item when there is no callback). *)
Definition merge_item_verdict (f_vrfy : option x509_vrfy_cb)
    (ver_chain : mbedtls_x509_crt_verify_chain) (i : nat) : Z * Z :=
  match items ver_chain !! i with
  | None => (0, 0)
  | Some cur =>
    match f_vrfy with
    | Some f =>
      let '(ret, cur_flags) := f (item_crt cur) (Z.of_nat i) (item_flags cur) in
      (ret, to_uint32 cur_flags)
    | None => (0, item_flags cur)
    end
  end.

(** The words [g lo], ..., [g (lo + n - 1)] or-ed together. *)
Fixpoint or_range (g : nat -> Z) (lo n : nat) : Z :=
  match n with
  | O => 0
  | S n' => Z.lor (g (lo + n')%nat) (or_range g lo n')
  end.

(** A chain of two certificates, the end entity expired and the root not
    trusted, in an array of three items; and a verdict callback that
    refuses the certificates at depth 0 and passes the others with the
    flag BADCERT_OTHER. *)
Definition sample_merge_chain : mbedtls_x509_crt_verify_chain :=
  {| items := [ {| item_crt := [Samples.EE; Samples.R];
                   item_flags := MBEDTLS_X509_BADCERT_EXPIRED |};
                {| item_crt := [Samples.R];
                   item_flags := MBEDTLS_X509_BADCERT_NOT_TRUSTED |};
                {| item_crt := []; item_flags := to_uint32 (-1) |} ];
     len := 2;
     trust_ca_cb_result := [] |}.

Definition vrfy_refuse_ee : x509_vrfy_cb :=
  fun _ depth flags =>
    if depth =? 0 then (-1, flags)
    else (0, Z.lor flags MBEDTLS_X509_BADCERT_OTHER).

(** ** What the flag word of a run says about the chain *)

(** The list of trusted signers of a pass of [x509_crt_verify_chain]: what
    the CA callback hands out for the child, or the static list. *)
Definition verify_chain_cur_trust_ca (trust_ca : crt_ptr)
    (f_ca_cb : option mbedtls_x509_crt_ca_cb_t) (child_crt : crt_ptr)
  : crt_ptr :=
  match f_ca_cb with
  | Some cb => snd (cb child_crt)
  | None => trust_ca
  end.

(** The flag [c] is one of the set of flags [m]. *)
Definition flag_in (m c : Z) : Prop := Z.land m c <> 0.

(** No flag of the set [m] is set for an item of the chain. *)
Definition chain_flags_clear (m : Z) (ver_chain : mbedtls_x509_crt_verify_chain)
  : Prop :=
  forall (i : nat) (it : mbedtls_x509_crt_verify_chain_item),
    (i < len ver_chain)%nat -> items ver_chain !! i = Some it ->
    Z.land (item_flags it) m = 0.

(** The checks behind BADCERT_EXPIRED and BADCERT_FUTURE, where [m] asks
    for them. *)
Definition time_checked `{X509Core} (m : Z) (f : mbedtls_x509_crt_frame)
  : Prop :=
  (flag_in m MBEDTLS_X509_BADCERT_EXPIRED ->
   mbedtls_x509_time_is_past (valid_to f) = false)
  /\ (flag_in m MBEDTLS_X509_BADCERT_FUTURE ->
      mbedtls_x509_time_is_future (valid_from f) = false).

(** The checks behind BADCERT_BAD_MD and BADCERT_BAD_PK. *)
Definition sig_alg_checked (profile : mbedtls_x509_crt_profile) (m : Z)
    (f : mbedtls_x509_crt_frame) : Prop :=
  (flag_in m MBEDTLS_X509_BADCERT_BAD_MD ->
   x509_profile_check_md_alg profile (sig_md f) = 0)
  /\ (flag_in m MBEDTLS_X509_BADCERT_BAD_PK ->
      x509_profile_check_pk_alg profile (sig_pk f) = 0).

(** Whether the certificate at a node is self-issued, as a pass of
    [x509_crt_verify_chain] finds it for its child. *)
Definition crt_self_issued `{X509Core} (crt : crt_ptr) : bool :=
  match crt with
  | c :: _ =>
    match crt_frame c with
    | Some f =>
      mbedtls_x509_name_cmp_raw (issuer_raw f) (subject_raw f) None =? 0
    | None => false
    end
  | [] => false
  end.

(** One link of a chain: the certificate at the node [child_crt] has the
    one at [parent_crt] as its parent.  The frames and the key of the
    parent are at hand, the parent is one for the child by name, CA bit and
    key usage ([top] for a trusted parent), its pathlen constraint is met
    for [path_cnt] certificates below the child of which [self_cnt] do not
    count, its key verifies the signature of the child, and the checks
    behind the flags of [m] have passed for the child: validity, signature
    algorithms, the key of the parent, and the CRLs of the parent. *)
Inductive link_checked `{X509Core} `{Config} `{PkMd}
    (ca_crl : list mbedtls_x509_crl) (profile : mbedtls_x509_crt_profile)
    (m : Z) (path_cnt self_cnt : Z) : crt_ptr -> crt_ptr -> bool -> Prop :=
| link_checked_intro
    (child_c : mbedtls_x509_crt) (child_next : crt_ptr)
    (child : mbedtls_x509_crt_frame) (r : Z)
    (child_sig : mbedtls_x509_crt_sig_info)
    (parent_c : mbedtls_x509_crt) (parent_next : crt_ptr)
    (parent : mbedtls_x509_crt_frame) (parent_pk : mbedtls_pk_context)
    (top : bool) :
    crt_frame child_c = Some child ->
    x509_crt_get_sig_info child = (r, Some child_sig) ->
    crt_frame parent_c = Some parent ->
    crt_pk parent_c = Some parent_pk ->
    x509_crt_check_parent child_sig parent top = 0 ->
    find_parent_in_path_len_ok parent path_cnt self_cnt = true ->
    x509_crt_check_signature child_sig parent_c = 0 ->
    time_checked m child ->
    sig_alg_checked profile m child ->
    (flag_in m MBEDTLS_X509_BADCERT_BAD_KEY ->
     x509_profile_check_key profile parent_pk = 0) ->
    Z.land (x509_crt_verifycrl (serial child) (parent_c :: parent_next)
              ca_crl profile) m = 0 ->
    link_checked ca_crl profile m path_cnt self_cnt (child_c :: child_next)
      (parent_c :: parent_next) top.

(** A chain of such links from the node [child_crt], which has [n]
    certificates below it of which [self_cnt] are self-issued
    intermediates, up to a trusted certificate: the parent is a node of the
    trusted list of the pass, and the checks of validity have passed for it
    as well; or it is a node of the chain handed in, behind the child, from
    which such a chain goes on, the child counting as a self-issued
    intermediate when it is self-issued and not the first certificate. *)
Inductive chain_checked `{X509Core} `{Config} `{PkMd}
    (trust_ca : crt_ptr) (ca_crl : list mbedtls_x509_crl)
    (f_ca_cb : option mbedtls_x509_crt_ca_cb_t)
    (profile : mbedtls_x509_crt_profile) (m : Z)
  : nat -> Z -> crt_ptr -> Prop :=
| chain_checked_root
    (n : nat) (self_cnt : Z)
    (child_crt : crt_ptr) (parent_c : mbedtls_x509_crt)
    (parent_next : crt_ptr) (parent : mbedtls_x509_crt_frame) :
    (parent_c :: parent_next)
      `suffix_of` verify_chain_cur_trust_ca trust_ca f_ca_cb child_crt ->
    link_checked ca_crl profile m (to_uint32 (Z.of_nat n)) self_cnt
      child_crt (parent_c :: parent_next) true ->
    crt_frame parent_c = Some parent ->
    time_checked m parent ->
    chain_checked trust_ca ca_crl f_ca_cb profile m n self_cnt child_crt
| chain_checked_step
    (n : nat) (self_cnt : Z) (child_crt parent_crt : crt_ptr) :
    parent_crt `suffix_of` tail child_crt ->
    link_checked ca_crl profile m (to_uint32 (Z.of_nat n)) self_cnt
      child_crt parent_crt false ->
    chain_checked trust_ca ca_crl f_ca_cb profile m (S n)
      (if negb (n =? 0)%nat && crt_self_issued child_crt
       then to_uint32 (self_cnt + 1) else self_cnt)
      parent_crt ->
    chain_checked trust_ca ca_crl f_ca_cb profile m n self_cnt child_crt.

(** The end entity at the node [crt] is locally trusted: it is self-issued
    and its DER is that of a certificate of the trusted list; and the
    checks behind the flags of [m] have passed for it. *)
Definition ee_locally_trusted `{X509Core} (trust_ca : crt_ptr)
    (profile : mbedtls_x509_crt_profile) (m : Z) (crt : crt_ptr) : Prop :=
  exists (c : mbedtls_x509_crt) (next : crt_ptr)
         (child : mbedtls_x509_crt_frame),
    crt = c :: next /\ crt_frame c = Some child
    /\ mbedtls_x509_name_cmp_raw (issuer_raw child) (subject_raw child) None
       = 0
    /\ x509_crt_check_ee_locally_trusted child trust_ca = 0
    /\ time_checked m child
    /\ sig_alg_checked profile m child.

(** The invariant of the loop of [x509_crt_verify_chain] behind the reading
    of the flags: [parent_crt] holds NULL or nothing; before the first
    store the child is the certificate handed in; and when no flag of [m]
    is set in the chain so far, a checked chain from the child on, with
    the length of the chain and [self_cnt] as its counts (for a trusted
    child, its validity), makes one from the certificate handed in. *)
Definition verify_chain_explained `{X509Core} `{Config} `{PkMd}
    (crt trust_ca : crt_ptr) (ca_crl : list mbedtls_x509_crl)
    (f_ca_cb : option mbedtls_x509_crt_ca_cb_t)
    (profile : mbedtls_x509_crt_profile) (m : Z) (st : verify_chain_state)
  : Prop :=
  (vs_parent_crt st = None \/ vs_parent_crt st = Some [])
  /\ (len (vs_chain st) = 0%nat ->
      vs_child_crt st = crt /\ vs_child_is_trusted st = false)
  /\ (chain_flags_clear m (vs_chain st) ->
      (if vs_child_is_trusted st
       then exists c n f,
              vs_child_crt st = c :: n /\ crt_frame c = Some f
              /\ time_checked m f
       else chain_checked trust_ca ca_crl f_ca_cb profile m
              (len (vs_chain st)) (vs_self_cnt st) (vs_child_crt st)) ->
      ee_locally_trusted trust_ca profile m crt
      \/ chain_checked trust_ca ca_crl f_ca_cb profile m 0 0 crt).

(** ** The KeyUsage and NetscapeCertType decoders *)

(** [mbedtls_x509_bitstring]: the number of bytes, the number of unused
    bits and the bytes from [p] on. *)
Record mbedtls_x509_bitstring : Type := {
  bs_len : nat;
  bs_unused_bits : Z;
  bs_p : list Z
}.

Class Asn1Bitstring : Type := {
  (* int mbedtls_asn1_get_bitstring( p, end, &bs ) *)
  mbedtls_asn1_get_bitstring : list Z -> asn1_read mbedtls_x509_bitstring
}.

(** The state a decoder of one field leaves: its return code, the cursor
    and the output parameter. *)
Record field_result : Type := {
  fr_ret : Z;
  fr_p : list Z;
  fr_out : Z
}.

(** The [for] loop of [x509_get_key_usage] from [i] on.  Its condition
    holds for [i] below sizeof( unsigned int ) = 4 only, so that it makes
    at most four passes; [budget] is that number. *)
Fixpoint x509_get_key_usage_from (budget : nat) (bs : mbedtls_x509_bitstring)
    (i : nat) (key_usage : Z) : Z :=
  match budget with
  | O => key_usage
  | S budget' =>
    if (i <? bs_len bs)%nat && (i <? 4)%nat then
      x509_get_key_usage_from budget' bs (S i)
        (Z.lor key_usage
           (to_uint32 (Z.shiftl (nth i (bs_p bs) 0) (8 * Z.of_nat i))))
    else key_usage
  end.

(** [x509_get_key_usage]; [key_usage] is what the output parameter holds on
    entry. *)
Definition x509_get_key_usage `{Asn1Bitstring} (p : list Z) (key_usage : Z)
  : field_result :=
  let bs := {| bs_len := 0; bs_unused_bits := 0; bs_p := [] |} in
  let r := mbedtls_asn1_get_bitstring p in
  let bs := written bs (rd_out r) in
  if negb (rd_ret r =? 0) then
    {| fr_ret := rd_ret r; fr_p := rd_p r; fr_out := key_usage |}
  else if (bs_len bs <? 1)%nat then
    {| fr_ret := MBEDTLS_ERR_ASN1_INVALID_LENGTH; fr_p := rd_p r;
       fr_out := key_usage |}
  else
    (* Get actual bitstring *)
    {| fr_ret := 0; fr_p := rd_p r;
       fr_out := x509_get_key_usage_from 4 bs 0 0 |}.

(** [x509_get_ns_cert_type]. *)
Definition x509_get_ns_cert_type `{Asn1Bitstring} (p : list Z)
    (ns_cert_type : Z) : field_result :=
  let bs := {| bs_len := 0; bs_unused_bits := 0; bs_p := [] |} in
  let r := mbedtls_asn1_get_bitstring p in
  let bs := written bs (rd_out r) in
  if negb (rd_ret r =? 0) then
    {| fr_ret := rd_ret r; fr_p := rd_p r; fr_out := ns_cert_type |}
  else if negb (bs_len bs =? 1)%nat then
    {| fr_ret := MBEDTLS_ERR_ASN1_INVALID_LENGTH; fr_p := rd_p r;
       fr_out := ns_cert_type |}
  else
    (* Get actual bitstring *)
    {| fr_ret := 0; fr_p := rd_p r; fr_out := nth 0 (bs_p bs) 0 |}.

(** A reference reader of BIT STRINGs, for the examples. *)
Module ReferenceBits.

(** Modelled from the spec: [get_bitstring] of §4.A (asn1parse.c is not
    among the sources): a BIT STRING (tag 3) whose first content byte is
    the number of unused bits, at most 7, and whose other content bytes are
    the value, which must end where the range ends. *)
Definition asn1_get_bitstring (p : list Z)
  : asn1_read mbedtls_x509_bitstring :=
  let r := Reference.asn1_get_tag p 3 (* BIT STRING *) in
  if negb (rd_ret r =? 0) then AsnRead (rd_ret r) None (rd_p r)
  else
    match written 0%nat (rd_out r), rd_p r with
    | S n, unused :: body =>
      if 7 <? unused then AsnRead MBEDTLS_ERR_ASN1_INVALID_LENGTH None (rd_p r)
      else if negb (n =? length body)%nat
      then AsnRead MBEDTLS_ERR_ASN1_LENGTH_MISMATCH None (skipn n body)
      else AsnRead 0 (Some {| bs_len := n; bs_unused_bits := unused;
                              bs_p := body |}) (skipn n body)
    | _, _ => AsnRead MBEDTLS_ERR_ASN1_OUT_OF_DATA None (rd_p r)
    end.

#[export] Instance asn1bitstring : Asn1Bitstring := {|
  mbedtls_asn1_get_bitstring := asn1_get_bitstring
|}.

(** The KeyUsage value with keyCertSign and cRLSign: 03 02 01 06. *)
Definition ku_cert_crl_sign : list Z := [3; 2; 1; 6].

End ReferenceBits.

(** ** Extended key usage *)

Definition MBEDTLS_ASN1_OID : Z := 6.
Definition MBEDTLS_X509_EXT_EXTENDED_KEY_USAGE : Z := 2048.   (* 1 << 11 *)

(** MBEDTLS_OID_ANY_EXTENDED_KEY_USAGE, the OID 2.5.29.37.0. *)
Definition MBEDTLS_OID_ANY_EXTENDED_KEY_USAGE : list Z := [85; 29; 37; 0].

(** The frame with the fields that verification does not read: in the
    source [v3_ext], [ext_key_usage_raw], [crt_policies_raw] and
    [ns_cert_type] are fields of [mbedtls_x509_crt_frame] like the ones
    held in [xf_frame]. *)
Record mbedtls_x509_crt_ext_frame : Type := {
  xf_frame : mbedtls_x509_crt_frame;
  v3_ext : list Z;
  ext_key_usage_raw : list Z;
  crt_policies_raw : list Z;
  ns_cert_type : Z
}.

(** The callback handed to the traversal of the ExtendedKeyUsage; the
    context is the OID asked for.  [MBEDTLS_OID_CMP_RAW] and the test of
    the length followed by [memcmp] both compare two runs of bytes. *)
Definition x509_crt_check_ext_key_usage_cb (usage_oid : list Z)
    (tag : Z) (data : list Z) : Z :=
  if bytes_eqb MBEDTLS_OID_ANY_EXTENDED_KEY_USAGE data then 1
  else if (length data =? length usage_oid)%nat && bytes_eqb data usage_oid
       then 1
       else 0.

(** [mbedtls_x509_crt_check_extended_key_usage], which exists when
    MBEDTLS_X509_CHECK_EXTENDED_KEY_USAGE is defined; [frame] is what
    [mbedtls_x509_crt_frame_acquire] hands out for the certificate, [None]
    for a nonzero return. *)
Definition mbedtls_x509_crt_check_extended_key_usage `{Asn1Parse}
    (frame : option mbedtls_x509_crt_ext_frame) (usage_oid : list Z) : Z :=
  match frame with
  | None => MBEDTLS_ERR_X509_FATAL_ERROR
  | Some frame =>
    (* Extension is not mandatory, absent means no restriction *)
    let ext_types := to_uint32 (ext_types (xf_frame frame)) in
    if negb (Z.land ext_types MBEDTLS_X509_EXT_EXTENDED_KEY_USAGE =? 0) then
      let ret :=
        mbedtls_asn1_traverse_sequence_of (ext_key_usage_raw frame)
          255 MBEDTLS_ASN1_OID 0 0
          (Some (x509_crt_check_ext_key_usage_cb usage_oid)) in
      if ret =? 1 then 0 else MBEDTLS_ERR_X509_BAD_INPUT_DATA
    else 0
  end.

(** The first answer other than 0 in a run of answers of a callback, 0
    when there is none. *)
Fixpoint first_nonzero (answers : list Z) : Z :=
  match answers with
  | [] => 0
  | x :: rest => if negb (x =? 0) then x else first_nonzero rest
  end.

(** An ExtendedKeyUsage value with serverAuth (1.3.6.1.5.5.7.3.1) and
    clientAuth (1.3.6.1.5.5.7.3.2), and a frame that holds it. *)
Definition oid_server_auth : list Z := [43; 6; 1; 5; 5; 7; 3; 1].
Definition oid_client_auth : list Z := [43; 6; 1; 5; 5; 7; 3; 2].
Definition oid_code_signing : list Z := [43; 6; 1; 5; 5; 7; 3; 3].

Definition eku_server_client : list Z :=
  Samples.der_tlv 48
    (Samples.der_tlv 6 oid_server_auth ++ Samples.der_tlv 6 oid_client_auth).

Definition eku_frame : mbedtls_x509_crt_ext_frame :=
  let f := Samples.sample_frame "example.com" "R" [100] 0 Samples.t2020
             Samples.t2030 in
  {| xf_frame :=
       {| version := 3; sig_md := sig_md f; sig_pk := sig_pk f;
          valid_from := valid_from f; valid_to := valid_to f;
          raw := raw f; tbs := tbs f; serial := serial f;
          issuer_raw := issuer_raw f; subject_raw := subject_raw f;
          sig := sig f; subject_alt_raw := [];
          ca_istrue := 0; max_pathlen := 0;
          ext_types := MBEDTLS_X509_EXT_EXTENDED_KEY_USAGE; key_usage := 0 |};
     v3_ext := []; ext_key_usage_raw := eku_server_client;
     crt_policies_raw := []; ns_cert_type := 0 |}.

(** ** The extension walker *)

(** Further constants of the public headers asn1.h, x509.h and oid.h. *)
Definition MBEDTLS_ASN1_OCTET_STRING : Z := 4.
Definition MBEDTLS_ERR_X509_FEATURE_UNAVAILABLE : Z := -8320.   (* -0x2080 *)
Definition MBEDTLS_ERR_X509_INVALID_EXTENSIONS : Z := -9472.    (* -0x2500 *)
Definition MBEDTLS_OID_X509_EXT_CERTIFICATE_POLICIES : Z := 8.  (* 1 << 3 *)
Definition MBEDTLS_X509_EXT_NS_CERT_TYPE : Z := 65536.          (* 1 << 16 *)

Class OidTable : Type := {
  (* int mbedtls_oid_get_x509_ext_type( oid, &ext_type ): the return code
     and the type written, if one was *)
  mbedtls_oid_get_x509_ext_type : list Z -> Z * option Z
}.

Class Asn1Walk : Type := {
  (* int mbedtls_asn1_traverse_sequence_of( p, end, tag_must_mask,
         tag_must_val, tag_may_mask, tag_may_val, cb, ctx ) for a callback
     that stores through its context: the return code and the context as
     the callback left it *)
  mbedtls_asn1_traverse_sequence_of_ctx :
    forall S : Type,
      list Z -> Z -> Z -> Z -> Z -> (S -> Z -> list Z -> Z * S) -> S -> Z * S
}.

(** A callback for checking that the data is a constructed sequence of
    OID. *)
Definition x509_crt_check_sequence_of_oid_cb `{Asn1Parse} (tag : Z)
    (data : list Z) : Z :=
  if negb (tag =? Z.lor MBEDTLS_ASN1_CONSTRUCTED MBEDTLS_ASN1_SEQUENCE) then
    MBEDTLS_ERR_X509_INVALID_EXTENSIONS + MBEDTLS_ERR_ASN1_UNEXPECTED_TAG
  else
    let r := mbedtls_asn1_get_tag data MBEDTLS_ASN1_OID in
    if negb (rd_ret r =? 0)
    then to_int (MBEDTLS_ERR_X509_INVALID_EXTENSIONS + rd_ret r)
    else 0.

(** Stores into the fields of a frame. *)
Definition frame_set_ext_types (frame : mbedtls_x509_crt_frame) (v : Z)
  : mbedtls_x509_crt_frame :=
  {| version := version frame; sig_md := sig_md frame; sig_pk := sig_pk frame;
     valid_from := valid_from frame; valid_to := valid_to frame;
     raw := raw frame; tbs := tbs frame; serial := serial frame;
     issuer_raw := issuer_raw frame; subject_raw := subject_raw frame;
     sig := sig frame; subject_alt_raw := subject_alt_raw frame;
     ca_istrue := ca_istrue frame; max_pathlen := max_pathlen frame;
     ext_types := v; key_usage := key_usage frame |}.

Definition frame_set_key_usage (frame : mbedtls_x509_crt_frame) (v : Z)
  : mbedtls_x509_crt_frame :=
  {| version := version frame; sig_md := sig_md frame; sig_pk := sig_pk frame;
     valid_from := valid_from frame; valid_to := valid_to frame;
     raw := raw frame; tbs := tbs frame; serial := serial frame;
     issuer_raw := issuer_raw frame; subject_raw := subject_raw frame;
     sig := sig frame; subject_alt_raw := subject_alt_raw frame;
     ca_istrue := ca_istrue frame; max_pathlen := max_pathlen frame;
     ext_types := ext_types frame; key_usage := v |}.

Definition frame_set_subject_alt_raw (frame : mbedtls_x509_crt_frame)
    (v : list Z) : mbedtls_x509_crt_frame :=
  {| version := version frame; sig_md := sig_md frame; sig_pk := sig_pk frame;
     valid_from := valid_from frame; valid_to := valid_to frame;
     raw := raw frame; tbs := tbs frame; serial := serial frame;
     issuer_raw := issuer_raw frame; subject_raw := subject_raw frame;
     sig := sig frame; subject_alt_raw := v;
     ca_istrue := ca_istrue frame; max_pathlen := max_pathlen frame;
     ext_types := ext_types frame; key_usage := key_usage frame |}.

Definition ext_frame_set_frame (frame : mbedtls_x509_crt_ext_frame)
    (f : mbedtls_x509_crt_frame) : mbedtls_x509_crt_ext_frame :=
  {| xf_frame := f; v3_ext := v3_ext frame;
     ext_key_usage_raw := ext_key_usage_raw frame;
     crt_policies_raw := crt_policies_raw frame;
     ns_cert_type := ns_cert_type frame |}.

Definition ext_frame_set_ext_key_usage_raw (frame : mbedtls_x509_crt_ext_frame)
    (v : list Z) : mbedtls_x509_crt_ext_frame :=
  {| xf_frame := xf_frame frame; v3_ext := v3_ext frame;
     ext_key_usage_raw := v;
     crt_policies_raw := crt_policies_raw frame;
     ns_cert_type := ns_cert_type frame |}.

Definition ext_frame_set_crt_policies_raw (frame : mbedtls_x509_crt_ext_frame)
    (v : list Z) : mbedtls_x509_crt_ext_frame :=
  {| xf_frame := xf_frame frame; v3_ext := v3_ext frame;
     ext_key_usage_raw := ext_key_usage_raw frame;
     crt_policies_raw := v;
     ns_cert_type := ns_cert_type frame |}.

Definition ext_frame_set_ns_cert_type (frame : mbedtls_x509_crt_ext_frame)
    (v : Z) : mbedtls_x509_crt_ext_frame :=
  {| xf_frame := xf_frame frame; v3_ext := v3_ext frame;
     ext_key_usage_raw := ext_key_usage_raw frame;
     crt_policies_raw := crt_policies_raw frame;
     ns_cert_type := v |}.

(** What [x509_crt_get_ext_cb] has read when it comes to look at the frame:
    the OID of the extension, the critical flag and the value, that is the
    bytes inside the OCTET STRING. *)
Record ext_header : Type := {
  eh_extn_oid : list Z;
  eh_is_critical : Z;
  eh_value : list Z
}.

(** [x509_crt_get_ext_cb] up to the look-up of the OID: the return code on
    the way to the label [err], or the header. *)
Definition x509_crt_get_ext_cb_header `{Asn1Parse} (p : list Z)
  : Z + ext_header :=
  let is_critical := 0 in   (* DEFAULT FALSE *)
  (* Get extension ID *)
  let r := mbedtls_asn1_get_tag p MBEDTLS_ASN1_OID in
  if negb (rd_ret r =? 0) then inl (rd_ret r)
  else
  let extn_oid_len := written 0%nat (rd_out r) in
  let extn_oid := firstn extn_oid_len (rd_p r) in
  let p := skipn extn_oid_len (rd_p r) in
  (* Get optional critical *)
  let rb := mbedtls_asn1_get_bool p in
  let is_critical := written is_critical (rd_out rb) in
  let p := rd_p rb in
  if negb (rd_ret rb =? 0)
     && negb (rd_ret rb =? MBEDTLS_ERR_ASN1_UNEXPECTED_TAG)
  then inl (rd_ret rb)
  else
  (* Data should be octet string type *)
  let ro := mbedtls_asn1_get_tag p MBEDTLS_ASN1_OCTET_STRING in
  if negb (rd_ret ro =? 0) then inl (rd_ret ro)
  else
  let len := written 0%nat (rd_out ro) in
  let p := rd_p ro in
  (* end_ext_octet is p + len, end the end of the extension *)
  if negb (len =? length p)%nat then inl MBEDTLS_ERR_ASN1_LENGTH_MISMATCH
  else inr {| eh_extn_oid := extn_oid; eh_is_critical := is_critical;
              eh_value := p |}.

(** The [switch] of [x509_crt_get_ext_cb], entered with the bit of the
    extension stored in [ext_types]: the return code and the frame. *)
Definition x509_crt_get_ext_cb_switch `{Asn1Parse} `{Asn1Bitstring}
    (frame : mbedtls_x509_crt_ext_frame) (ext_type is_critical : Z)
    (p : list Z) : Z * mbedtls_x509_crt_ext_frame :=
  if ext_type =? MBEDTLS_X509_EXT_BASIC_CONSTRAINTS then
    (* Parse basic constraints *)
    let '(ret, f) := x509_crt_get_ext_cb_basic_constraints (xf_frame frame) p in
    (ret, ext_frame_set_frame frame f)
  else if ext_type =? MBEDTLS_X509_EXT_KEY_USAGE then
    (* Parse key usage *)
    let r := x509_get_key_usage p (key_usage (xf_frame frame)) in
    (fr_ret r,
     ext_frame_set_frame frame (frame_set_key_usage (xf_frame frame) (fr_out r)))
  else if ext_type =? MBEDTLS_X509_EXT_SUBJECT_ALT_NAME then
    (* Copy reference to raw subject alt name data. *)
    let frame :=
      ext_frame_set_frame frame
        (frame_set_subject_alt_raw (xf_frame frame) p) in
    (mbedtls_asn1_traverse_sequence_of p
       MBEDTLS_ASN1_TAG_CLASS_MASK MBEDTLS_ASN1_CONTEXT_SPECIFIC
       MBEDTLS_ASN1_TAG_CLASS_MASK MBEDTLS_ASN1_CONTEXT_SPECIFIC None,
     frame)
  else if ext_type =? MBEDTLS_X509_EXT_EXTENDED_KEY_USAGE then
    (* Parse extended key usage *)
    let frame := ext_frame_set_ext_key_usage_raw frame p in
    if (length p =? 0)%nat then (MBEDTLS_ERR_ASN1_INVALID_LENGTH, frame)
    else
      (* structural sanity of the extension *)
      (mbedtls_asn1_traverse_sequence_of p 255 MBEDTLS_ASN1_OID 0 0 None,
       frame)
  else if ext_type =? MBEDTLS_OID_X509_EXT_CERTIFICATE_POLICIES then
    (* Copy reference to raw crt policies data. *)
    let frame := ext_frame_set_crt_policies_raw frame p in
    (* structural sanity of the extension *)
    (mbedtls_asn1_traverse_sequence_of p
       255 (Z.lor MBEDTLS_ASN1_CONSTRUCTED MBEDTLS_ASN1_SEQUENCE)
       255 (Z.lor MBEDTLS_ASN1_CONSTRUCTED MBEDTLS_ASN1_SEQUENCE)
       (Some x509_crt_check_sequence_of_oid_cb),
     frame)
  else if ext_type =? MBEDTLS_X509_EXT_NS_CERT_TYPE then
    (* Parse netscape certificate type *)
    let r := x509_get_ns_cert_type p (ns_cert_type frame) in
    (fr_ret r, ext_frame_set_ns_cert_type frame (fr_out r))
  else
    (* If this is a non-critical extension, which the oid layer supports,
       but there isn't an X.509 parser for it, skip the extension. *)
    if negb (is_critical =? 0)
    then (MBEDTLS_ERR_X509_FEATURE_UNAVAILABLE, frame)
    else (0, frame).

(** [x509_crt_get_ext_cb], the callback of the traversal of the
    extensions, in a build without
    MBEDTLS_X509_ALLOW_UNSUPPORTED_CRITICAL_EXTENSION; the context is the
    frame, [p] holds the [ext_len] bytes of the extension. *)
Definition x509_crt_get_ext_cb `{Asn1Parse} `{Asn1Bitstring} `{OidTable}
    (frame : mbedtls_x509_crt_ext_frame) (tag : Z) (p : list Z)
  : Z * mbedtls_x509_crt_ext_frame :=
  let ext_type := 0 in
  match x509_crt_get_ext_cb_header p with
  | inl ret => (ret, frame)
  | inr h =>
    (* Detect supported extensions *)
    let '(ret, out) := mbedtls_oid_get_x509_ext_type (eh_extn_oid h) in
    let ext_type := written ext_type out in
    if negb (ret =? 0) then
      if negb (eh_is_critical h =? 0)
      then (* Data is marked as critical: fail *)
           (MBEDTLS_ERR_ASN1_UNEXPECTED_TAG, frame)
      else (0, frame)
    else
    (* Forbid repeated extensions *)
    if negb (Z.land (ext_types (xf_frame frame)) ext_type =? 0)
    then (MBEDTLS_ERR_X509_INVALID_EXTENSIONS, frame)
    else
      let frame :=
        ext_frame_set_frame frame
          (frame_set_ext_types (xf_frame frame)
             (Z.lor (ext_types (xf_frame frame)) ext_type)) in
      x509_crt_get_ext_cb_switch frame ext_type (eh_is_critical h)
        (eh_value h)
  end.

(** [x509_crt_frame_parse_ext]: the return code and the frame. *)
Definition x509_crt_frame_parse_ext `{Asn1Parse} `{Asn1Bitstring} `{OidTable}
    `{Asn1Walk} (frame : mbedtls_x509_crt_ext_frame)
  : Z * mbedtls_x509_crt_ext_frame :=
  match v3_ext frame with
  | [] => (0, frame)
  | _ :: _ =>
    let '(ret, frame) :=
      mbedtls_asn1_traverse_sequence_of_ctx mbedtls_x509_crt_ext_frame
        (v3_ext frame)
        255 (Z.lor MBEDTLS_ASN1_SEQUENCE MBEDTLS_ASN1_CONSTRUCTED) 0 0
        x509_crt_get_ext_cb frame in
    if ret =? MBEDTLS_ERR_X509_FEATURE_UNAVAILABLE then (ret, frame)
    else if ret =? MBEDTLS_ERR_X509_INVALID_EXTENSIONS then (ret, frame)
    else if negb (ret =? 0)
         then (to_int (ret + MBEDTLS_ERR_X509_INVALID_EXTENSIONS), frame)
         else (ret, frame)
  end.

(** What the traversal of a sequence does with a callback that keeps
    state, once the elements are cut out: the callback sees them in
    order, each with the tag [tag], and its first nonzero answer ends the
    traversal. *)
Fixpoint traverse_elements {S : Type} (cb : S -> Z -> list Z -> Z * S)
    (tag : Z) (elements : list (list Z)) (s : S) : Z * S :=
  match elements with
  | [] => (0, s)
  | e :: rest =>
    let '(ret, s') := cb s tag e in
    if negb (ret =? 0) then (ret, s')
    else traverse_elements cb tag rest s'
  end.

(** The type [x509_crt_get_ext_cb] finds for an extension: the one the OID
    table gives for the OID of a header that parses. *)
Definition ext_type_of `{Asn1Parse} `{OidTable} (ext : list Z) : option Z :=
  match x509_crt_get_ext_cb_header ext with
  | inl _ => None
  | inr h =>
    let '(ret, out) := mbedtls_oid_get_x509_ext_type (eh_extn_oid h) in
    if negb (ret =? 0) then None else Some (written 0 out)
  end.

Module ReferenceExt.

Import Reference ReferenceBits.

(** Modelled from the spec: the loop of the sequence-of traversal of §4.A
    as in [Reference.asn1_traverse_elements], for a callback that keeps
    state. *)
Fixpoint asn1_traverse_elements_ctx {S : Type} (budget : nat) (p : list Z)
    (tag_must_mask tag_must_val tag_may_mask tag_may_val : Z)
    (cb : S -> Z -> list Z -> Z * S) (s : S) : Z * S :=
  match budget, p with
  | _, [] => (0, s)
  | O, _ :: _ => (MBEDTLS_ERR_ASN1_OUT_OF_DATA, s)
  | S budget', tag :: rest =>
    if negb (Z.land tag tag_must_mask =? tag_must_val)
    then (MBEDTLS_ERR_ASN1_UNEXPECTED_TAG, s)
    else
      let r := asn1_get_len rest in
      if negb (rd_ret r =? 0) then (rd_ret r, s)
      else
        let n := written 0%nat (rd_out r) in
        if Z.land tag tag_may_mask =? tag_may_val then
          let '(ret, s') := cb s tag (firstn n (rd_p r)) in
          if negb (ret =? 0) then (ret, s')
          else asn1_traverse_elements_ctx budget' (skipn n (rd_p r))
                 tag_must_mask tag_must_val tag_may_mask tag_may_val cb s'
        else asn1_traverse_elements_ctx budget' (skipn n (rd_p r))
               tag_must_mask tag_must_val tag_may_mask tag_may_val cb s
  end.

(** Modelled from the spec: the "generic sequence-of traversal" of §4.A as
    in [Reference.asn1_traverse_sequence_of], for a callback that keeps
    state. *)
Definition asn1_traverse_sequence_of_ctx (S : Type) (p : list Z)
    (tag_must_mask tag_must_val tag_may_mask tag_may_val : Z)
    (cb : S -> Z -> list Z -> Z * S) (s : S) : Z * S :=
  let r := asn1_get_tag p
             (Z.lor MBEDTLS_ASN1_CONSTRUCTED MBEDTLS_ASN1_SEQUENCE) in
  if negb (rd_ret r =? 0) then (rd_ret r, s)
  else if negb (written 0%nat (rd_out r) =? length (rd_p r))%nat
  then (MBEDTLS_ERR_ASN1_LENGTH_MISMATCH, s)
  else asn1_traverse_elements_ctx (length (rd_p r)) (rd_p r)
         tag_must_mask tag_must_val tag_may_mask tag_may_val cb s.

#[export] Instance asn1walk : Asn1Walk := {|
  mbedtls_asn1_traverse_sequence_of_ctx := asn1_traverse_sequence_of_ctx
|}.

(** Modelled from the spec: the "static table" of §4.C that maps the OID
    of an extension to its kind, with the rows of BasicConstraints
    (2.5.29.19) and KeyUsage (2.5.29.15); any other OID is unknown, which
    the look-up answers with a nonzero code and nothing written. *)
Definition oid_get_x509_ext_type (oid : list Z) : Z * option Z :=
  if bytes_eqb oid [85; 29; 19]
  then (0, Some MBEDTLS_X509_EXT_BASIC_CONSTRAINTS)
  else if bytes_eqb oid [85; 29; 15]
  then (0, Some MBEDTLS_X509_EXT_KEY_USAGE)
  else (-46, None).

#[export] Instance oidtable : OidTable := {|
  mbedtls_oid_get_x509_ext_type := oid_get_x509_ext_type
|}.

(** A critical BasicConstraints with cA TRUE and a KeyUsage with
    keyCertSign and cRLSign, as the traversal hands them to the callback. *)
Definition ext_basic_constraints : list Z :=
  [6; 3; 85; 29; 19; 1; 1; 255; 4; 5; 48; 3; 1; 1; 255].
Definition ext_key_usage : list Z :=
  [6; 3; 85; 29; 15; 4; 4; 3; 2; 1; 6].

(** The Extensions of a certificate with these two. *)
Definition v3_ext_ca : list Z :=
  Samples.der_tlv 48
    (Samples.der_tlv 48 ext_basic_constraints
     ++ Samples.der_tlv 48 ext_key_usage).

(** A frame as [x509_crt_parse_frame] hands it to
    [x509_crt_frame_parse_ext]: no extension seen yet. *)
Definition ext_frame_ca : mbedtls_x509_crt_ext_frame :=
  {| xf_frame := frame_set_ext_types (xf_frame eku_frame) 0;
     v3_ext := v3_ext_ca;
     ext_key_usage_raw := []; crt_policies_raw := []; ns_cert_type := 0 |}.

(** A critical extension with an OID that is not in the table
    (2.5.29.99), and the Extensions with it after a BasicConstraints. *)
Definition ext_unknown_critical : list Z :=
  [6; 3; 85; 29; 99; 1; 1; 255; 4; 2; 5; 0].

Definition ext_frame_unknown : mbedtls_x509_crt_ext_frame :=
  {| xf_frame := frame_set_ext_types (xf_frame eku_frame) 0;
     v3_ext :=
       Samples.der_tlv 48
         (Samples.der_tlv 48 ext_basic_constraints
          ++ Samples.der_tlv 48 ext_unknown_critical);
     ext_key_usage_raw := []; crt_policies_raw := []; ns_cert_type := 0 |}.

End ReferenceExt.

(** * Properties *)

(** ** Machine integers *)

Lemma to_int_in_range (z : Z) : INT_MIN <= z <= INT_MAX -> to_int z = z.
Proof.
  unfold to_int, INT_MIN, INT_MAX. intros Hz.
  rewrite Z.mod_small; lia.
Qed.

Lemma to_int_succ_max : to_int (INT_MAX + 1) = INT_MIN.
Proof. reflexivity. Qed.

Lemma to_int_bounds (z : Z) : INT_MIN <= to_int z <= INT_MAX.
Proof.
  unfold to_int, INT_MIN, INT_MAX.
  pose proof (Z.mod_pos_bound (z + 2 ^ 31) (2 ^ 32) ltac:(lia)). lia.
Qed.

Lemma to_uint32_in_range (z : Z) : 0 <= z < 2 ^ 32 -> to_uint32 z = z.
Proof. unfold to_uint32. intros Hz. apply Z.mod_small. lia. Qed.

Lemma bytes_eqb_eq (a b : list Z) : bytes_eqb a b = true <-> a = b.
Proof.
  revert b. induction a as [|x a IH]; intros [|y b]; simpl; split;
    try congruence; try reflexivity.
  - intros H. apply andb_true_iff in H as [Hx Hab].
    apply Z.eqb_eq in Hx. apply IH in Hab. congruence.
  - intros H. injection H as -> ->. rewrite Z.eqb_refl. simpl. now apply IH.
Qed.

Lemma bytes_eqb_refl (a : list Z) : bytes_eqb a a = true.
Proof. now apply bytes_eqb_eq. Qed.

(** ** The wildcard matcher *)

Lemma first_dot_at_unique (cn : list Z) (j k : nat) :
  first_dot_at cn j -> first_dot_at cn k -> j = k.
Proof.
  intros [Hj Hj'] [Hk Hk'].
  destruct (Nat.lt_trichotomy j k) as [Hlt | [Heq | Hgt]]; [|assumption|].
  - exfalso. exact (Hk' j Hlt Hj).
  - exfalso. exact (Hj' k Hgt Hk).
Qed.

Lemma first_dot_at_cons_dot (cn : list Z) : first_dot_at (46 :: cn) 0.
Proof. split; [reflexivity | intros j Hj; lia]. Qed.

Lemma first_dot_at_cons_other (c : Z) (cn : list Z) (k : nat) :
  c <> 46 -> first_dot_at cn k <-> first_dot_at (c :: cn) (S k).
Proof.
  intros Hc. split.
  - intros [Hk Hlt]. split; [exact Hk|].
    intros [|j] Hj; simpl; [congruence | apply Hlt; lia].
  - intros [Hk Hlt]. split; [exact Hk|].
    intros j Hj. apply (Hlt (S j)). lia.
Qed.

(** The scan returns the index of the first dot, offset by where it
    started, or the initial 0 when there is no dot. *)
Lemma x509_check_wildcard_scan_spec (cn : list Z) (i : nat) :
  (exists k, first_dot_at cn k /\ x509_check_wildcard_scan cn i = (i + k)%nat)
  \/ ((forall k, ~ first_dot_at cn k) /\ x509_check_wildcard_scan cn i = 0%nat).
Proof.
  revert i. induction cn as [|c cn IH]; intros i; simpl.
  - right. split; [|reflexivity]. intros k [Hk _]. destruct k; discriminate.
  - destruct (Z.eqb_spec c 46) as [-> | Hc].
    + left. exists 0%nat. split; [apply first_dot_at_cons_dot | lia].
    + destruct (IH (S i)) as [(k & Hk & Hscan) | (Hnone & Hscan)].
      * left. exists (S k). split; [now apply first_dot_at_cons_other | lia].
      * right. split; [|exact Hscan].
        intros [|k] Hk.
        -- destruct Hk as [Hk _]. simpl in Hk. congruence.
        -- apply (Hnone k). now apply (first_dot_at_cons_other c).
Qed.

Lemma x509_check_wildcard_scan_found (cn : list Z) (k : nat) :
  first_dot_at cn k -> x509_check_wildcard_scan cn 0 = k.
Proof.
  intros Hk.
  destruct (x509_check_wildcard_scan_spec cn 0)
    as [(k' & Hk' & Hscan) | (Hnone & _)].
  - rewrite Hscan. simpl. exact (first_dot_at_unique _ _ _ Hk' Hk).
  - exfalso. exact (Hnone k Hk).
Qed.

Lemma x509_check_wildcard_scan_nonzero (cn : list Z) :
  x509_check_wildcard_scan cn 0 <> 0%nat ->
  first_dot_at cn (x509_check_wildcard_scan cn 0).
Proof.
  intros Hnz.
  destruct (x509_check_wildcard_scan_spec cn 0)
    as [(k & Hk & Hscan) | (_ & Hscan)]; [|congruence].
  rewrite Hscan. exact Hk.
Qed.

Lemma x509_check_wildcard_values `{X509Core} (cn buf : list Z) :
  x509_check_wildcard cn buf = 0 \/ x509_check_wildcard cn buf = -1.
Proof.
  unfold x509_check_wildcard.
  repeat match goal with |- context [if ?b then _ else _] => destruct b end;
    auto.
Qed.

Lemma wildcard_prefix_test (buf : list Z) :
  (length buf <? 3)%nat || negb (nth 0 buf 0 =? 42) || negb (nth 1 buf 0 =? 46)
    = false
  <-> (3 <= length buf)%nat /\ buf !! 0%nat = Some 42 /\ buf !! 1%nat = Some 46.
Proof.
  destruct buf as [|a [|b [|c buf]]]; simpl; split;
    try discriminate; try (intros (Hl & _); lia).
  - intros Hb. apply orb_false_iff in Hb as [Ha Hb].
    apply negb_false_iff, Z.eqb_eq in Ha, Hb. subst.
    repeat split; lia.
  - intros (_ & Ha & Hb). injection Ha as ->. injection Hb as ->. reflexivity.
Qed.

(** C8.  The wildcard matcher reports a match (returns 0, and -1 otherwise)
    exactly when the pattern [buf] has at least three bytes and begins with
    a star and a dot, the first dot of the name [cn] is at a position
    [k > 0], and [buf] from index 1 on equals [cn] from index [k] on under
    the case-insensitive comparison; with the case-insensitive comparison
    of the reference implementation, the pattern *.example.com matches
    foo.example.com and matches neither example.com nor a.b.example.com. *)
Theorem x509_check_wildcard_correct :
  (forall (X : X509Core) (cn buf : list Z),
     (x509_check_wildcard cn buf = 0 <-> spec_wildcard_match cn buf)
     /\ (x509_check_wildcard cn buf = 0 \/ x509_check_wildcard cn buf = -1))
  /\ x509_check_wildcard (H := Reference.x509core)
       (bytes_of_string "foo.example.com") (bytes_of_string "*.example.com") = 0
  /\ x509_check_wildcard (H := Reference.x509core)
       (bytes_of_string "example.com") (bytes_of_string "*.example.com") = -1
  /\ x509_check_wildcard (H := Reference.x509core)
       (bytes_of_string "a.b.example.com") (bytes_of_string "*.example.com")
     = -1.
Proof.
  split; [|repeat split; reflexivity].
  intros X cn buf. split.
  - unfold x509_check_wildcard, spec_wildcard_match.
    destruct ((length buf <? 3)%nat || negb (nth 0 buf 0 =? 42)
              || negb (nth 1 buf 0 =? 46)) eqn:Hpre.
    + split; [discriminate|].
      intros (Hl & H0 & H1 & _).
      assert (Hf : (length buf <? 3)%nat || negb (nth 0 buf 0 =? 42)
                   || negb (nth 1 buf 0 =? 46) = false)
        by (apply wildcard_prefix_test; auto).
      congruence.
    + apply wildcard_prefix_test in Hpre as (Hl & H0 & H1).
      destruct (Nat.eqb_spec (x509_check_wildcard_scan cn 0) 0) as [Hz | Hnz].
      * split; [discriminate|].
        intros (_ & _ & _ & k & Hk & Hpos & _).
        apply x509_check_wildcard_scan_found in Hk. lia.
      * pose proof (x509_check_wildcard_scan_nonzero cn Hnz) as Hfirst.
        destruct (Z.eqb_spec
          (mbedtls_x509_memcasecmp (skipn 1 buf)
             (skipn (x509_check_wildcard_scan cn 0) cn)
             (length buf - 1)
             (length cn - x509_check_wildcard_scan cn 0)) 0) as [Heq | Hne].
        -- split; [|reflexivity]. intros _.
           repeat split; try assumption.
           exists (x509_check_wildcard_scan cn 0).
           repeat split; try apply Hfirst; try assumption. lia.
        -- split; [discriminate|].
           intros (_ & _ & _ & k & Hk & _ & Hcmp).
           apply x509_check_wildcard_scan_found in Hk. subst k. contradiction.
  - apply x509_check_wildcard_values.
Qed.

Lemma x509_check_wildcard_correct_witness :
  spec_wildcard_match (H := Reference.x509core)
    (bytes_of_string "foo.example.com") (bytes_of_string "*.example.com").
Proof.
  apply (proj1 x509_check_wildcard_correct Reference.x509core).
  reflexivity.
Defined.

(** ** The BasicConstraints decoder *)

Ltac bc_cases :=
  repeat match goal with
  | |- context [match ?x with _ => _ end] =>
    match type of x with
    | bool => destruct x eqn:?
    | list _ => destruct x eqn:?
    | option _ => destruct x eqn:?
    end
  | |- context [if ?b then _ else _] => destruct b eqn:?
  end.

(** C10.  In the BasicConstraints decoder, when the reader of the BOOLEAN
    cA answers with the unexpected-tag error, an INTEGER is read in its
    place and a nonzero value becomes 1 (a failure of that read is the
    failure of the decoder); any other error of the BOOLEAN reader is the
    failure of the decoder; and, the BOOLEAN reader storing 0 or 1 when it
    succeeds, [ca_istrue] is 0 or 1 after every successful decoding. *)
Theorem x509_get_basic_constraints_ca_istrue (A : Asn1Parse) (p : list Z) :
  let seq := mbedtls_asn1_get_tag p
               (Z.lor MBEDTLS_ASN1_CONSTRUCTED MBEDTLS_ASN1_SEQUENCE) in
  let rb := mbedtls_asn1_get_bool (rd_p seq) in
  let ri := mbedtls_asn1_get_int (rd_p rb) in
  let r := x509_get_basic_constraints p in
  (rd_ret rb = 0 ->
   rd_out rb = None \/ rd_out rb = Some 0 \/ rd_out rb = Some 1) ->
  (rd_ret seq = 0 -> rd_p seq <> [] ->
   rd_ret rb = MBEDTLS_ERR_ASN1_UNEXPECTED_TAG ->
   (rd_ret ri = 0 ->
    bc_ca_istrue r
    = if written (written 0 (rd_out rb)) (rd_out ri) =? 0 then 0 else 1)
   /\ (rd_ret ri <> 0 -> bc_ret r = rd_ret ri))
  /\ (rd_ret seq = 0 -> rd_p seq <> [] ->
      rd_ret rb <> 0 -> rd_ret rb <> MBEDTLS_ERR_ASN1_UNEXPECTED_TAG ->
      bc_ret r = rd_ret rb)
  /\ (bc_ret r = 0 -> bc_ca_istrue r = 0 \/ bc_ca_istrue r = 1).
Proof.
  intros seq rb ri r Hbool.
  subst r. unfold x509_get_basic_constraints.
  fold seq. fold rb. fold ri.
  destruct (Z.eqb_spec (rd_ret seq) 0) as [Hseq | Hseq]; simpl.
  2: { repeat split; intros; try contradiction; auto. }
  destruct (rd_p seq) as [|b0 q] eqn:Hq.
  { repeat split; intros; try contradiction; simpl; auto. }
  rewrite <- Hq in *. fold rb. fold ri.
  destruct (Z.eqb_spec (rd_ret rb) 0) as [Hrb | Hrb]; simpl.
  - (* the BOOLEAN was read *)
    assert (Hca : written 0 (rd_out rb) = 0 \/ written 0 (rd_out rb) = 1).
    { destruct (Hbool Hrb) as [-> | [-> | ->]]; simpl; auto. }
    split; [|split].
    + intros _ _ Htag. rewrite Hrb in Htag. discriminate.
    + intros _ _ Hne. contradiction.
    + bc_cases; simpl; intros Hret; try discriminate; exact Hca.
  - destruct (Z.eqb_spec (rd_ret rb) MBEDTLS_ERR_ASN1_UNEXPECTED_TAG)
      as [Htag | Htag]; simpl.
    + (* the INTEGER in place of the BOOLEAN *)
      destruct (Z.eqb_spec (rd_ret ri) 0) as [Hri | Hri]; simpl.
      * assert (Hnorm :
          (if negb (written (written 0 (rd_out rb)) (rd_out ri) =? 0)
           then 1 else written (written 0 (rd_out rb)) (rd_out ri))
          = if written (written 0 (rd_out rb)) (rd_out ri) =? 0
            then 0 else 1).
        { destruct (Z.eqb_spec (written (written 0 (rd_out rb)) (rd_out ri)) 0)
            as [-> | ?]; reflexivity. }
        rewrite Hnorm.
        split; [|split].
        -- intros _ _ _. split; [|intros; contradiction].
           intros _. bc_cases; reflexivity.
        -- intros _ _ _ Hne. contradiction.
        -- intros _.
           destruct (written (written 0 (rd_out rb)) (rd_out ri) =? 0);
             bc_cases; simpl; auto.
      * rewrite (proj2 (Z.eqb_neq _ _) Hri). simpl.
        split; [|split].
        -- intros _ _ _. split; [intros; contradiction | reflexivity].
        -- intros _ _ _ Hne. contradiction.
        -- intros Hret. simpl in Hret. contradiction.
    + rewrite (proj2 (Z.eqb_neq _ _) Hrb). simpl.
      split; [|split].
      * intros _ _ Heq. contradiction.
      * intros _ _ _ _. reflexivity.
      * intros Hret. simpl in Hret. contradiction.
Qed.

Lemma x509_get_basic_constraints_ca_istrue_witness :
  bc_ca_istrue (x509_get_basic_constraints (H := Reference.asn1parse)
                  Samples.bc_ca_integer) = 1
  /\ (bc_ca_istrue (x509_get_basic_constraints (H := Reference.asn1parse)
                      Samples.bc_pathlen_3) = 0
      \/ bc_ca_istrue (x509_get_basic_constraints (H := Reference.asn1parse)
                         Samples.bc_pathlen_3) = 1).
Proof.
  split.
  - refine (proj1 (proj1 (x509_get_basic_constraints_ca_istrue
                            Reference.asn1parse Samples.bc_ca_integer _)
                     _ _ _) _).
    + intros Hret. vm_compute in Hret. discriminate Hret.
    + reflexivity.
    + vm_compute. discriminate.
    + reflexivity.
    + reflexivity.
  - refine (proj2 (proj2 (x509_get_basic_constraints_ca_istrue
                            Reference.asn1parse Samples.bc_pathlen_3 _)) _).
    + intros _. right. right. reflexivity.
    + reflexivity.
Defined.

(** What a successful decoding leaves in [max_pathlen]: 0 when no
    pathLenConstraint was read, and otherwise the [int] that results from
    incrementing the value read. *)
Lemma x509_get_basic_constraints_max_pathlen (A : Asn1Parse) (p : list Z) :
  let r := x509_get_basic_constraints p in
  bc_ret r = 0 ->
  bc_max_pathlen r = 0
  \/ exists q : list Z,
       rd_ret (mbedtls_asn1_get_int q) = 0
       /\ rd_p (mbedtls_asn1_get_int q) = []
       /\ bc_max_pathlen r
          = to_int (written 0 (rd_out (mbedtls_asn1_get_int q)) + 1).
Proof.
  intros r. subst r. unfold x509_get_basic_constraints.
  destruct (negb (rd_ret (mbedtls_asn1_get_tag p _) =? 0)); simpl; auto.
  destruct (rd_p (mbedtls_asn1_get_tag p _)) as [|b0 q0]; simpl; auto.
  set (rb := mbedtls_asn1_get_bool (b0 :: q0)).
  set (after :=
    if negb (rd_ret rb =? 0)
    then if rd_ret rb =? MBEDTLS_ERR_ASN1_UNEXPECTED_TAG
         then _ else _
    else _).
  destruct after as [[ret ca] q]. clearbody rb.
  destruct (negb (ret =? 0)); simpl; auto.
  destruct q as [|b1 q1]; simpl; auto.
  destruct (Z.eqb_spec (rd_ret (mbedtls_asn1_get_int (b1 :: q1))) 0)
    as [Hret | Hret]; simpl; [|intros Hz; contradiction].
  destruct (rd_p (mbedtls_asn1_get_int (b1 :: q1))) eqn:Hp; simpl;
    [|discriminate].
  intros _. right. exists (b1 :: q1). auto.
Qed.

(** Below INT_MAX the increment is exact: the stored value is the value
    read plus one. *)
Lemma x509_get_basic_constraints_max_pathlen_exact (A : Asn1Parse)
    (p : list Z) :
  let r := x509_get_basic_constraints p in
  (forall q, rd_ret (mbedtls_asn1_get_int q) = 0 ->
             0 <= written 0 (rd_out (mbedtls_asn1_get_int q)) < INT_MAX) ->
  bc_ret r = 0 ->
  bc_max_pathlen r = 0
  \/ exists q : list Z,
       rd_ret (mbedtls_asn1_get_int q) = 0
       /\ bc_max_pathlen r = written 0 (rd_out (mbedtls_asn1_get_int q)) + 1.
Proof.
  intros r Hrange Hret.
  destruct (x509_get_basic_constraints_max_pathlen A p Hret)
    as [H0 | (q & Hq & _ & Hv)]; [now left|].
  right. exists q. split; [exact Hq|].
  fold r in Hv. rewrite Hv. apply to_int_in_range.
  specialize (Hrange q Hq). unfold INT_MIN, INT_MAX in *. lia.
Qed.

(** C5.  The BasicConstraints extension with cA TRUE and pathLenConstraint
    2147483647 (30 09 01 01 FF 02 04 7F FF FF FF) is decoded with success;
    the value read is INT_MAX and the increment leaves INT_MIN in
    [max_pathlen], not the encoded value plus one; the frame then shows no
    pathlen constraint at all, and no path length is refused.  No decoding
    can store INT_MAX + 1. *)
Theorem x509_get_basic_constraints_pathlen_int_max :
  let r := x509_get_basic_constraints (H := Reference.asn1parse)
             Samples.bc_pathlen_int_max in
  let stored := x509_crt_get_ext_cb_basic_constraints
                  (H := Reference.asn1parse)
                  (Samples.sample_frame "I1" "I2" [2] 0
                     Samples.t2020 Samples.t2030)
                  Samples.bc_pathlen_int_max in
  bc_ret r = 0
  /\ rd_out (Reference.asn1_get_int [2; 4; 127; 255; 255; 255]) = Some INT_MAX
  /\ bc_max_pathlen r = INT_MIN
  /\ bc_max_pathlen r <> INT_MAX + 1
  /\ fst stored = 0
  /\ max_pathlen (snd stored) = INT_MIN
  /\ x509_info_pathlen (snd stored) = None
  /\ (forall path_cnt self_cnt : Z,
        find_parent_in_path_len_ok (snd stored) path_cnt self_cnt = true)
  /\ (forall (A : Asn1Parse) (p : list Z),
        bc_max_pathlen (x509_get_basic_constraints p) <> INT_MAX + 1
        \/ bc_ret (x509_get_basic_constraints p) <> 0).
Proof.
  cbv zeta.
  assert (Hstored :
    x509_crt_get_ext_cb_basic_constraints (H := Reference.asn1parse)
      (Samples.sample_frame "I1" "I2" [2] 0 Samples.t2020 Samples.t2030)
      Samples.bc_pathlen_int_max
    = (0, snd (x509_crt_get_ext_cb_basic_constraints
                 (H := Reference.asn1parse)
                 (Samples.sample_frame "I1" "I2" [2] 0
                    Samples.t2020 Samples.t2030)
                 Samples.bc_pathlen_int_max))) by (vm_compute; reflexivity).
  assert (Hmax :
    max_pathlen (snd (x509_crt_get_ext_cb_basic_constraints
                        (H := Reference.asn1parse)
                        (Samples.sample_frame "I1" "I2" [2] 0
                           Samples.t2020 Samples.t2030)
                        Samples.bc_pathlen_int_max)) = INT_MIN)
    by (vm_compute; reflexivity).
  split; [vm_compute; reflexivity|].
  split; [vm_compute; reflexivity|].
  split; [vm_compute; reflexivity|].
  split; [vm_compute; discriminate|].
  split; [rewrite Hstored; reflexivity|].
  split; [exact Hmax|].
  split; [unfold x509_info_pathlen; rewrite Hmax; reflexivity|].
  split.
  - intros path_cnt self_cnt. unfold find_parent_in_path_len_ok.
    rewrite Hmax. reflexivity.
  - intros A p.
    destruct (Z.eq_dec (bc_ret (x509_get_basic_constraints p)) 0)
      as [Hret | Hret]; [left | now right].
    destruct (x509_get_basic_constraints_max_pathlen A p Hret)
      as [H0 | (q & _ & _ & Hv)].
    + rewrite H0. discriminate.
    + rewrite Hv.
      pose proof (to_int_bounds
        (written 0 (rd_out (mbedtls_asn1_get_int q)) + 1)). lia.
Qed.

(** ** The parent search *)

Lemma first_from_head (P : mbedtls_x509_crt -> bool) (l : crt_ptr)
    (c : mbedtls_x509_crt) (next : crt_ptr) :
  first_from P l = c :: next -> P c = true.
Proof.
  induction l as [|x l IH]; simpl; [discriminate|].
  destruct (P x) eqn:HP; [|exact IH].
  intros Heq. injection Heq as -> _. exact HP.
Qed.

(** The node found is the first of the list whose certificate satisfies
    [P]: the certificates in front of it do not. *)
Lemma first_from_split (P : mbedtls_x509_crt -> bool) (l : crt_ptr)
    (c : mbedtls_x509_crt) (next : crt_ptr) :
  first_from P l = c :: next ->
  exists front, l = front ++ c :: next /\ Forall (fun x => P x = false) front.
Proof.
  induction l as [|x l IH]; simpl; [discriminate|].
  destruct (P x) eqn:HP.
  - intros Heq. exists []. split; [exact Heq | constructor].
  - intros Heq. destruct (IH Heq) as (front & -> & Hfront).
    exists (x :: front). split; [reflexivity | now constructor].
Qed.

Lemma first_from_none (P : mbedtls_x509_crt -> bool) (l : crt_ptr) :
  first_from P l = [] -> Forall (fun x => P x = false) l.
Proof.
  induction l as [|x l IH]; simpl; [constructor|].
  destruct (P x) eqn:HP; [discriminate|].
  intros Heq. constructor; auto.
Qed.

Lemma find_parent_in_parent_match_amended `{X509Core} `{Config}
    (child_sig : mbedtls_x509_crt_sig_info) (parent : mbedtls_x509_crt_frame)
    (top : bool) :
  find_parent_in_parent_match child_sig parent top = true
  <-> amended_parent_match child_sig parent top.
Proof.
  unfold find_parent_in_parent_match, x509_crt_check_parent,
    amended_parent_match.
  destruct (Z.eqb_spec
    (mbedtls_x509_name_cmp_raw (si_issuer_raw child_sig) (subject_raw parent)
       None) 0) as [Hname | Hname]; simpl.
  2: { split; [discriminate | intros [Hn _]; contradiction]. }
  assert (Hneed : negb (top && (version parent <? 3)) = true
                  <-> ~ (top = true /\ version parent < 3)).
  { destruct top; simpl.
    - destruct (Z.ltb_spec (version parent) 3); simpl; split;
        try discriminate; try tauto; try lia.
    - split; [intros _ [Ht _]; discriminate | reflexivity]. }
  destruct (negb (top && (version parent <? 3))) eqn:Hnb; simpl.
  - assert (Hn : ~ (top = true /\ version parent < 3)) by now apply Hneed.
    destruct (Z.eqb_spec (ca_istrue parent) 0) as [Hca | Hca]; simpl.
    + split; [discriminate|]. intros [_ Hc]. destruct (Hc Hn) as [Hc' _].
      contradiction.
    + rewrite andb_true_r.
      destruct MBEDTLS_X509_CHECK_KEY_USAGE; simpl.
      * destruct (Z.eqb_spec (x509_crt_check_key_usage_frame parent
                                MBEDTLS_X509_KU_KEY_CERT_SIGN) 0)
          as [Hku | Hku]; simpl.
        -- split; [|reflexivity]. intros _. split; [exact Hname|].
           intros _. split; [exact Hca | intros _; exact Hku].
        -- split; [discriminate|]. intros [_ Hc].
           destruct (Hc Hn) as [_ Hk]. specialize (Hk eq_refl). contradiction.
      * split; [|reflexivity]. intros _. split; [exact Hname|].
        intros _. split; [exact Hca | discriminate].
  - rewrite andb_false_r. simpl.
    split; [|reflexivity]. intros _. split; [exact Hname|].
    intros Hn. exfalso.
    assert (Ht : false = true) by (apply Hneed; exact Hn).
    discriminate Ht.
Qed.

(** The scan from any point on, with the fallback it starts from: when it
    returns 0 it has stored the first suitable candidate that is
    time-valid, failing that the fallback it came with, failing that the
    first suitable candidate. *)
Lemma x509_crt_find_parent_in_from_spec `{X509Core} `{Config} `{PkMd}
    (child_sig : mbedtls_x509_crt_sig_info) (top : bool)
    (path_cnt self_cnt : Z) (candidates : crt_ptr)
    (fallback_parent : crt_ptr) (fallback_signature_is_good : bool) :
  let suitable := find_parent_in_suitable child_sig top path_cnt self_cnt in
  let r := x509_crt_find_parent_in_from child_sig candidates top path_cnt
             self_cnt fallback_parent fallback_signature_is_good in
  fpi_ret r = 0 ->
  fpi_out r
  = Some
      match first_from (fun c => suitable c && find_parent_in_time_valid c)
              candidates with
      | c :: next => (c :: next, x509_crt_check_signature child_sig c =? 0)
      | [] =>
        match fallback_parent with
        | _ :: _ => (fallback_parent, fallback_signature_is_good)
        | [] =>
          match first_from suitable candidates with
          | c :: next => (c :: next, x509_crt_check_signature child_sig c =? 0)
          | [] => ([], fallback_signature_is_good)
          end
        end
      end.
Proof.
  intros suitable. subst suitable. cbv zeta.
  revert fallback_parent fallback_signature_is_good.
  induction candidates as [|c next IH]; intros fb fbs; simpl.
  - intros _. destruct fb; reflexivity.
  - unfold find_parent_in_suitable at 1 3, find_parent_in_time_valid at 1.
    destruct (crt_frame c) as [parent|] eqn:Hframe; simpl;
      [|intros Hret; discriminate Hret].
    destruct (find_parent_in_parent_match child_sig parent top); simpl;
      [|apply IH].
    destruct (find_parent_in_path_len_ok parent path_cnt self_cnt); simpl;
      [|apply IH].
    destruct top; simpl.
    + destruct (x509_crt_check_signature child_sig c =? 0) eqn:Hsig; simpl;
        [|apply IH].
      destruct (find_parent_in_parent_valid parent); simpl.
      * intros _. rewrite Hsig. reflexivity.
      * destruct fb as [|f0 fb]; intros Hret.
        -- rewrite (IH _ _ Hret). rewrite Hsig.
           destruct (first_from _ next); reflexivity.
        -- rewrite (IH _ _ Hret). reflexivity.
    + destruct (find_parent_in_parent_valid parent); simpl.
      * intros _. reflexivity.
      * destruct fb as [|f0 fb]; intros Hret.
        -- rewrite (IH _ _ Hret).
           destruct (first_from _ next); reflexivity.
        -- rewrite (IH _ _ Hret). reflexivity.
Qed.

Lemma x509_crt_find_parent_in_from_ret `{X509Core} `{Config} `{PkMd}
    (child_sig : mbedtls_x509_crt_sig_info) (top : bool)
    (path_cnt self_cnt : Z) (candidates : crt_ptr)
    (fallback_parent : crt_ptr) (fallback_signature_is_good : bool) :
  let r := x509_crt_find_parent_in_from child_sig candidates top path_cnt
             self_cnt fallback_parent fallback_signature_is_good in
  (fpi_ret r = 0 /\ fpi_out r <> None)
  \/ (fpi_ret r = MBEDTLS_ERR_X509_FATAL_ERROR /\ fpi_out r = None).
Proof.
  cbv zeta. revert fallback_parent fallback_signature_is_good.
  induction candidates as [|c next IH]; intros fb fbs; simpl.
  - left. split; [reflexivity | discriminate].
  - destruct (crt_frame c); [|right; split; reflexivity].
    repeat match goal with
    | |- context [if ?b then _ else _] => destruct b
    | |- context [match ?l with [] => _ | _ :: _ => _ end] => destruct l
    end; try apply IH; left; split; (reflexivity || discriminate).
Qed.

(** The scan comes to an answer when the frames of the candidates can be
    acquired. *)
Lemma x509_crt_find_parent_in_from_total `{X509Core} `{Config} `{PkMd}
    (child_sig : mbedtls_x509_crt_sig_info) (top : bool)
    (path_cnt self_cnt : Z) (candidates : crt_ptr)
    (fallback_parent : crt_ptr) (fallback_signature_is_good : bool) :
  Forall (fun c => crt_frame c <> None) candidates ->
  fpi_ret (x509_crt_find_parent_in_from child_sig candidates top path_cnt
             self_cnt fallback_parent fallback_signature_is_good) = 0.
Proof.
  revert fallback_parent fallback_signature_is_good.
  induction candidates as [|c next IH]; intros fb fbs Hall; simpl;
    [reflexivity|].
  inversion Hall as [|? ? Hc Hnext]; subst.
  destruct (crt_frame c); [|contradiction].
  repeat match goal with
  | |- context [if ?b then _ else _] => destruct b
  | |- context [match ?l with [] => _ | _ :: _ => _ end] => destruct l
  end; try (apply IH; assumption); reflexivity.
Qed.

(** What [x509_crt_find_parent_in] stores is the parent of the
    specification. *)
Lemma x509_crt_find_parent_in_spec `{X509Core} `{Config} `{PkMd}
    (child_sig : mbedtls_x509_crt_sig_info) (top : bool)
    (path_cnt self_cnt : Z) (candidates : crt_ptr) :
  let r := x509_crt_find_parent_in child_sig candidates top path_cnt
             self_cnt in
  fpi_ret r = 0 ->
  fpi_out r
  = Some (spec_find_parent_in child_sig candidates top path_cnt self_cnt,
          match spec_find_parent_in child_sig candidates top path_cnt
                  self_cnt with
          | c :: _ => x509_crt_check_signature child_sig c =? 0
          | [] => false
          end).
Proof.
  intros r Hret. subst r. unfold x509_crt_find_parent_in in *.
  rewrite (x509_crt_find_parent_in_from_spec _ _ _ _ _ _ _ Hret).
  unfold spec_find_parent_in.
  destruct (first_from _ candidates) as [|c next]; [|reflexivity].
  destruct (first_from _ candidates) as [|c next]; reflexivity.
Qed.

Lemma spec_find_parent_in_suitable `{X509Core} `{Config} `{PkMd}
    (child_sig : mbedtls_x509_crt_sig_info) (top : bool)
    (path_cnt self_cnt : Z) (candidates : crt_ptr)
    (c : mbedtls_x509_crt) (next : crt_ptr) :
  spec_find_parent_in child_sig candidates top path_cnt self_cnt = c :: next ->
  find_parent_in_suitable child_sig top path_cnt self_cnt c = true.
Proof.
  unfold spec_find_parent_in.
  destruct (first_from (fun c0 => _ && _) candidates) as [|c0 next0] eqn:Hv.
  - apply first_from_head.
  - intros Heq. injection Heq as -> ->.
    apply first_from_head in Hv. now apply andb_true_iff in Hv as [Hs _].
Qed.

(** A parent that [x509_crt_find_parent_in] stores is suitable, and the
    flag stored with it tells whether its key verifies the signature. *)
Lemma x509_crt_find_parent_in_stored `{X509Core} `{Config} `{PkMd}
    (child_sig : mbedtls_x509_crt_sig_info) (top : bool)
    (path_cnt self_cnt : Z) (candidates : crt_ptr)
    (c : mbedtls_x509_crt) (next : crt_ptr) (s : bool) :
  fpi_out (x509_crt_find_parent_in child_sig candidates top path_cnt self_cnt)
  = Some (c :: next, s) ->
  find_parent_in_suitable child_sig top path_cnt self_cnt c = true
  /\ s = (x509_crt_check_signature child_sig c =? 0).
Proof.
  intros Hout.
  destruct (x509_crt_find_parent_in_from_ret child_sig top path_cnt self_cnt
              candidates [] false) as [[Hret _] | [_ Hnone]].
  - fold (x509_crt_find_parent_in child_sig candidates top path_cnt self_cnt)
      in Hret.
    rewrite (x509_crt_find_parent_in_spec _ _ _ _ _ Hret) in Hout.
    injection Hout as Hp Hs. rewrite Hp in Hs.
    split; [|now symmetry].
    now apply spec_find_parent_in_suitable in Hp.
  - unfold x509_crt_find_parent_in in Hout. rewrite Hnone in Hout.
    discriminate.
Qed.

(** C3 (amended).  The local [parent_match] of the parent search is set
    exactly when the subject of the candidate equals the issuer of the
    child and, unless the candidate is a trusted root of a version below 3,
    its CA bit is set and, key-usage checking being enabled, its key usage
    permits KEY_CERT_SIGN; and a candidate that the search stores as the
    parent has [parent_match] set: the others are skipped. *)
Theorem find_parent_in_parent_match_correct :
  (forall (X : X509Core) (C : Config)
          (child_sig : mbedtls_x509_crt_sig_info)
          (parent : mbedtls_x509_crt_frame) (top : bool),
     find_parent_in_parent_match child_sig parent top = true
     <-> amended_parent_match child_sig parent top)
  /\ (forall (X : X509Core) (C : Config) (P : PkMd)
             (child_sig : mbedtls_x509_crt_sig_info) (candidates : crt_ptr)
             (top : bool) (path_cnt self_cnt : Z)
             (c : mbedtls_x509_crt) (next : crt_ptr) (s : bool),
        fpi_out (x509_crt_find_parent_in child_sig candidates top path_cnt
                   self_cnt) = Some (c :: next, s) ->
        exists parent,
          crt_frame c = Some parent
          /\ find_parent_in_parent_match child_sig parent top = true).
Proof.
  split.
  - intros X C child_sig parent top.
    apply find_parent_in_parent_match_amended.
  - intros X C P child_sig candidates top path_cnt self_cnt c next s Hout.
    apply x509_crt_find_parent_in_stored in Hout as [Hsuit _].
    unfold find_parent_in_suitable in Hsuit.
    destruct (crt_frame c) as [parent|]; [|discriminate].
    exists parent. split; [reflexivity|].
    apply andb_true_iff in Hsuit as [Hsuit _].
    now apply andb_true_iff in Hsuit as [Hmatch _].
Qed.

Lemma find_parent_in_parent_match_correct_witness :
  amended_parent_match (H := Reference.x509core) (H0 := Reference.config)
    (Samples.sig_info_of Samples.R) Samples.v1_root_frame true
  /\ exists parent,
       crt_frame Samples.R = Some parent
       /\ find_parent_in_parent_match (H := Reference.x509core)
            (H0 := Reference.config)
            (Samples.sig_info_of Samples.I10) parent true = true.
Proof.
  split.
  - apply (proj1 find_parent_in_parent_match_correct
             Reference.x509core Reference.config).
    vm_compute. reflexivity.
  - apply (proj2 find_parent_in_parent_match_correct
             Reference.x509core Reference.config Reference.pkmd
             (Samples.sig_info_of Samples.I10)
             [Samples.R_other_key; Samples.R_old; Samples.R] true 9 0
             Samples.R [] true).
    vm_compute. reflexivity.
Defined.

(** The statement with the key usage as a conjunct of its own fails on a
    trusted version 1 root whose KeyUsage extension lacks keyCertSign:
    [parent_match] is set for it. *)
Lemma find_parent_in_parent_match_key_usage_counterexample :
  ~ (forall (X : X509Core) (C : Config)
            (child_sig : mbedtls_x509_crt_sig_info)
            (parent : mbedtls_x509_crt_frame) (top : bool),
       find_parent_in_parent_match child_sig parent top = true
       <-> spec_parent_match child_sig parent top).
Proof.
  intros Hall.
  destruct (Hall Reference.x509core Reference.config
              (Samples.sig_info_of Samples.R) Samples.v1_root_frame true)
    as [Hspec _].
  assert (Hmatch :
    find_parent_in_parent_match (H := Reference.x509core)
      (H0 := Reference.config)
      (Samples.sig_info_of Samples.R) Samples.v1_root_frame true = true)
    by (vm_compute; reflexivity).
  destruct (Hspec Hmatch) as (_ & _ & Hku).
  specialize (Hku eq_refl). vm_compute in Hku. discriminate Hku.
Qed.

(** C6.  A scan of [x509_crt_find_parent_in] comes to an answer when the
    frames of the candidates can be acquired; when it returns 0 the parent
    it stores is the first suitable candidate within its validity window if
    there is one, and otherwise the first suitable candidate, which is then
    outside its window (NULL when no candidate is suitable); the flag stored
    with it tells whether its key verifies the signature of the child; and
    in a scan of the trusted roots a candidate whose key does not verify the
    signature is not suitable, so the parent stored has verified it. *)
Theorem x509_crt_find_parent_in_first_suitable
    (X : X509Core) (C : Config) (P : PkMd)
    (child_sig : mbedtls_x509_crt_sig_info) (candidates : crt_ptr)
    (top : bool) (path_cnt self_cnt : Z) :
  let r := x509_crt_find_parent_in child_sig candidates top path_cnt
             self_cnt in
  let suitable := find_parent_in_suitable child_sig top path_cnt self_cnt in
  let suitable_valid := fun c => suitable c && find_parent_in_time_valid c in
  let parent := spec_find_parent_in child_sig candidates top path_cnt
                  self_cnt in
  (Forall (fun c => crt_frame c <> None) candidates -> fpi_ret r = 0)
  /\ (fpi_ret r = 0 ->
      exists s, fpi_out r = Some (parent, s)
        /\ forall c next, parent = c :: next ->
             s = (x509_crt_check_signature child_sig c =? 0)
             /\ (top = true -> x509_crt_check_signature child_sig c = 0))
  /\ (forall c next, first_from suitable_valid candidates = c :: next ->
        parent = c :: next
        /\ suitable c = true /\ find_parent_in_time_valid c = true
        /\ exists front, candidates = front ++ c :: next
             /\ Forall (fun x => suitable_valid x = false) front)
  /\ (first_from suitable_valid candidates = [] ->
      parent = first_from suitable candidates
      /\ Forall (fun x => suitable_valid x = false) candidates
      /\ forall c next, parent = c :: next ->
           suitable c = true /\ find_parent_in_time_valid c = false
           /\ exists front, candidates = front ++ c :: next
                /\ Forall (fun x => suitable x = false) front).
Proof.
  intros r suitable suitable_valid parent.
  split; [|split; [|split]].
  - intros Hall. subst r. unfold x509_crt_find_parent_in.
    now apply x509_crt_find_parent_in_from_total.
  - intros Hret. eexists. split.
    + subst r parent. apply (x509_crt_find_parent_in_spec _ _ _ _ _ Hret).
    + intros c next Hp. fold parent. rewrite Hp. split; [reflexivity|].
      intros Htop. subst parent.
      apply spec_find_parent_in_suitable in Hp.
      unfold find_parent_in_suitable in Hp.
      destruct (crt_frame c); [|discriminate].
      apply andb_true_iff in Hp as [_ Hsig]. rewrite Htop in Hsig.
      simpl in Hsig. now apply Z.eqb_eq.
  - intros c next Hfirst.
    pose proof (first_from_head _ _ _ _ Hfirst) as Hsv.
    apply andb_true_iff in Hsv as [Hs Hv].
    split; [|split; [exact Hs | split; [exact Hv|]]].
    + subst parent. unfold spec_find_parent_in.
      fold suitable. fold suitable_valid. rewrite Hfirst. reflexivity.
    + now apply first_from_split.
  - intros Hnone.
    assert (Hparent : parent = first_from suitable candidates).
    { subst parent. unfold spec_find_parent_in.
      fold suitable. fold suitable_valid. rewrite Hnone. reflexivity. }
    pose proof (first_from_none _ _ Hnone) as Hall.
    split; [exact Hparent | split; [exact Hall|]].
    intros c next Hp. rewrite Hparent in Hp.
    pose proof (first_from_head _ _ _ _ Hp) as Hs.
    destruct (first_from_split _ _ _ _ Hp) as (front & Hcand & Hfront).
    split; [exact Hs | split; [|exists front; split; assumption]].
    rewrite Hcand in Hall. apply Forall_app in Hall as [_ Hall].
    inversion Hall as [|? ? Hc _]; subst.
    unfold suitable_valid in Hc. rewrite Hs in Hc. exact Hc.
Qed.

Lemma x509_crt_find_parent_in_first_suitable_witness :
  fpi_ret (x509_crt_find_parent_in (H := Reference.x509core)
             (H0 := Reference.config) (H1 := Reference.pkmd)
             (Samples.sig_info_of Samples.I10)
             [Samples.R_other_key; Samples.R_old; Samples.R] true 9 0) = 0
  /\ spec_find_parent_in (H := Reference.x509core)
       (H0 := Reference.config) (H1 := Reference.pkmd)
       (Samples.sig_info_of Samples.I10)
       [Samples.R_other_key; Samples.R_old; Samples.R] true 9 0
     = [Samples.R]
  /\ spec_find_parent_in (H := Reference.x509core)
       (H0 := Reference.config) (H1 := Reference.pkmd)
       (Samples.sig_info_of Samples.I10)
       [Samples.R_other_key; Samples.R_old] true 9 0
     = first_from
         (find_parent_in_suitable (H := Reference.x509core)
            (H0 := Reference.config) (H1 := Reference.pkmd)
            (Samples.sig_info_of Samples.I10) true 9 0)
         [Samples.R_other_key; Samples.R_old]
  /\ exists s,
       fpi_out (x509_crt_find_parent_in (H := Reference.x509core)
                  (H0 := Reference.config) (H1 := Reference.pkmd)
                  (Samples.sig_info_of Samples.I10)
                  [Samples.R_other_key; Samples.R_old; Samples.R] true 9 0)
       = Some (spec_find_parent_in (H := Reference.x509core)
                 (H0 := Reference.config) (H1 := Reference.pkmd)
                 (Samples.sig_info_of Samples.I10)
                 [Samples.R_other_key; Samples.R_old; Samples.R] true 9 0, s).
Proof.
  pose proof (x509_crt_find_parent_in_first_suitable
                Reference.x509core Reference.config Reference.pkmd
                (Samples.sig_info_of Samples.I10)
                [Samples.R_other_key; Samples.R_old; Samples.R] true 9 0)
    as (Htotal & Hstored & Hvalid & _).
  pose proof (x509_crt_find_parent_in_first_suitable
                Reference.x509core Reference.config Reference.pkmd
                (Samples.sig_info_of Samples.I10)
                [Samples.R_other_key; Samples.R_old] true 9 0)
    as (_ & _ & _ & Hfallback).
  split; [|split; [|split]].
  - apply Htotal. repeat constructor; discriminate.
  - apply (Hvalid Samples.R []). vm_compute. reflexivity.
  - apply Hfallback. vm_compute. reflexivity.
  - destruct Hstored as (s & Hs & _); [vm_compute; reflexivity|].
    exists s. exact Hs.
Defined.

(** ** The chain-building loop *)

Lemma verify_chain_add_returns (ver_chain vc' : mbedtls_x509_crt_verify_chain)
    (child_crt : crt_ptr) :
  verify_chain_add ver_chain child_crt = Returns vc' ->
  (len ver_chain < length (items ver_chain))%nat
  /\ len vc' = S (len ver_chain)
  /\ length (items vc') = length (items ver_chain)
  /\ items vc' !! len ver_chain
     = Some {| item_crt := child_crt; item_flags := 0 |}.
Proof.
  unfold verify_chain_add.
  destruct (Nat.ltb_spec (len ver_chain) (length (items ver_chain)))
    as [Hlt | Hge]; [|discriminate].
  intros Heq. injection Heq as <-. simpl.
  rewrite length_insert. repeat split; try assumption.
  now apply list_lookup_insert_eq.
Qed.

Lemma verify_chain_add_faults (ver_chain : mbedtls_x509_crt_verify_chain)
    (child_crt : crt_ptr) (f : fault) :
  verify_chain_add ver_chain child_crt = Faults f ->
  f = ChainOverflow /\ (length (items ver_chain) <= len ver_chain)%nat.
Proof.
  unfold verify_chain_add.
  destruct (Nat.ltb_spec (len ver_chain) (length (items ver_chain)))
    as [Hlt | Hge]; [discriminate|].
  intros Heq. injection Heq as <-. split; [reflexivity | assumption].
Qed.

Lemma verify_chain_set_flags_shape (ver_chain : mbedtls_x509_crt_verify_chain)
    (i : nat) (flags : Z) :
  len (verify_chain_set_flags ver_chain i flags) = len ver_chain
  /\ length (items (verify_chain_set_flags ver_chain i flags))
     = length (items ver_chain)
  /\ map item_crt (items (verify_chain_set_flags ver_chain i flags))
     = map item_crt (items ver_chain).
Proof.
  unfold verify_chain_set_flags. simpl. rewrite length_alter.
  repeat split.
  generalize (items ver_chain). clear. intros l. revert i.
  induction l as [|x l IH]; intros [|i]; simpl; try reflexivity.
  f_equal. apply IH.
Qed.

Lemma x509_crt_find_parent_faults `{X509Core} `{Config} `{PkMd}
    (child_sig : mbedtls_x509_crt_sig_info) (rest trust_ca : crt_ptr)
    (parent : option crt_ptr) (signature_is_good : option bool)
    (path_cnt self_cnt : Z) (f : fault) :
  x509_crt_find_parent child_sig rest trust_ca parent signature_is_good
    path_cnt self_cnt = Faults f ->
  f = UninitialisedRead.
Proof.
  unfold x509_crt_find_parent.
  repeat match goal with
  | |- context [match ?x with _ => _ end] => destruct x
  end; intros Heq; try discriminate; now injection Heq as <-.
Qed.

(** The shape of the chain, and what is known of the child, when the
    search hands over to the second half of the pass. *)
Lemma x509_crt_verify_chain_search_done `{X509Core} `{Config} `{PkMd}
    (trust_ca : crt_ptr) (f_ca_cb : option mbedtls_x509_crt_ca_cb_t)
    (profile : mbedtls_x509_crt_profile) (st : verify_chain_state)
    (sr : verify_chain_search) :
  x509_crt_verify_chain_search trust_ca f_ca_cb profile st
  = Returns (SearchDone sr) ->
  (len (vs_chain st) < length (items (vs_chain st)))%nat
  /\ len (sr_chain sr) = S (len (vs_chain st))
  /\ length (items (sr_chain sr)) = length (items (vs_chain st))
  /\ vs_child_is_trusted st = false
  /\ exists c next child,
       vs_child_crt st = c :: next
       /\ crt_frame c = Some child
       /\ sr_self_issued sr
          = (mbedtls_x509_name_cmp_raw (issuer_raw child) (subject_raw child)
               None =? 0).
Proof.
  unfold x509_crt_verify_chain_search.
  destruct (verify_chain_add (vs_chain st) (vs_child_crt st)) as [vc|f] eqn:Hadd;
    [|discriminate].
  apply verify_chain_add_returns in Hadd as (Hlt & Hlen & Hitems & _).
  destruct f_ca_cb as [cb|];
    [destruct (cb (vs_child_crt st)) as [ret res];
     destruct (negb (ret =? 0)); [discriminate|]
    |simpl];
    (destruct (vs_child_crt st) as [|c next]; [discriminate|];
     destruct (crt_frame c) as [child|] eqn:Hframe; [|discriminate];
     destruct (vs_child_is_trusted st); [discriminate|];
     match goal with |- context [if ?b then _ else _] => destruct b end;
       [discriminate|];
     destruct (x509_crt_get_sig_info child) as [r [child_sig|]];
       [|discriminate];
     destruct (x509_crt_find_parent _ _ _ _ _ _ _); [|discriminate];
     intros Heq; injection Heq as <-; simpl;
     repeat split; try congruence; exists c, next, child; auto).
Qed.

Lemma x509_crt_verify_chain_search_return `{X509Core} `{Config} `{PkMd}
    (trust_ca : crt_ptr) (f_ca_cb : option mbedtls_x509_crt_ca_cb_t)
    (profile : mbedtls_x509_crt_profile) (st : verify_chain_state)
    (ret : Z) (vc : mbedtls_x509_crt_verify_chain) :
  x509_crt_verify_chain_search trust_ca f_ca_cb profile st
  = Returns (SearchReturn ret vc) ->
  len vc = S (len (vs_chain st))
  /\ length (items vc) = length (items (vs_chain st)).
Proof.
  unfold x509_crt_verify_chain_search.
  destruct (verify_chain_add (vs_chain st) (vs_child_crt st)) as [vc0|f]
    eqn:Hadd; [|discriminate].
  apply verify_chain_add_returns in Hadd as (Hlt & Hlen & Hitems & _).
  assert (Hshape : forall vc1 i fl,
    len vc1 = len vc0 -> length (items vc1) = length (items vc0) ->
    len (verify_chain_set_flags vc1 i fl) = S (len (vs_chain st))
    /\ length (items (verify_chain_set_flags vc1 i fl))
       = length (items (vs_chain st))).
  { intros vc1 i fl Ha Hb.
    destruct (verify_chain_set_flags_shape vc1 i fl) as (-> & -> & _).
    split; congruence. }
  destruct f_ca_cb as [cb|]; [destruct (cb (vs_child_crt st)) as [r res]|];
    simpl;
    repeat match goal with
    | |- context [match ?x with _ => _ end] => destruct x
    end;
    intros Heq; try discriminate; injection Heq as <- <-;
    try (apply Hshape; reflexivity); simpl; split; congruence.
Qed.

Lemma x509_crt_verify_chain_search_faults `{X509Core} `{Config} `{PkMd}
    (trust_ca : crt_ptr) (f_ca_cb : option mbedtls_x509_crt_ca_cb_t)
    (profile : mbedtls_x509_crt_profile) (st : verify_chain_state)
    (f : fault) :
  x509_crt_verify_chain_search trust_ca f_ca_cb profile st = Faults f ->
  (f = ChainOverflow
   /\ (length (items (vs_chain st)) <= len (vs_chain st))%nat)
  \/ f = NullDereference \/ f = UninitialisedRead.
Proof.
  unfold x509_crt_verify_chain_search.
  destruct (verify_chain_add (vs_chain st) (vs_child_crt st)) as [vc0|f0]
    eqn:Hadd.
  - destruct f_ca_cb as [cb|]; [destruct (cb (vs_child_crt st)) as [r res]|];
      simpl;
      repeat match goal with
      | |- context [x509_crt_find_parent ?a ?b ?c ?d ?e ?g ?h] =>
        destruct (x509_crt_find_parent a b c d e g h) eqn:?
      | |- context [match ?x with _ => _ end] => destruct x
      end;
      intros Heq; try discriminate; injection Heq as <-; auto;
      right; right; eapply x509_crt_find_parent_faults; eassumption.
  - intros Heq. injection Heq as <-. left.
    now apply verify_chain_add_faults in Hadd.
Qed.

(** An untrusted parent found while the chain holds more than
    MBEDTLS_X509_MAX_INTERMEDIATE_CA certificates ends the pass with the
    fatal error; only the flags of the child are stored. *)
Lemma x509_crt_verify_chain_link_too_long `{X509Core} `{Config} `{PkMd}
    (ca_crl : list mbedtls_x509_crl) (profile : mbedtls_x509_crt_profile)
    (self_cnt : Z) (sr : verify_chain_search) :
  fp_parent (sr_found sr) <> [] ->
  fp_parent_is_trusted (sr_found sr) = false ->
  (MBEDTLS_X509_MAX_INTERMEDIATE_CA < len (sr_chain sr))%nat ->
  x509_crt_verify_chain_link ca_crl profile self_cnt sr
  = Returns (StepReturn MBEDTLS_ERR_X509_FATAL_ERROR
               (verify_chain_set_flags (sr_chain sr) (len (sr_chain sr) - 1)
                  (sr_flags sr))).
Proof.
  intros Hparent Htrust Hlen. unfold x509_crt_verify_chain_link.
  destruct (fp_parent (sr_found sr)) as [|parent_c rest]; [contradiction|].
  rewrite Htrust. simpl.
  destruct (Nat.ltb_spec MBEDTLS_X509_MAX_INTERMEDIATE_CA (len (sr_chain sr)))
    as [_ | Hge]; [reflexivity | lia].
Qed.

Lemma x509_crt_verify_chain_link_next `{X509Core} `{Config} `{PkMd}
    (ca_crl : list mbedtls_x509_crl) (profile : mbedtls_x509_crt_profile)
    (self_cnt : Z) (sr : verify_chain_search) (st' : verify_chain_state) :
  x509_crt_verify_chain_link ca_crl profile self_cnt sr
  = Returns (StepNext st') ->
  len (vs_chain st') = len (sr_chain sr)
  /\ length (items (vs_chain st')) = length (items (sr_chain sr))
  /\ vs_child_crt st' = fp_parent (sr_found sr)
  /\ vs_child_crt st' <> []
  /\ vs_child_is_trusted st' = fp_parent_is_trusted (sr_found sr)
  /\ (vs_child_is_trusted st' = false ->
      (len (sr_chain sr) <= MBEDTLS_X509_MAX_INTERMEDIATE_CA)%nat)
  /\ vs_self_cnt st'
     = (if negb (len (sr_chain sr) =? 1)%nat && sr_self_issued sr
        then to_uint32 (self_cnt + 1) else self_cnt).
Proof.
  unfold x509_crt_verify_chain_link.
  destruct (fp_parent (sr_found sr)) as [|parent_c rest] eqn:Hparent;
    [discriminate|].
  destruct (fp_parent_is_trusted (sr_found sr)) eqn:Htrust; simpl.
  - destruct (fp_signature_is_good (sr_found sr)); [|discriminate].
    destruct (crt_pk parent_c); [|discriminate].
    intros Heq. injection Heq as <-. simpl.
    rewrite length_alter.
    repeat split; try assumption; try discriminate.
  - destruct (Nat.ltb_spec MBEDTLS_X509_MAX_INTERMEDIATE_CA
                (len (sr_chain sr))) as [Hlt | Hge]; [discriminate|].
    destruct (fp_signature_is_good (sr_found sr)); [|discriminate].
    destruct (crt_pk parent_c); [|discriminate].
    intros Heq. injection Heq as <-. simpl.
    rewrite length_alter.
    repeat split; try assumption; try discriminate. intros _. lia.
Qed.

Lemma x509_crt_verify_chain_link_return `{X509Core} `{Config} `{PkMd}
    (ca_crl : list mbedtls_x509_crl) (profile : mbedtls_x509_crt_profile)
    (self_cnt : Z) (sr : verify_chain_search)
    (ret : Z) (vc : mbedtls_x509_crt_verify_chain) :
  x509_crt_verify_chain_link ca_crl profile self_cnt sr
  = Returns (StepReturn ret vc) ->
  len vc = len (sr_chain sr)
  /\ length (items vc) = length (items (sr_chain sr)).
Proof.
  unfold x509_crt_verify_chain_link.
  repeat match goal with
  | |- context [match ?x with _ => _ end] => destruct x
  end;
  intros Heq; try discriminate; injection Heq as <- <-;
  match goal with
  | |- context [verify_chain_set_flags ?v ?i ?f] =>
    destruct (verify_chain_set_flags_shape v i f) as (-> & -> & _)
  end; split; reflexivity.
Qed.

Lemma x509_crt_verify_chain_link_faults `{X509Core} `{Config} `{PkMd}
    (ca_crl : list mbedtls_x509_crl) (profile : mbedtls_x509_crt_profile)
    (self_cnt : Z) (sr : verify_chain_search) (f : fault) :
  x509_crt_verify_chain_link ca_crl profile self_cnt sr = Faults f ->
  f = UninitialisedRead.
Proof.
  unfold x509_crt_verify_chain_link.
  repeat match goal with
  | |- context [match ?x with _ => _ end] => destruct x
  end;
  intros Heq; try discriminate; now injection Heq as <-.
Qed.

(** The invariant of the loop is kept by a pass that goes on to the next
    one, and the chain has grown by the child. *)
Lemma x509_crt_verify_chain_body_next `{X509Core} `{Config} `{PkMd}
    (trust_ca : crt_ptr) (ca_crl : list mbedtls_x509_crl)
    (f_ca_cb : option mbedtls_x509_crt_ca_cb_t)
    (profile : mbedtls_x509_crt_profile) (st st' : verify_chain_state) :
  verify_chain_inv st ->
  x509_crt_verify_chain_body trust_ca ca_crl f_ca_cb profile st
  = Returns (StepNext st') ->
  verify_chain_inv st'
  /\ len (vs_chain st') = S (len (vs_chain st))
  /\ (len (vs_chain st) < length (items (vs_chain st)))%nat.
Proof.
  intros [Hsize Hlen]. unfold x509_crt_verify_chain_body.
  destruct (x509_crt_verify_chain_search trust_ca f_ca_cb profile st)
    as [[ret vc | sr] | f] eqn:Hsearch; try discriminate.
  intros Hlink.
  apply x509_crt_verify_chain_search_done in Hsearch
    as (Hlt & Hl & Hi & Huntrusted & _).
  apply x509_crt_verify_chain_link_next in Hlink
    as (Hl' & Hi' & _ & _ & Htr & Hmax & _).
  rewrite Huntrusted in Hlen.
  split; [|split; [congruence | assumption]].
  split; [congruence|].
  rewrite Hl'. destruct (vs_child_is_trusted st') eqn:Ht.
  - rewrite Hl. lia.
  - specialize (Hmax eq_refl). lia.
Qed.

Lemma x509_crt_verify_chain_body_return `{X509Core} `{Config} `{PkMd}
    (trust_ca : crt_ptr) (ca_crl : list mbedtls_x509_crl)
    (f_ca_cb : option mbedtls_x509_crt_ca_cb_t)
    (profile : mbedtls_x509_crt_profile) (st : verify_chain_state)
    (ret : Z) (vc : mbedtls_x509_crt_verify_chain) :
  x509_crt_verify_chain_body trust_ca ca_crl f_ca_cb profile st
  = Returns (StepReturn ret vc) ->
  len vc = S (len (vs_chain st))
  /\ length (items vc) = length (items (vs_chain st)).
Proof.
  unfold x509_crt_verify_chain_body.
  destruct (x509_crt_verify_chain_search trust_ca f_ca_cb profile st)
    as [[ret0 vc0 | sr] | f] eqn:Hsearch; try discriminate.
  - intros Heq. injection Heq as <- <-.
    now apply x509_crt_verify_chain_search_return in Hsearch.
  - intros Hlink.
    apply x509_crt_verify_chain_search_done in Hsearch
      as (_ & Hl & Hi & _).
    apply x509_crt_verify_chain_link_return in Hlink as (Hl' & Hi').
    split; congruence.
Qed.

Lemma x509_crt_verify_chain_body_faults `{X509Core} `{Config} `{PkMd}
    (trust_ca : crt_ptr) (ca_crl : list mbedtls_x509_crl)
    (f_ca_cb : option mbedtls_x509_crt_ca_cb_t)
    (profile : mbedtls_x509_crt_profile) (st : verify_chain_state)
    (f : fault) :
  verify_chain_inv st ->
  x509_crt_verify_chain_body trust_ca ca_crl f_ca_cb profile st = Faults f ->
  f = NullDereference \/ f = UninitialisedRead.
Proof.
  intros [Hsize Hlen]. unfold x509_crt_verify_chain_body.
  destruct (x509_crt_verify_chain_search trust_ca f_ca_cb profile st)
    as [[ret0 vc0 | sr] | f0] eqn:Hsearch; try discriminate.
  - intros Hlink. right.
    now apply x509_crt_verify_chain_link_faults in Hlink.
  - intros Heq. injection Heq as <-.
    apply x509_crt_verify_chain_search_faults in Hsearch
      as [[_ Hover] | Hother]; [|exact Hother].
    exfalso. unfold X509_MAX_VERIFY_CHAIN_SIZE in Hsize.
    destruct (vs_child_is_trusted st); lia.
Qed.

(** The loop under its invariant: with a budget above the number of free
    items it comes to a return or to the read of an uninitialised local or
    of a NULL certificate, never to a store beyond the array, and the chain
    it returns fits the array. *)
Lemma x509_crt_verify_chain_loop_bounded `{X509Core} `{Config} `{PkMd}
    (trust_ca : crt_ptr) (ca_crl : list mbedtls_x509_crl)
    (f_ca_cb : option mbedtls_x509_crt_ca_cb_t)
    (profile : mbedtls_x509_crt_profile) (budget : nat)
    (st : verify_chain_state) :
  verify_chain_inv st ->
  (length (items (vs_chain st)) - len (vs_chain st) < budget)%nat ->
  match x509_crt_verify_chain_loop budget trust_ca ca_crl f_ca_cb profile st
  with
  | Returns (ret, vc) =>
    (len (vs_chain st) < len vc <= X509_MAX_VERIFY_CHAIN_SIZE)%nat
    /\ length (items vc) = X509_MAX_VERIFY_CHAIN_SIZE
  | Faults f => f = NullDereference \/ f = UninitialisedRead
  end.
Proof.
  revert st. induction budget as [|budget IH]; intros st Hinv Hbudget;
    [lia|].
  simpl.
  destruct (x509_crt_verify_chain_body trust_ca ca_crl f_ca_cb profile st)
    as [[ret vc | st'] | f] eqn:Hbody.
  - apply x509_crt_verify_chain_body_return in Hbody as [Hl Hi].
    destruct Hinv as [Hsize Hlen].
    unfold X509_MAX_VERIFY_CHAIN_SIZE in *.
    split; [|congruence].
    destruct (vs_child_is_trusted st); lia.
  - destruct (x509_crt_verify_chain_body_next _ _ _ _ _ _ Hinv Hbody)
      as (Hinv' & Hl & Hlt).
    assert (Hsize' : length (items (vs_chain st'))
                     = length (items (vs_chain st))).
    { destruct Hinv as [-> _]. now destruct Hinv' as [-> _]. }
    specialize (IH st' Hinv' ltac:(lia)).
    destruct (x509_crt_verify_chain_loop budget trust_ca ca_crl f_ca_cb
                profile st') as [[ret vc] | f]; [|exact IH].
    destruct IH as [Hl' Hi']. split; [lia | exact Hi'].
  - exact (x509_crt_verify_chain_body_faults _ _ _ _ _ _ Hinv Hbody).
Qed.

Lemma verify_chain_inv_reset `{Config} (crt : crt_ptr) :
  verify_chain_inv
    {| vs_chain := x509_crt_verify_chain_reset;
       vs_child_crt := crt;
       vs_parent_crt := None;
       vs_child_is_trusted := false;
       vs_signature_is_good := None;
       vs_self_cnt := 0 |}.
Proof.
  split; simpl.
  - apply length_replicate.
  - lia.
Qed.

(** C2.  When [x509_crt_find_parent] has stored an untrusted parent and the
    chain holds more than MBEDTLS_X509_MAX_INTERMEDIATE_CA certificates, the
    pass returns the fatal error with the chain as long as it was and
    holding the same certificates: the parent is not stored.  A run of
    [x509_crt_verify_chain] on a chain that was reset therefore never stores
    beyond the array, stays within the loop budget, and returns a chain of
    at most MBEDTLS_X509_MAX_INTERMEDIATE_CA + 2 certificates in an array of
    that size.  With MBEDTLS_X509_MAX_INTERMEDIATE_CA = 8 the supplied chain
    EE, I1, .., I10 under the trusted root R gives the fatal error. *)
Theorem x509_crt_verify_chain_too_long :
  (forall (X : X509Core) (C : Config) (P : PkMd)
          (ca_crl : list mbedtls_x509_crl)
          (profile : mbedtls_x509_crt_profile) (self_cnt : Z)
          (sr : verify_chain_search),
     fp_parent (sr_found sr) <> [] ->
     fp_parent_is_trusted (sr_found sr) = false ->
     (MBEDTLS_X509_MAX_INTERMEDIATE_CA < len (sr_chain sr))%nat ->
     exists vc,
       x509_crt_verify_chain_link ca_crl profile self_cnt sr
       = Returns (StepReturn MBEDTLS_ERR_X509_FATAL_ERROR vc)
       /\ len vc = len (sr_chain sr)
       /\ map item_crt (items vc) = map item_crt (items (sr_chain sr)))
  /\ (forall (X : X509Core) (C : Config) (P : PkMd)
             (crt trust_ca : crt_ptr) (ca_crl : list mbedtls_x509_crl)
             (f_ca_cb : option mbedtls_x509_crt_ca_cb_t)
             (profile : mbedtls_x509_crt_profile),
        match x509_crt_verify_chain crt trust_ca ca_crl f_ca_cb profile
                x509_crt_verify_chain_reset with
        | Returns (ret, vc) =>
          (len vc <= MBEDTLS_X509_MAX_INTERMEDIATE_CA + 2)%nat
          /\ length (items vc) = (MBEDTLS_X509_MAX_INTERMEDIATE_CA + 2)%nat
        | Faults f => f <> ChainOverflow /\ f <> LoopBudget
        end)
  /\ (exists vc,
        x509_crt_verify_chain (H := Reference.x509core)
          (H0 := Reference.config) (H1 := Reference.pkmd)
          Samples.long_chain [Samples.R] [] None
          mbedtls_x509_crt_profile_default
          (x509_crt_verify_chain_reset (H := Reference.config))
        = Returns (MBEDTLS_ERR_X509_FATAL_ERROR, vc)
        /\ len vc = 9%nat)
  /\ mbedtls_x509_crt_verify (H := Reference.x509core)
       (H0 := Reference.asn1parse) (H1 := Reference.config)
       (H2 := Reference.pkmd)
       Samples.long_chain [Samples.R] [] None None
     = Returns (MBEDTLS_ERR_X509_FATAL_ERROR, to_uint32 (-1)).
Proof.
  split; [|split; [|split]].
  - intros X C P ca_crl profile self_cnt sr Hparent Htrust Hlen.
    eexists. split; [now apply x509_crt_verify_chain_link_too_long|].
    destruct (verify_chain_set_flags_shape (sr_chain sr)
                (len (sr_chain sr) - 1) (sr_flags sr)) as (Hl & _ & Hm).
    split; assumption.
  - intros X C P crt trust_ca ca_crl f_ca_cb profile.
    unfold x509_crt_verify_chain.
    pose proof (x509_crt_verify_chain_loop_bounded trust_ca ca_crl f_ca_cb
                  profile
                  (S (length (items x509_crt_verify_chain_reset)
                      - len x509_crt_verify_chain_reset))
                  _ (verify_chain_inv_reset crt) (Nat.lt_succ_diag_r _))
      as Hloop.
    revert Hloop.
    match goal with
    | |- context [x509_crt_verify_chain_loop ?b ?t ?c ?g ?p ?s] =>
      destruct (x509_crt_verify_chain_loop b t c g p s) as [[ret vc] | f]
    end.
    + unfold X509_MAX_VERIFY_CHAIN_SIZE.
      intros [Hl Hi]. split; [lia | exact Hi].
    + intros [-> | ->]; split; discriminate.
  - eexists. split; vm_compute; reflexivity.
  - vm_compute. reflexivity.
Qed.

Lemma x509_crt_verify_chain_too_long_witness :
  exists vc,
    x509_crt_verify_chain_link (H := Reference.x509core)
      (H0 := Reference.config) (H1 := Reference.pkmd)
      [] mbedtls_x509_crt_profile_default 0 States.ninth_search
    = Returns (StepReturn MBEDTLS_ERR_X509_FATAL_ERROR vc)
    /\ len vc = len (sr_chain States.ninth_search)
    /\ map item_crt (items vc)
       = map item_crt (items (sr_chain States.ninth_search)).
Proof.
  apply (proj1 x509_crt_verify_chain_too_long
           Reference.x509core Reference.config Reference.pkmd).
  - vm_compute. discriminate.
  - vm_compute. reflexivity.
  - apply Nat.ltb_lt. vm_compute. reflexivity.
Defined.

Lemma self_cnt_inv_reset `{Config} (crt : crt_ptr) :
  self_cnt_inv
    {| vs_chain := x509_crt_verify_chain_reset;
       vs_child_crt := crt;
       vs_parent_crt := None;
       vs_child_is_trusted := false;
       vs_signature_is_good := None;
       vs_self_cnt := 0 |}.
Proof. unfold self_cnt_inv. simpl. lia. Qed.

(** A pass that goes on has a child with a frame, and has counted it in
    [self_cnt] when the chain held two certificates or more and the child
    is self-issued. *)
Lemma x509_crt_verify_chain_body_self_cnt `{X509Core} `{Config} `{PkMd}
    (trust_ca : crt_ptr) (ca_crl : list mbedtls_x509_crl)
    (f_ca_cb : option mbedtls_x509_crt_ca_cb_t)
    (profile : mbedtls_x509_crt_profile) (st st' : verify_chain_state) :
  x509_crt_verify_chain_body trust_ca ca_crl f_ca_cb profile st
  = Returns (StepNext st') ->
  len (vs_chain st') = S (len (vs_chain st))
  /\ (len (vs_chain st) < length (items (vs_chain st)))%nat
  /\ exists c next child,
       vs_child_crt st = c :: next
       /\ crt_frame c = Some child
       /\ vs_self_cnt st'
          = if (2 <=? len (vs_chain st'))%nat
               && (mbedtls_x509_name_cmp_raw (issuer_raw child)
                     (subject_raw child) None =? 0)
            then to_uint32 (vs_self_cnt st + 1)
            else vs_self_cnt st.
Proof.
  unfold x509_crt_verify_chain_body.
  destruct (x509_crt_verify_chain_search trust_ca f_ca_cb profile st)
    as [[ret vc | sr] | f] eqn:Hsearch; try discriminate.
  intros Hlink.
  apply x509_crt_verify_chain_search_done in Hsearch
    as (Hlt & Hl & _ & _ & c & next & child & Hchild & Hframe & Hself).
  apply x509_crt_verify_chain_link_next in Hlink
    as (Hl' & _ & _ & _ & _ & _ & Hcnt).
  split; [congruence | split; [assumption|]].
  exists c, next, child. split; [assumption | split; [assumption|]].
  rewrite Hcnt, Hself, Hl', Hl.
  destruct (len (vs_chain st)) as [|n]; reflexivity.
Qed.

(** C4.  For the [path_cnt] and [self_cnt] of a pass (self_cnt no greater
    than path_cnt, as the comment of the function has it), the local
    [path_len_ok] of the parent search is
    !(max_pathlen > 0 && max_pathlen < 1 + path_cnt - self_cnt) over the
    integers.  A pass of the chain-building loop that goes on to the parent
    increments [self_cnt] exactly when the chain, the child included, holds
    two certificates or more and the child is self-issued; [self_cnt] stays
    no greater than the [path_cnt] of the pass, which is the number of
    certificates below the child.  A candidate that the search stores as the
    parent has [path_len_ok] set: the others are skipped. *)
Theorem find_parent_in_path_len_ok_correct :
  (forall (parent : mbedtls_x509_crt_frame) (path_cnt self_cnt : Z),
     0 <= self_cnt <= path_cnt -> path_cnt < 2 ^ 32 - 1 ->
     find_parent_in_path_len_ok parent path_cnt self_cnt
     = spec_path_len_ok parent path_cnt self_cnt)
  /\ (forall (X : X509Core) (C : Config) (P : PkMd)
             (trust_ca : crt_ptr) (ca_crl : list mbedtls_x509_crl)
             (f_ca_cb : option mbedtls_x509_crt_ca_cb_t)
             (profile : mbedtls_x509_crt_profile)
             (st st' : verify_chain_state),
        self_cnt_inv st ->
        Z.of_nat (length (items (vs_chain st))) < 2 ^ 32 ->
        x509_crt_verify_chain_body trust_ca ca_crl f_ca_cb profile st
        = Returns (StepNext st') ->
        (exists c next child,
           vs_child_crt st = c :: next
           /\ crt_frame c = Some child
           /\ vs_self_cnt st'
              = if (2 <=? len (vs_chain st'))%nat
                   && (mbedtls_x509_name_cmp_raw (issuer_raw child)
                         (subject_raw child) None =? 0)
                then vs_self_cnt st + 1
                else vs_self_cnt st)
        /\ to_uint32 (Z.of_nat (len (vs_chain st')) - 1)
           = Z.of_nat (len (vs_chain st))
        /\ 0 <= vs_self_cnt st <= Z.of_nat (len (vs_chain st))
        /\ Z.of_nat (len (vs_chain st)) < 2 ^ 32 - 1
        /\ self_cnt_inv st')
  /\ (forall (X : X509Core) (C : Config) (P : PkMd)
             (child_sig : mbedtls_x509_crt_sig_info) (candidates : crt_ptr)
             (top : bool) (path_cnt self_cnt : Z)
             (c : mbedtls_x509_crt) (next : crt_ptr) (s : bool),
        fpi_out (x509_crt_find_parent_in child_sig candidates top path_cnt
                   self_cnt) = Some (c :: next, s) ->
        exists parent,
          crt_frame c = Some parent
          /\ find_parent_in_path_len_ok parent path_cnt self_cnt = true).
Proof.
  split; [|split].
  - intros parent path_cnt self_cnt Hself Hpath.
    unfold find_parent_in_path_len_ok, spec_path_len_ok.
    rewrite to_uint32_in_range; [reflexivity | lia].
  - intros X C P trust_ca ca_crl f_ca_cb profile st st' Hinv Hsize Hbody.
    apply x509_crt_verify_chain_body_self_cnt in Hbody
      as (Hl & Hlt & c & next & child & Hchild & Hframe & Hcnt).
    unfold self_cnt_inv in *.
    assert (Hwrap : to_uint32 (vs_self_cnt st + 1) = vs_self_cnt st + 1)
      by (apply to_uint32_in_range; lia).
    rewrite Hwrap in Hcnt.
    split; [exists c, next, child; auto|].
    split.
    { rewrite Hl.
      replace (Z.of_nat (S (len (vs_chain st))) - 1)
        with (Z.of_nat (len (vs_chain st))) by lia.
      apply to_uint32_in_range. lia. }
    split; [lia|]. split; [lia|].
    rewrite Hcnt, Hl. simpl Nat.pred.
    destruct ((2 <=? S (len (vs_chain st)))%nat && _) eqn:Hinc; [|lia].
    apply andb_true_iff in Hinc as [Hlen _].
    apply Nat.leb_le in Hlen. lia.
  - intros X C P child_sig candidates top path_cnt self_cnt c next s Hout.
    apply x509_crt_find_parent_in_stored in Hout as [Hsuit _].
    unfold find_parent_in_suitable in Hsuit.
    destruct (crt_frame c) as [parent|]; [|discriminate].
    exists parent. split; [reflexivity|].
    apply andb_true_iff in Hsuit as [Hsuit _].
    now apply andb_true_iff in Hsuit as [_ Hlen].
Qed.

Lemma find_parent_in_path_len_ok_correct_witness :
  find_parent_in_path_len_ok
    (Samples.sample_frame "I9" "I10" [10] 1 Samples.t2020 Samples.t2030) 8 0
  = spec_path_len_ok
      (Samples.sample_frame "I9" "I10" [10] 1 Samples.t2020 Samples.t2030) 8 0
  /\ self_cnt_inv (States.pass States.after_one)
  /\ exists parent,
       crt_frame Samples.R = Some parent
       /\ find_parent_in_path_len_ok parent 9 0 = true.
Proof.
  destruct find_parent_in_path_len_ok_correct as (Hformula & Hpass & Hskip).
  split; [|split].
  - apply Hformula; lia.
  - apply (Hpass Reference.x509core Reference.config Reference.pkmd
             [Samples.R] [] None mbedtls_x509_crt_profile_default
             States.after_one (States.pass States.after_one)).
    + vm_compute. split; discriminate.
    + vm_compute. reflexivity.
    + vm_compute. reflexivity.
  - apply (Hskip Reference.x509core Reference.config Reference.pkmd
             (Samples.sig_info_of Samples.I10)
             [Samples.R_other_key; Samples.R_old; Samples.R] true 9 0
             Samples.R [] true).
    vm_compute. reflexivity.
Defined.

(** ** The host-name check *)

(** In the reference traversal the callback is asked about the elements
    selected by the second mask only, and about them only when the first
    mask lets them pass. *)
Lemma asn1_traverse_elements_selected (budget : nat) (p : list Z)
    (tag_must_mask tag_must_val tag_may_mask tag_may_val : Z)
    (f g : asn1_traverse_cb) :
  (forall tag data,
     Z.land tag tag_must_mask = tag_must_val ->
     Z.land tag tag_may_mask = tag_may_val ->
     f tag data = g tag data) ->
  Reference.asn1_traverse_elements budget p tag_must_mask tag_must_val
    tag_may_mask tag_may_val (Some f)
  = Reference.asn1_traverse_elements budget p tag_must_mask tag_must_val
      tag_may_mask tag_may_val (Some g).
Proof.
  intros Hfg. revert p.
  induction budget as [|budget IH]; intros [|tag rest]; simpl;
    try reflexivity.
  destruct (Z.eqb_spec (Z.land tag tag_must_mask) tag_must_val)
    as [Hmust | Hmust]; simpl; [|reflexivity].
  destruct (negb (rd_ret (Reference.asn1_get_len rest) =? 0));
    [reflexivity|].
  destruct (Z.eqb_spec (Z.land tag tag_may_mask) tag_may_val)
    as [Hmay | Hmay].
  - rewrite (Hfg tag _ Hmust Hmay).
    destruct (negb (g tag _ =? 0)); [reflexivity | apply IH].
  - simpl. apply IH.
Qed.

(** C9.  When the SubjectAltName bit is set in [ext_types], the host-name
    check is the traversal of the SubjectAltName with the masks that let
    context-specific tags pass and select tag number 2 (dNSName), with the
    name comparison as its callback: its result does not depend on the
    subject, it accepts when the traversal answers 1 and sets
    BADCERT_CN_MISMATCH otherwise.  When the bit is not set, the check is
    the walk over the subject with the CN callback.  In the reference
    traversal, the callback is asked about context-specific elements of tag
    number 2 only.  A certificate with the subject CN=example.com and a
    SubjectAltName holding the dNSName other.example.org and the rfc822Name
    example.com does not match example.com, while the same subject without
    the extension does. *)
Theorem x509_crt_verify_name_subject_alt_only :
  (forall (X : X509Core) (A : Asn1Parse) (crt : mbedtls_x509_crt)
          (frame : mbedtls_x509_crt_frame) (cn : list Z) (flags : Z),
     crt_frame crt = Some frame ->
     Z.land (ext_types frame) MBEDTLS_X509_EXT_SUBJECT_ALT_NAME <> 0 ->
     let ret :=
       mbedtls_asn1_traverse_sequence_of (subject_alt_raw frame)
         MBEDTLS_ASN1_TAG_CLASS_MASK MBEDTLS_ASN1_CONTEXT_SPECIFIC
         MBEDTLS_ASN1_TAG_VALUE_MASK 2
         (Some (x509_crt_subject_alt_check_name cn)) in
     (forall subject : list Z,
        x509_crt_verify_name
          (crt_with_frame crt (frame_with_subject frame subject)) cn flags
        = x509_crt_verify_name crt cn flags)
     /\ (ret = 1 -> x509_crt_verify_name crt cn flags = (0, flags))
     /\ (ret <> 1 ->
         x509_crt_verify_name crt cn flags
         = (if ret =? 0 then 0 else MBEDTLS_ERR_X509_FATAL_ERROR,
            Z.lor flags MBEDTLS_X509_BADCERT_CN_MISMATCH)))
  /\ (forall (X : X509Core) (A : Asn1Parse) (crt : mbedtls_x509_crt)
             (frame : mbedtls_x509_crt_frame) (cn : list Z) (flags : Z),
        crt_frame crt = Some frame ->
        Z.land (ext_types frame) MBEDTLS_X509_EXT_SUBJECT_ALT_NAME = 0 ->
        let ret :=
          mbedtls_x509_name_cmp_raw (subject_raw frame) (subject_raw frame)
            (Some (x509_crt_check_name cn)) in
        x509_crt_verify_name crt cn flags
        = if ret =? 1 then (0, flags)
          else (if ret =? 0 then 0 else MBEDTLS_ERR_X509_FATAL_ERROR,
                Z.lor flags MBEDTLS_X509_BADCERT_CN_MISMATCH))
  /\ (forall (p : list Z) (f g : asn1_traverse_cb),
        (forall tag data,
           Z.land tag MBEDTLS_ASN1_TAG_CLASS_MASK
           = MBEDTLS_ASN1_CONTEXT_SPECIFIC ->
           Z.land tag MBEDTLS_ASN1_TAG_VALUE_MASK = 2 ->
           f tag data = g tag data) ->
        Reference.asn1_traverse_sequence_of p
          MBEDTLS_ASN1_TAG_CLASS_MASK MBEDTLS_ASN1_CONTEXT_SPECIFIC
          MBEDTLS_ASN1_TAG_VALUE_MASK 2 (Some f)
        = Reference.asn1_traverse_sequence_of p
            MBEDTLS_ASN1_TAG_CLASS_MASK MBEDTLS_ASN1_CONTEXT_SPECIFIC
            MBEDTLS_ASN1_TAG_VALUE_MASK 2 (Some g))
  /\ x509_crt_verify_name (H := Reference.x509core)
       (H0 := Reference.asn1parse)
       Samples.san_crt (bytes_of_string "example.com") 0
     = (0, MBEDTLS_X509_BADCERT_CN_MISMATCH)
  /\ x509_crt_verify_name (H := Reference.x509core)
       (H0 := Reference.asn1parse)
       Samples.cn_only_crt (bytes_of_string "example.com") 0
     = (0, 0)
  /\ option_map subject_raw (crt_frame Samples.san_crt)
     = option_map subject_raw (crt_frame Samples.cn_only_crt).
Proof.
  split; [|split; [|split; [|repeat split; vm_compute; reflexivity]]].
  - intros X A crt frame cn flags Hframe Hsan ret.
    unfold x509_crt_verify_name. rewrite Hframe. simpl.
    apply Z.eqb_neq in Hsan. rewrite Hsan. simpl. fold ret.
    split; [reflexivity|]. split.
    + intros ->. reflexivity.
    + intros Hne. apply Z.eqb_neq in Hne. rewrite Hne.
      destruct (Z.eqb_spec ret 0) as [Hz | Hz]; simpl;
        [rewrite Hz|]; reflexivity.
  - intros X A crt frame cn flags Hframe Hsan ret.
    unfold x509_crt_verify_name. rewrite Hframe, Hsan. simpl. fold ret.
    destruct (ret =? 1); [reflexivity|].
    destruct (Z.eqb_spec ret 0) as [Hz | Hz]; simpl;
      [rewrite Hz|]; reflexivity.
  - intros p f g Hfg. unfold Reference.asn1_traverse_sequence_of.
    destruct (negb (rd_ret (Reference.asn1_get_tag p _) =? 0));
      [reflexivity|].
    destruct (negb (_ =? _)%nat); [reflexivity|].
    now apply asn1_traverse_elements_selected.
Qed.

Lemma x509_crt_verify_name_subject_alt_only_witness :
  x509_crt_verify_name (H := Reference.x509core) (H0 := Reference.asn1parse)
    Samples.san_crt (bytes_of_string "example.com") 7
  = (0, Z.lor 7 MBEDTLS_X509_BADCERT_CN_MISMATCH)
  /\ x509_crt_verify_name (H := Reference.x509core)
       (H0 := Reference.asn1parse)
       Samples.san_crt (bytes_of_string "other.example.org") 7
     = (0, 7)
  /\ x509_crt_verify_name (H := Reference.x509core)
       (H0 := Reference.asn1parse)
       Samples.cn_only_crt (bytes_of_string "foo.example.com") 0
     = (0, MBEDTLS_X509_BADCERT_CN_MISMATCH).
Proof.
  destruct x509_crt_verify_name_subject_alt_only
    as (Hsan & Hcn & _).
  split; [|split].
  - refine (proj2 (proj2 (Hsan Reference.x509core Reference.asn1parse
                            Samples.san_crt Samples.san_frame
                            (bytes_of_string "example.com") 7 _ _)) _).
    + reflexivity.
    + vm_compute. discriminate.
    + vm_compute. discriminate.
  - refine (proj1 (proj2 (Hsan Reference.x509core Reference.asn1parse
                            Samples.san_crt Samples.san_frame
                            (bytes_of_string "other.example.org") 7 _ _)) _).
    + reflexivity.
    + vm_compute. discriminate.
    + vm_compute. reflexivity.
  - rewrite (Hcn Reference.x509core Reference.asn1parse
               Samples.cn_only_crt
               (Samples.sample_frame "example.com" "R" [100] 0
                  Samples.t2020 Samples.t2030)
               (bytes_of_string "foo.example.com") 0 eq_refl eq_refl).
    vm_compute. reflexivity.
Defined.

(** ** The entry points *)

Lemma Returns_inj {A : Type} (a b : A) : Returns a = Returns b -> a = b.
Proof. intros Heq. now injection Heq. Qed.

Lemma x509_crt_verify_exit_cases (ret flags r f : Z) :
  x509_crt_verify_exit ret flags = (r, f) ->
  (ret = 0 /\ flags = 0 /\ r = 0 /\ f = 0)
  \/ (ret = 0 /\ flags <> 0
      /\ r = MBEDTLS_ERR_X509_CERT_VERIFY_FAILED /\ f = flags)
  \/ (ret <> 0 /\ r <> 0 /\ r <> MBEDTLS_ERR_X509_CERT_VERIFY_FAILED
      /\ f = to_uint32 (-1)).
Proof.
  unfold x509_crt_verify_exit.
  destruct (Z.eqb_spec ret MBEDTLS_ERR_X509_CERT_VERIFY_FAILED) as [Hv | Hv].
  - simpl. intros Heq. injection Heq as <- <-. right. right.
    subst ret. repeat split; discriminate.
  - destruct (Z.eqb_spec ret 0) as [Hz | Hz]; simpl.
    + destruct (Z.eqb_spec flags 0) as [Hf | Hf]; simpl;
        intros Heq; injection Heq as <- <-; [left | right; left];
        repeat split; auto.
    + intros Heq. injection Heq as <- <-. right. right.
      repeat split; auto.
Qed.

Lemma x509_crt_verify_name_ret `{X509Core} `{Asn1Parse}
    (crt : mbedtls_x509_crt) (cn : list Z) (flags : Z) :
  fst (x509_crt_verify_name crt cn flags) = 0
  \/ fst (x509_crt_verify_name crt cn flags) = MBEDTLS_ERR_X509_FATAL_ERROR.
Proof.
  unfold x509_crt_verify_name.
  destruct (crt_frame crt); [|now right].
  match goal with |- context [if ?r =? 1 then _ else _] => set (ret := r) end.
  destruct (ret =? 1); [now left|]. simpl.
  destruct (Z.eqb_spec ret 0) as [Hz | Hz]; simpl; auto.
Qed.

(** What a call that returns leaves in the return code and in [*flags]:
    0 with no flag, CERT_VERIFY_FAILED with the flags found, another code
    with all-ones, or, on the two returns that do not pass through the
    label [exit], the fatal error with the 0 stored on entry. *)
Lemma x509_crt_verify_restartable_ca_cb_cases
    `{X509Core} `{Asn1Parse} `{Config} `{PkMd}
    (crt trust_ca : crt_ptr) (ca_crl : list mbedtls_x509_crl)
    (f_ca_cb : option mbedtls_x509_crt_ca_cb_t)
    (profile : option mbedtls_x509_crt_profile) (cn : option (list Z))
    (f_vrfy : option x509_vrfy_cb) (ret flags : Z) :
  x509_crt_verify_restartable_ca_cb crt trust_ca ca_crl f_ca_cb profile cn
    f_vrfy = Returns (ret, flags) ->
  (ret = 0 /\ flags = 0)
  \/ (ret = MBEDTLS_ERR_X509_CERT_VERIFY_FAILED /\ flags <> 0)
  \/ (ret <> 0 /\ ret <> MBEDTLS_ERR_X509_CERT_VERIFY_FAILED
      /\ flags = to_uint32 (-1))
  \/ (ret = MBEDTLS_ERR_X509_FATAL_ERROR /\ flags = 0
      /\ exists ee next,
           crt = ee :: next
           /\ ((exists name, cn = Some name
                  /\ fst (x509_crt_verify_name ee name 0) <> 0)
               \/ crt_pk ee = None)).
Proof.
  assert (Hexit : forall r0 f0,
    x509_crt_verify_exit r0 f0 = (ret, flags) ->
    (ret = 0 /\ flags = 0)
    \/ (ret = MBEDTLS_ERR_X509_CERT_VERIFY_FAILED /\ flags <> 0)
    \/ (ret <> 0 /\ ret <> MBEDTLS_ERR_X509_CERT_VERIFY_FAILED
        /\ flags = to_uint32 (-1))
    \/ (ret = MBEDTLS_ERR_X509_FATAL_ERROR /\ flags = 0
        /\ exists ee next,
             crt = ee :: next
             /\ ((exists name, cn = Some name
                    /\ fst (x509_crt_verify_name ee name 0) <> 0)
                 \/ crt_pk ee = None))).
  { intros r0 f0 He.
    destruct (x509_crt_verify_exit_cases _ _ _ _ He)
      as [(_ & _ & -> & ->) | [(_ & Hf & -> & ->) | (_ & Hr & Hv & ->)]].
    - left. split; reflexivity.
    - right. left. split; [reflexivity | assumption].
    - right. right. left. repeat split; assumption. }
  unfold x509_crt_verify_restartable_ca_cb.
  destruct profile as [profile|];
    [|intros Heq; apply Returns_inj in Heq; now apply Hexit in Heq].
  destruct crt as [|ee next]; [discriminate|].
  destruct cn as [name|].
  - pose proof (x509_crt_verify_name_ret ee name 0) as Hname.
    destruct (x509_crt_verify_name ee name 0) as [r0 ee_flags] eqn:Hvn.
    simpl in Hname.
    destruct (Z.eqb_spec r0 0) as [Hz | Hz]; simpl.
    + destruct (crt_pk ee) as [pk|] eqn:Hpk.
      * destruct (x509_crt_verify_chain _ _ _ _ _ _) as [[r1 vc] | f];
          [|discriminate].
        destruct (negb (r1 =? 0));
          [intros Heq; apply Returns_inj in Heq; now apply Hexit in Heq|].
        destruct (items vc !! 0%nat); [|discriminate].
        destruct (x509_crt_merge_flags_with_cb _ _ _) as [[r2 f2] | f];
          [|discriminate].
        intros Heq; apply Returns_inj in Heq; now apply Hexit in Heq.
      * intros Heq. injection Heq as <- <-. right. right. right.
        repeat split. exists ee, next. split; [reflexivity | now right].
    + intros Heq. injection Heq as <- <-. right. right. right.
      destruct Hname as [Hn | Hn]; [contradiction|].
      repeat split; [exact Hn|].
      exists ee, next. split; [reflexivity|]. left.
      exists name. split; [reflexivity|]. rewrite Hvn. exact Hz.
  - simpl.
    destruct (crt_pk ee) as [pk|] eqn:Hpk.
    + destruct (x509_crt_verify_chain _ _ _ _ _ _) as [[r1 vc] | f];
        [|discriminate].
      destruct (negb (r1 =? 0));
        [intros Heq; apply Returns_inj in Heq; now apply Hexit in Heq|].
      destruct (items vc !! 0%nat); [|discriminate].
      destruct (x509_crt_merge_flags_with_cb _ _ _) as [[r2 f2] | f];
        [|discriminate].
      intros Heq; apply Returns_inj in Heq; now apply Hexit in Heq.
    + intros Heq. injection Heq as <- <-. right. right. right.
      repeat split. exists ee, next. split; [reflexivity | now right].
Qed.

(** C1.  On every platform, a call with a host name on an end entity
    whose frame cannot be acquired returns the fatal error and leaves in the
    flag word the 0 stored on entry, not all-ones; so does a call without a
    host name on an end entity whose public key cannot be acquired.  This
    is what each of the four entry points does on such an end entity, while
    the failure of the frame acquisition inside the chain building, which
    leaves by the label [exit], gives all-ones. *)
Theorem x509_crt_verify_fatal_error_flags :
  (forall (X : X509Core) (A : Asn1Parse) (C : Config) (P : PkMd)
          (ee : mbedtls_x509_crt) (next trust_ca : crt_ptr)
          (ca_crl : list mbedtls_x509_crl)
          (f_ca_cb : option mbedtls_x509_crt_ca_cb_t)
          (profile : mbedtls_x509_crt_profile) (name : list Z)
          (f_vrfy : option x509_vrfy_cb),
     crt_frame ee = None ->
     x509_crt_verify_restartable_ca_cb (ee :: next) trust_ca ca_crl f_ca_cb
       (Some profile) (Some name) f_vrfy
     = Returns (MBEDTLS_ERR_X509_FATAL_ERROR, 0))
  /\ (forall (X : X509Core) (A : Asn1Parse) (C : Config) (P : PkMd)
             (ee : mbedtls_x509_crt) (next trust_ca : crt_ptr)
             (ca_crl : list mbedtls_x509_crl)
             (f_ca_cb : option mbedtls_x509_crt_ca_cb_t)
             (profile : mbedtls_x509_crt_profile)
             (f_vrfy : option x509_vrfy_cb),
        crt_pk ee = None ->
        x509_crt_verify_restartable_ca_cb (ee :: next) trust_ca ca_crl f_ca_cb
          (Some profile) None f_vrfy
        = Returns (MBEDTLS_ERR_X509_FATAL_ERROR, 0))
  /\ 0 <> to_uint32 (-1)
  /\ (let cn := Some (bytes_of_string "EE") in
      let profile := Some mbedtls_x509_crt_profile_default in
      let ca_cb : option mbedtls_x509_crt_ca_cb_t :=
        Some (fun _ => (0, [Samples.R])) in
      mbedtls_x509_crt_verify (H := Reference.x509core)
        (H0 := Reference.asn1parse) (H1 := Reference.config)
        (H2 := Reference.pkmd)
        [Samples.EE_no_frame; Samples.I1] [Samples.R] [] cn None
      = Returns (MBEDTLS_ERR_X509_FATAL_ERROR, 0)
      /\ mbedtls_x509_crt_verify_with_profile (H := Reference.x509core)
           (H0 := Reference.asn1parse) (H1 := Reference.config)
           (H2 := Reference.pkmd)
           [Samples.EE_no_frame; Samples.I1] [Samples.R] [] profile cn None
         = Returns (MBEDTLS_ERR_X509_FATAL_ERROR, 0)
      /\ mbedtls_x509_crt_verify_with_ca_cb (H := Reference.x509core)
           (H0 := Reference.asn1parse) (H1 := Reference.config)
           (H2 := Reference.pkmd)
           [Samples.EE_no_frame; Samples.I1] ca_cb profile cn None
         = Returns (MBEDTLS_ERR_X509_FATAL_ERROR, 0)
      /\ mbedtls_x509_crt_verify_restartable (H := Reference.x509core)
           (H0 := Reference.asn1parse) (H1 := Reference.config)
           (H2 := Reference.pkmd)
           [Samples.EE_no_frame; Samples.I1] [Samples.R] [] profile cn None
         = Returns (MBEDTLS_ERR_X509_FATAL_ERROR, 0)
      /\ mbedtls_x509_crt_verify (H := Reference.x509core)
           (H0 := Reference.asn1parse) (H1 := Reference.config)
           (H2 := Reference.pkmd)
           [Samples.EE_no_pk; Samples.I1] [Samples.R] [] None None
         = Returns (MBEDTLS_ERR_X509_FATAL_ERROR, 0)
      /\ mbedtls_x509_crt_verify (H := Reference.x509core)
           (H0 := Reference.asn1parse) (H1 := Reference.config)
           (H2 := Reference.pkmd)
           [Samples.EE_no_frame; Samples.I1] [Samples.R] [] None None
         = Returns (MBEDTLS_ERR_X509_FATAL_ERROR, to_uint32 (-1))).
Proof.
  split; [|split; [|split]].
  - intros X A C P ee next trust_ca ca_crl f_ca_cb profile name f_vrfy Hframe.
    unfold x509_crt_verify_restartable_ca_cb, x509_crt_verify_name.
    rewrite Hframe. reflexivity.
  - intros X A C P ee next trust_ca ca_crl f_ca_cb profile f_vrfy Hpk.
    unfold x509_crt_verify_restartable_ca_cb. simpl.
    rewrite Hpk. reflexivity.
  - vm_compute. discriminate.
  - cbv zeta. repeat split; vm_compute; reflexivity.
Qed.

Lemma x509_crt_verify_fatal_error_flags_witness :
  x509_crt_verify_restartable_ca_cb (H := Reference.x509core)
    (H0 := Reference.asn1parse) (H1 := Reference.config)
    (H2 := Reference.pkmd)
    [Samples.EE_no_frame; Samples.I1] [Samples.R] [] None
    (Some mbedtls_x509_crt_profile_default) (Some (bytes_of_string "EE")) None
  = Returns (MBEDTLS_ERR_X509_FATAL_ERROR, 0)
  /\ x509_crt_verify_restartable_ca_cb (H := Reference.x509core)
       (H0 := Reference.asn1parse) (H1 := Reference.config)
       (H2 := Reference.pkmd)
       [Samples.EE_no_pk; Samples.I1] [Samples.R] [] None
       (Some mbedtls_x509_crt_profile_default) None None
     = Returns (MBEDTLS_ERR_X509_FATAL_ERROR, 0).
Proof.
  split.
  - apply (proj1 x509_crt_verify_fatal_error_flags). reflexivity.
  - apply (proj1 (proj2 x509_crt_verify_fatal_error_flags)). reflexivity.
Defined.

Lemma x509_crt_verify_chain_reset_items `{Config} :
  x509_crt_verify_chain_reset
  = {| items :=
         {| item_crt := []; item_flags := to_uint32 (-1) |}
         :: {| item_crt := []; item_flags := to_uint32 (-1) |}
         :: replicate MBEDTLS_X509_MAX_INTERMEDIATE_CA
              {| item_crt := []; item_flags := to_uint32 (-1) |};
       len := 0;
       trust_ca_cb_result := [] |}.
Proof.
  unfold x509_crt_verify_chain_reset, X509_MAX_VERIFY_CHAIN_SIZE.
  rewrite Nat.add_comm. reflexivity.
Qed.

Lemma x509_crt_check_ee_locally_trusted_in (crt : mbedtls_x509_crt_frame)
    (trust_ca : crt_ptr) :
  (exists T, In T trust_ca /\ crt_raw T = raw crt) ->
  x509_crt_check_ee_locally_trusted crt trust_ca = 0.
Proof.
  intros (T & Hin & Hraw).
  induction trust_ca as [|cur next IH]; [destruct Hin|].
  simpl.
  destruct ((length (raw crt) =? length (crt_raw cur))%nat
            && bytes_eqb (raw crt) (crt_raw cur)) eqn:Hcmp; [reflexivity|].
  destruct Hin as [-> | Hin]; [|now apply IH].
  rewrite Hraw, Nat.eqb_refl, bytes_eqb_refl in Hcmp. discriminate.
Qed.

(** The chain built for a self-issued end entity that is in the trusted
    list: the end entity alone, with the flags of its validity window and
    of its signature algorithms. *)
Lemma x509_crt_verify_chain_locally_trusted `{X509Core} `{Config} `{PkMd}
    (R : mbedtls_x509_crt) (next trust_ca : crt_ptr)
    (ca_crl : list mbedtls_x509_crl) (profile : mbedtls_x509_crt_profile)
    (frame : mbedtls_x509_crt_frame) :
  crt_frame R = Some frame ->
  mbedtls_x509_name_cmp_raw (issuer_raw frame) (subject_raw frame) None = 0 ->
  (exists T, In T trust_ca /\ crt_raw T = raw frame) ->
  mbedtls_x509_time_is_past (valid_to frame) = false ->
  mbedtls_x509_time_is_future (valid_from frame) = false ->
  x509_profile_check_md_alg profile (sig_md frame) = 0 ->
  x509_profile_check_pk_alg profile (sig_pk frame) = 0 ->
  x509_crt_verify_chain (R :: next) trust_ca ca_crl None profile
    x509_crt_verify_chain_reset
  = Returns (0,
      {| items :=
           {| item_crt := R :: next; item_flags := 0 |}
           :: {| item_crt := []; item_flags := to_uint32 (-1) |}
           :: replicate MBEDTLS_X509_MAX_INTERMEDIATE_CA
                {| item_crt := []; item_flags := to_uint32 (-1) |};
         len := 1;
         trust_ca_cb_result := [] |}).
Proof.
  intros Hframe Hname Htrust Hpast Hfuture Hmd Hpk.
  apply x509_crt_check_ee_locally_trusted_in in Htrust.
  rewrite x509_crt_verify_chain_reset_items.
  unfold x509_crt_verify_chain. simpl.
  unfold x509_crt_verify_chain_body, x509_crt_verify_chain_search. simpl.
  rewrite Hframe. rewrite Hpast, Hfuture, Hname, Hmd, Hpk, Htrust. simpl.
  reflexivity.
Qed.

(** C7 (amended).  For a self-issued certificate R at the head of the
    supplied list, whose DER is that of an entry of the trusted list, whose
    frame and public key are acquired, that is within its validity window
    and whose signature hash, signature PK algorithm, key type and key pass
    the profile, a call without a host name, with the static trusted list,
    and without a verdict callback (or with one that returns 0 and leaves
    the flags of R as they are) returns 0 with a flag word of 0. *)
Theorem x509_crt_verify_trusted_self_issued
    (X : X509Core) (A : Asn1Parse) (C : Config) (P : PkMd)
    (R : mbedtls_x509_crt) (next trust_ca : crt_ptr)
    (frame : mbedtls_x509_crt_frame) (pk : mbedtls_pk_context)
    (ca_crl : list mbedtls_x509_crl) (profile : mbedtls_x509_crt_profile)
    (f_vrfy : option x509_vrfy_cb) :
  crt_frame R = Some frame ->
  crt_pk R = Some pk ->
  mbedtls_x509_name_cmp_raw (issuer_raw frame) (subject_raw frame) None = 0 ->
  (exists T, In T trust_ca /\ crt_raw T = raw frame) ->
  mbedtls_x509_time_is_past (valid_to frame) = false ->
  mbedtls_x509_time_is_future (valid_from frame) = false ->
  x509_profile_check_md_alg profile (sig_md frame) = 0 ->
  x509_profile_check_pk_alg profile (sig_pk frame) = 0 ->
  x509_profile_check_pk_alg profile (pk_get_type pk) = 0 ->
  x509_profile_check_key profile pk = 0 ->
  (forall f, f_vrfy = Some f -> f (R :: next) 0 0 = (0, 0)) ->
  x509_crt_verify_restartable_ca_cb (R :: next) trust_ca ca_crl None
    (Some profile) None f_vrfy
  = Returns (0, 0).
Proof.
  intros Hframe Hpk Hname Htrust Hpast Hfuture Hmd Hsigpk Hpktype Hkey Hcb.
  unfold x509_crt_verify_restartable_ca_cb. simpl.
  rewrite Hpk, Hpktype, Hkey. simpl.
  rewrite (x509_crt_verify_chain_locally_trusted R next trust_ca ca_crl
             profile frame Hframe Hname Htrust Hpast Hfuture Hmd Hsigpk).
  simpl. unfold x509_crt_merge_flags_with_cb. simpl.
  destruct f_vrfy as [f|]; [|reflexivity].
  change (Z.of_nat 0) with 0. change (Z.lor 0 0) with 0.
  rewrite (Hcb f eq_refl). reflexivity.
Qed.

Lemma x509_crt_verify_trusted_self_issued_witness :
  x509_crt_verify_restartable_ca_cb (H := Reference.x509core)
    (H0 := Reference.asn1parse) (H1 := Reference.config)
    (H2 := Reference.pkmd)
    [Samples.R] [Samples.R_other_key; Samples.R] []
    None (Some mbedtls_x509_crt_profile_default) None (Some Samples.vrfy_keep)
  = Returns (0, 0).
Proof.
  apply (x509_crt_verify_trusted_self_issued
           Reference.x509core Reference.asn1parse Reference.config
           Reference.pkmd Samples.R [] [Samples.R_other_key; Samples.R]
           (Samples.sample_frame "R" "R" [100] 1 Samples.t2020 Samples.t2030)
           (Samples.rsa_key [100]) [] mbedtls_x509_crt_profile_default
           (Some Samples.vrfy_keep)).
  - reflexivity.
  - reflexivity.
  - vm_compute. reflexivity.
  - exists Samples.R. split; [right; left; reflexivity | reflexivity].
  - vm_compute. reflexivity.
  - vm_compute. reflexivity.
  - vm_compute. reflexivity.
  - vm_compute. reflexivity.
  - vm_compute. reflexivity.
  - vm_compute. reflexivity.
  - intros f Hf. injection Hf as <-. reflexivity.
Defined.

(** The statement for any verdict callback fails on a callback that
    objects to every certificate: the verdict for the trusted root R is
    then CERT_VERIFY_FAILED with BADCERT_OTHER. *)
Lemma x509_crt_verify_trusted_self_issued_counterexample :
  ~ spec_trusted_root_verifies.
Proof.
  intros Hspec.
  specialize (Hspec Reference.x509core Reference.asn1parse Reference.config
                Reference.pkmd Samples.R
                (Samples.sample_frame "R" "R" [100] 1
                   Samples.t2020 Samples.t2030)
                (Samples.rsa_key [100]) [Samples.R] []
                mbedtls_x509_crt_profile_default (Some Samples.vrfy_other)).
  assert (Hrun :
    x509_crt_verify_restartable_ca_cb (H := Reference.x509core)
      (H0 := Reference.asn1parse) (H1 := Reference.config)
      (H2 := Reference.pkmd)
      [Samples.R] [Samples.R] [] None (Some mbedtls_x509_crt_profile_default)
      None (Some Samples.vrfy_other)
    = Returns (MBEDTLS_ERR_X509_CERT_VERIFY_FAILED,
               MBEDTLS_X509_BADCERT_OTHER)) by (vm_compute; reflexivity).
  rewrite Hrun in Hspec.
  assert (Hfalse :
    Returns (MBEDTLS_ERR_X509_CERT_VERIFY_FAILED, MBEDTLS_X509_BADCERT_OTHER)
    = (Returns (0, 0) : outcome (Z * Z)) -> False) by discriminate.
  apply Hfalse. apply Hspec.
  - reflexivity.
  - reflexivity.
  - vm_compute. reflexivity.
  - exists Samples.R. split; [left; reflexivity | reflexivity].
  - vm_compute. reflexivity.
  - vm_compute. reflexivity.
  - vm_compute. reflexivity.
  - vm_compute. reflexivity.
  - vm_compute. reflexivity.
  - vm_compute. reflexivity.
Qed.

(** ** Key usage *)

(** The bits of [~may_mask] as an [unsigned]: all of the low 32 but
    encipherOnly (bit 0) and decipherOnly (bit 15). *)
Lemma key_usage_must_mask_bits (i : Z) :
  Z.testbit 4294934526 i = (0 <=? i) && (i <? 32) && negb (i =? 0) && negb (i =? 15).
Proof.
  destruct (Z.ltb_spec i 0) as [Hneg | Hpos].
  - rewrite Z.testbit_neg_r by lia.
    destruct (Z.leb_spec 0 i); [lia | reflexivity].
  - destruct (Z.ltb_spec i 32) as [Hlt | Hge].
    + assert (Hi : i = 0 \/ i = 1 \/ i = 2 \/ i = 3 \/ i = 4 \/ i = 5 \/ i = 6
                   \/ i = 7 \/ i = 8 \/ i = 9 \/ i = 10 \/ i = 11 \/ i = 12
                   \/ i = 13 \/ i = 14 \/ i = 15 \/ i = 16 \/ i = 17 \/ i = 18
                   \/ i = 19 \/ i = 20 \/ i = 21 \/ i = 22 \/ i = 23 \/ i = 24
                   \/ i = 25 \/ i = 26 \/ i = 27 \/ i = 28 \/ i = 29 \/ i = 30
                   \/ i = 31) by lia.
      repeat (destruct Hi as [-> | Hi]; [reflexivity |]). subst i. reflexivity.
    + rewrite Z.bits_above_log2; [| lia |].
      * destruct (Z.leb_spec 0 i); [reflexivity | lia].
      * apply Z.log2_lt_pow2; [lia |].
        apply Z.lt_le_trans with (2 ^ 32); [reflexivity |].
        apply Z.pow_le_mono_r; lia.
Qed.

Lemma key_usage_may_mask_bits (i : Z) :
  Z.testbit 32769 i = (i =? 0) || (i =? 15).
Proof.
  destruct (Z.ltb_spec i 0) as [Hneg | Hpos].
  - rewrite Z.testbit_neg_r by lia.
    destruct (Z.eqb_spec i 0); [lia |]. destruct (Z.eqb_spec i 15); [lia |].
    reflexivity.
  - destruct (Z.ltb_spec i 16) as [Hlt | Hge].
    + assert (Hi : i = 0 \/ i = 1 \/ i = 2 \/ i = 3 \/ i = 4 \/ i = 5 \/ i = 6
                   \/ i = 7 \/ i = 8 \/ i = 9 \/ i = 10 \/ i = 11 \/ i = 12
                   \/ i = 13 \/ i = 14 \/ i = 15) by lia.
      repeat (destruct Hi as [-> | Hi]; [reflexivity |]). subst i. reflexivity.
    + rewrite Z.bits_above_log2; [| lia |].
      * destruct (Z.eqb_spec i 0); [lia |]. destruct (Z.eqb_spec i 15); [lia |].
        reflexivity.
      * apply Z.log2_lt_pow2; [lia |].
        apply Z.lt_le_trans with (2 ^ 16); [reflexivity |].
        apply Z.pow_le_mono_r; lia.
Qed.

(** [a & b == b]: every bit of [b] is a bit of [a]. *)
Lemma land_eq_r_bits (a b : Z) :
  Z.land a b = b <->
  forall i : Z, 0 <= i -> Z.testbit b i = true -> Z.testbit a i = true.
Proof.
  split.
  - intros Heq i Hi Hb. rewrite <- Heq in Hb.
    rewrite Z.land_spec in Hb. apply andb_true_iff in Hb. tauto.
  - intros Hbits. apply Z.bits_inj'. intros i Hi.
    rewrite Z.land_spec.
    destruct (Z.testbit b i) eqn:Hb.
    + rewrite (Hbits i Hi Hb). reflexivity.
    + apply andb_false_r.
Qed.

(** [(a | b) == b]: every bit of [a] is a bit of [b]. *)
Lemma lor_eq_r_bits (a b : Z) :
  Z.lor a b = b <->
  forall i : Z, 0 <= i -> Z.testbit a i = true -> Z.testbit b i = true.
Proof.
  split.
  - intros Heq i Hi Ha. rewrite <- Heq.
    rewrite Z.lor_spec, Ha. reflexivity.
  - intros Hbits. apply Z.bits_inj'. intros i Hi.
    rewrite Z.lor_spec.
    destruct (Z.testbit a i) eqn:Ha.
    + rewrite (Hbits i Hi Ha). reflexivity.
    + reflexivity.
Qed.

Lemma testbit_above_32 (z i : Z) :
  0 <= z < 2 ^ 32 -> 32 <= i -> Z.testbit z i = false.
Proof.
  intros Hz Hi.
  destruct (Z.eq_dec z 0) as [-> | Hnz]; [apply Z.bits_0 |].
  apply Z.bits_above_log2; [lia |].
  apply Z.lt_le_trans with 32; [| exact Hi].
  apply Z.log2_lt_pow2; lia.
Qed.

(** X1.  [mbedtls_x509_crt_check_key_usage] on a certificate whose frame is
    at hand answers 0 or BAD_INPUT_DATA, and 0 exactly when the certificate
    has no KeyUsage extension, or every bit asked for other than
    encipherOnly (bit 0) and decipherOnly (bit 15) is among the bits of the
    certificate and each of these two, when the certificate has it, is
    asked for; without the frame it answers FATAL_ERROR. *)
Theorem mbedtls_x509_crt_check_key_usage_bits
    (crt : mbedtls_x509_crt) (frame : mbedtls_x509_crt_frame) (usage : Z) :
  0 <= usage < 2 ^ 32 ->
  0 <= key_usage frame < 2 ^ 32 ->
  (crt_frame crt = None ->
   mbedtls_x509_crt_check_key_usage crt usage = MBEDTLS_ERR_X509_FATAL_ERROR)
  /\ (crt_frame crt = Some frame ->
      (mbedtls_x509_crt_check_key_usage crt usage = 0
       \/ mbedtls_x509_crt_check_key_usage crt usage
          = MBEDTLS_ERR_X509_BAD_INPUT_DATA)
      /\ (mbedtls_x509_crt_check_key_usage crt usage = 0 <->
          Z.land (ext_types frame) MBEDTLS_X509_EXT_KEY_USAGE = 0
          \/ ((forall i : Z, 0 <= i -> i <> 0 -> i <> 15 ->
                 Z.testbit usage i = true ->
                 Z.testbit (key_usage frame) i = true)
              /\ (forall i : Z, i = 0 \/ i = 15 ->
                    Z.testbit (key_usage frame) i = true ->
                    Z.testbit usage i = true)))).
Proof.
  intros Husage Hku. split.
  - intros Hnone. unfold mbedtls_x509_crt_check_key_usage.
    rewrite Hnone. reflexivity.
  - intros Hsome. unfold mbedtls_x509_crt_check_key_usage. rewrite Hsome.
    unfold x509_crt_check_key_usage_frame.
    change (to_uint32
              (Z.lnot (Z.lor MBEDTLS_X509_KU_ENCIPHER_ONLY
                             MBEDTLS_X509_KU_DECIPHER_ONLY)))
      with 4294934526.
    change (Z.lor MBEDTLS_X509_KU_ENCIPHER_ONLY MBEDTLS_X509_KU_DECIPHER_ONLY)
      with 32769.
    cbv zeta.
    destruct (Z.eqb_spec (Z.land (ext_types frame) MBEDTLS_X509_EXT_KEY_USAGE) 0)
      as [Hext | Hext].
    { split; [left; reflexivity |]. split; [intros _; left; exact Hext |].
      reflexivity. }
    destruct (Z.eqb_spec
                (Z.land (Z.land (key_usage frame) 4294934526)
                        (Z.land usage 4294934526))
                (Z.land usage 4294934526)) as [Hmust | Hmust]; simpl.
    + destruct (Z.eqb_spec
                  (Z.lor (Z.land (key_usage frame) 32769) (Z.land usage 32769))
                  (Z.land usage 32769)) as [Hmay | Hmay]; simpl.
      * split; [left; reflexivity |]. split; [intros _; right | reflexivity].
        split.
        -- intros i Hi H0 H15 Hu.
           pose proof (proj1 (land_eq_r_bits _ _) Hmust i Hi) as Hb.
           rewrite !Z.land_spec, key_usage_must_mask_bits in Hb.
           destruct (Z.ltb_spec i 32) as [Hlt | Hge].
           ++ rewrite Hu in Hb.
              destruct (Z.leb_spec 0 i); [| lia].
              destruct (Z.eqb_spec i 0); [lia |].
              destruct (Z.eqb_spec i 15); [lia |].
              simpl in Hb. specialize (Hb eq_refl).
              rewrite andb_true_r in Hb. exact Hb.
           ++ rewrite (testbit_above_32 usage i Husage Hge) in Hu.
              discriminate.
        -- intros i Hi Hk.
           assert (Hi0 : 0 <= i) by lia.
           pose proof (proj1 (lor_eq_r_bits _ _) Hmay i Hi0) as Hb.
           rewrite !Z.land_spec, key_usage_may_mask_bits in Hb.
           rewrite Hk in Hb.
           assert (Hm : (i =? 0) || (i =? 15) = true).
           { destruct Hi as [-> | ->]; reflexivity. }
           rewrite Hm in Hb. specialize (Hb eq_refl).
           rewrite andb_true_r in Hb. exact Hb.
      * split; [right; reflexivity |]. split; [discriminate |].
        intros [Habs | [_ Hmay']]; [contradiction |]. exfalso. apply Hmay.
        apply lor_eq_r_bits. intros i Hi.
        rewrite !Z.land_spec, key_usage_may_mask_bits.
        intros Hb. apply andb_true_iff in Hb. destruct Hb as [Hk Hm].
        rewrite Hm, andb_true_r. apply Hmay'; [| exact Hk].
        apply orb_true_iff in Hm.
        destruct Hm as [Hm | Hm]; apply Z.eqb_eq in Hm; auto.
    + split; [right; reflexivity |]. split; [discriminate |].
      intros [Habs | [Hmust' _]]; [contradiction |]. exfalso. apply Hmust.
      apply land_eq_r_bits. intros i Hi.
      rewrite !Z.land_spec, key_usage_must_mask_bits.
      intros Hb. apply andb_true_iff in Hb. destruct Hb as [Hu Hm].
      rewrite Hm, !andb_true_r.
      apply andb_true_iff in Hm. destruct Hm as [Hm H15].
      apply andb_true_iff in Hm. destruct Hm as [Hm H0].
      apply Hmust'; [exact Hi | | | exact Hu].
      * destruct (Z.eqb_spec i 0); [discriminate | assumption].
      * destruct (Z.eqb_spec i 15); [discriminate | assumption].
Qed.

Lemma mbedtls_x509_crt_check_key_usage_bits_witness :
  mbedtls_x509_crt_check_key_usage
    (crt_with_frame Samples.R Samples.v1_root_frame)
    MBEDTLS_X509_KU_KEY_CERT_SIGN = 0
  \/ mbedtls_x509_crt_check_key_usage
       (crt_with_frame Samples.R Samples.v1_root_frame)
       MBEDTLS_X509_KU_KEY_CERT_SIGN = MBEDTLS_ERR_X509_BAD_INPUT_DATA.
Proof.
  apply (proj2 (mbedtls_x509_crt_check_key_usage_bits
                  (crt_with_frame Samples.R Samples.v1_root_frame)
                  Samples.v1_root_frame MBEDTLS_X509_KU_KEY_CERT_SIGN
                  ltac:(vm_compute; split; [discriminate | reflexivity])
                  ltac:(vm_compute; split; [discriminate | reflexivity]))).
  reflexivity.
Defined.

(** ** Revocation *)

Lemma x509_serial_is_revoked_values `{X509Core} (serial : list Z)
    (entries : list mbedtls_x509_crl_entry) :
  x509_serial_is_revoked serial entries = 0
  \/ x509_serial_is_revoked serial entries = 1.
Proof.
  induction entries as [| cur next IH]; simpl; [left; reflexivity |].
  destruct (length (entry_serial cur) =? 0)%nat; [left; reflexivity |].
  destruct ((length serial =? length (entry_serial cur))%nat
            && bytes_eqb serial (entry_serial cur)
            && mbedtls_x509_time_is_past (revocation_date cur));
    [right; reflexivity | exact IH].
Qed.

(** X2.  [mbedtls_x509_crt_is_revoked] answers 0 or 1 for a certificate
    whose frame is at hand, and 1 exactly when an entry of the CRL carries
    the serial of the certificate and a revocation date in the past, no
    entry up to it having an empty serial (the walk over the entries ends
    at the first empty serial); without the frame it answers
    FATAL_ERROR. *)
Theorem mbedtls_x509_crt_is_revoked_correct (X : X509Core)
    (crt : mbedtls_x509_crt) (crl : mbedtls_x509_crl) :
  match crt_frame crt with
  | None => mbedtls_x509_crt_is_revoked crt crl = MBEDTLS_ERR_X509_FATAL_ERROR
  | Some frame =>
    (mbedtls_x509_crt_is_revoked crt crl = 0
     \/ mbedtls_x509_crt_is_revoked crt crl = 1)
    /\ (mbedtls_x509_crt_is_revoked crt crl = 1 <->
        exists (i : nat) (e : mbedtls_x509_crl_entry),
          crl_entry crl !! i = Some e
          /\ entry_serial e = serial frame
          /\ mbedtls_x509_time_is_past (revocation_date e) = true
          /\ forall (j : nat) (e' : mbedtls_x509_crl_entry),
               (j <= i)%nat -> crl_entry crl !! j = Some e' ->
               entry_serial e' <> [])
  end.
Proof.
  unfold mbedtls_x509_crt_is_revoked.
  destruct (crt_frame crt) as [frame |]; [| reflexivity].
  generalize (serial frame) as s. generalize (crl_entry crl) as entries.
  induction entries as [| cur next IH]; intros s.
  - simpl. split; [left; reflexivity |]. split; [discriminate |].
    intros (i & e & Hlook & _). destruct i; discriminate Hlook.
  - simpl.
    destruct (Nat.eqb_spec (length (entry_serial cur)) 0) as [Hempty | Hne].
    + split; [left; reflexivity |]. split; [discriminate |].
      intros (i & e & Hlook & _ & _ & Hall). exfalso.
      apply (Hall 0%nat cur); [lia | reflexivity |].
      destruct (entry_serial cur); [reflexivity | discriminate Hempty].
    + destruct ((length s =? length (entry_serial cur))%nat
                && bytes_eqb s (entry_serial cur)
                && mbedtls_x509_time_is_past (revocation_date cur)) eqn:Hhit.
      * split; [right; reflexivity |]. split; [intros _ | reflexivity].
        apply andb_true_iff in Hhit. destruct Hhit as [Hhit Hpast].
        apply andb_true_iff in Hhit. destruct Hhit as [_ Heq].
        apply bytes_eqb_eq in Heq.
        exists 0%nat, cur. split; [reflexivity |]. split; [auto |].
        split; [exact Hpast |].
        intros j e' Hj Hlook. assert (j = 0%nat) by lia. subst j.
        injection Hlook as <-. intros Habs. rewrite Habs in Hne.
        apply Hne. reflexivity.
      * destruct (IH s) as [Hval Hiff]. split; [exact Hval |].
        rewrite Hiff. split.
        -- intros (i & e & Hlook & Hser & Hpast & Hall).
           exists (S i), e. split; [exact Hlook |]. split; [exact Hser |].
           split; [exact Hpast |].
           intros j e' Hj Hl. destruct j as [| j].
           ++ injection Hl as <-. intros Habs. rewrite Habs in Hne.
              apply Hne. reflexivity.
           ++ apply (Hall j e'); [lia | exact Hl].
        -- intros (i & e & Hlook & Hser & Hpast & Hall).
           destruct i as [| i].
           ++ injection Hlook as <-. exfalso.
              rewrite Hser, Nat.eqb_refl, bytes_eqb_refl, Hpast in Hhit.
              discriminate Hhit.
           ++ exists i, e. split; [exact Hlook |]. split; [exact Hser |].
              split; [exact Hpast |].
              intros j e' Hj Hl. apply (Hall (S j) e'); [lia | exact Hl].
Qed.

(** Flags without the bit BADCERT_REVOKED keep it clear when a flag other
    than BADCERT_REVOKED is added. *)
Lemma not_revoked_lor (flags c : Z) :
  Z.land flags MBEDTLS_X509_BADCERT_REVOKED = 0 ->
  Z.land c MBEDTLS_X509_BADCERT_REVOKED = 0 ->
  Z.land (Z.lor flags c) MBEDTLS_X509_BADCERT_REVOKED = 0.
Proof.
  intros Hf Hc. rewrite Z.land_lor_distr_l, Hf, Hc. reflexivity.
Qed.

Lemma not_revoked_if (b : bool) (flags c : Z) :
  Z.land flags MBEDTLS_X509_BADCERT_REVOKED = 0 ->
  Z.land c MBEDTLS_X509_BADCERT_REVOKED = 0 ->
  Z.land (if b then Z.lor flags c else flags) MBEDTLS_X509_BADCERT_REVOKED = 0.
Proof.
  intros Hf Hc. destruct b; [apply not_revoked_lor; assumption | exact Hf].
Qed.




Lemma x509_crt_verifycrl_loop_revoked `{X509Core} `{Config} `{PkMd}
    (crt_serial ca_subject : list Z) (can_sign : bool)
    (pk : mbedtls_pk_context) (crl_list : list mbedtls_x509_crl)
    (profile : mbedtls_x509_crt_profile) (flags : Z) :
  Z.land flags MBEDTLS_X509_BADCERT_REVOKED = 0 ->
  Z.land (x509_crt_verifycrl_loop crt_serial ca_subject can_sign pk crl_list
            profile flags) MBEDTLS_X509_BADCERT_REVOKED <> 0 ->
  exists (crl : mbedtls_x509_crl) (hash : list Z),
    In crl crl_list
    /\ crl_of_ca ca_subject crl = true
    /\ (MBEDTLS_X509_CHECK_KEY_USAGE = true -> can_sign = true)
    /\ mbedtls_md (crl_sig_md crl) (crl_tbs crl) = Some hash
    /\ mbedtls_pk_verify_ext (crl_sig_pk crl) pk (crl_sig_md crl) hash
         (crl_sig crl) = 0
    /\ x509_serial_is_revoked crt_serial (crl_entry crl) <> 0.
Proof.
  revert flags.
  induction crl_list as [| crl next IH]; intros flags Hclear Hset.
  - simpl in Hset. contradiction.
  - simpl in Hset.
    assert (Hnext : forall flags',
      Z.land flags' MBEDTLS_X509_BADCERT_REVOKED = 0 ->
      Z.land (x509_crt_verifycrl_loop crt_serial ca_subject can_sign pk next
                profile flags') MBEDTLS_X509_BADCERT_REVOKED <> 0 ->
      exists (crl0 : mbedtls_x509_crl) (hash : list Z),
        In crl0 (crl :: next)
        /\ crl_of_ca ca_subject crl0 = true
        /\ (MBEDTLS_X509_CHECK_KEY_USAGE = true -> can_sign = true)
        /\ mbedtls_md (crl_sig_md crl0) (crl_tbs crl0) = Some hash
        /\ mbedtls_pk_verify_ext (crl_sig_pk crl0) pk (crl_sig_md crl0) hash
             (crl_sig crl0) = 0
        /\ x509_serial_is_revoked crt_serial (crl_entry crl0) <> 0).
    { intros flags' Hc Hs. destruct (IH flags' Hc Hs) as (c & h & Hin & Hrest).
      exists c, h. split; [right; exact Hin | exact Hrest]. }
    destruct ((crl_version crl =? 0)
              || negb (mbedtls_x509_name_cmp_raw (crl_issuer_raw crl)
                         ca_subject None =? 0)) eqn:Hskip.
    { apply (Hnext flags Hclear Hset). }
    assert (Hof : crl_of_ca ca_subject crl = true).
    { unfold crl_of_ca. apply orb_false_iff in Hskip.
      destruct Hskip as [Hv Hn]. rewrite Hv.
      apply negb_false_iff in Hn. rewrite Hn. reflexivity. }
    destruct (MBEDTLS_X509_CHECK_KEY_USAGE && negb can_sign) eqn:Hku.
    { exfalso. apply Hset. apply not_revoked_lor; [exact Hclear | reflexivity]. }
    assert (Hsign : MBEDTLS_X509_CHECK_KEY_USAGE = true -> can_sign = true).
    { intros Hon. rewrite Hon in Hku. simpl in Hku.
      apply negb_false_iff in Hku. exact Hku. }
    set (f1 := if negb (x509_profile_check_md_alg profile (crl_sig_md crl) =? 0)
               then Z.lor flags MBEDTLS_X509_BADCRL_BAD_MD else flags) in Hset.
    assert (H1c : Z.land f1 MBEDTLS_X509_BADCERT_REVOKED = 0)
      by (apply not_revoked_if; [exact Hclear | reflexivity]).
    set (f2 := if negb (x509_profile_check_pk_alg profile (crl_sig_pk crl) =? 0)
               then Z.lor f1 MBEDTLS_X509_BADCRL_BAD_PK else f1) in Hset.
    assert (H2c : Z.land f2 MBEDTLS_X509_BADCERT_REVOKED = 0)
      by (apply not_revoked_if; [exact H1c | reflexivity]).
    destruct (mbedtls_md (crl_sig_md crl) (crl_tbs crl)) as [hash |] eqn:Hmd.
    2: { exfalso. apply Hset. apply not_revoked_lor; [exact H2c | reflexivity]. }
    set (f3 := if negb (x509_profile_check_key profile pk =? 0)
               then Z.lor f2 MBEDTLS_X509_BADCERT_BAD_KEY else f2) in Hset.
    assert (H3c : Z.land f3 MBEDTLS_X509_BADCERT_REVOKED = 0)
      by (apply not_revoked_if; [exact H2c | reflexivity]).
    destruct (Z.eqb_spec
                (mbedtls_pk_verify_ext (crl_sig_pk crl) pk (crl_sig_md crl)
                   hash (crl_sig crl)) 0) as [Hsig | Hsig]; simpl in Hset.
    2: { exfalso. apply Hset. apply not_revoked_lor; [exact H3c | reflexivity]. }
    set (f4 := if mbedtls_x509_time_is_past (next_update crl)
               then Z.lor f3 MBEDTLS_X509_BADCRL_EXPIRED else f3) in Hset.
    assert (H4c : Z.land f4 MBEDTLS_X509_BADCERT_REVOKED = 0)
      by (apply not_revoked_if; [exact H3c | reflexivity]).
    set (f5 := if mbedtls_x509_time_is_future (this_update crl)
               then Z.lor f4 MBEDTLS_X509_BADCRL_FUTURE else f4) in Hset.
    assert (H5c : Z.land f5 MBEDTLS_X509_BADCERT_REVOKED = 0)
      by (apply not_revoked_if; [exact H4c | reflexivity]).
    destruct (Z.eqb_spec (x509_serial_is_revoked crt_serial (crl_entry crl)) 0)
      as [Hrev | Hrev]; simpl in Hset.
    + apply (Hnext f5 H5c Hset).
    + exists crl, hash. split; [left; reflexivity |]. repeat split; assumption.
Qed.

(** X4.  [x509_crt_verifycrl] sets BADCERT_REVOKED only on the word of a
    CRL that it has found to be one of the CA and correctly signed: a CRL
    of the list with a version other than 0 and the subject of the CA as
    its issuer, whose signature over its hashed body verifies under the key
    of the CA, and whose entries hold the serial as revoked; and, where the
    key usage is checked, only for a CA that may sign CRLs. *)
Theorem x509_crt_verifycrl_revoked_sound (X : X509Core) (C : Config) (P : PkMd)
    (crt_serial : list Z) (ca_crt : crt_ptr)
    (crl_list : list mbedtls_x509_crl) (profile : mbedtls_x509_crt_profile) :
  Z.land (x509_crt_verifycrl crt_serial ca_crt crl_list profile)
    MBEDTLS_X509_BADCERT_REVOKED <> 0 ->
  exists (c : mbedtls_x509_crt) (next : crt_ptr) (ca : mbedtls_x509_crt_frame)
         (pk : mbedtls_pk_context) (crl : mbedtls_x509_crl) (hash : list Z),
    ca_crt = c :: next /\ crt_frame c = Some ca /\ crt_pk c = Some pk
    /\ In crl crl_list
    /\ crl_of_ca (subject_raw ca) crl = true
    /\ (MBEDTLS_X509_CHECK_KEY_USAGE = true ->
        x509_crt_check_key_usage_frame ca MBEDTLS_X509_KU_CRL_SIGN = 0)
    /\ mbedtls_md (crl_sig_md crl) (crl_tbs crl) = Some hash
    /\ mbedtls_pk_verify_ext (crl_sig_pk crl) pk (crl_sig_md crl) hash
         (crl_sig crl) = 0
    /\ x509_serial_is_revoked crt_serial (crl_entry crl) = 1.
Proof.
  unfold x509_crt_verifycrl. intros Hset.
  destruct ca_crt as [| c next]; [contradiction Hset; reflexivity |].
  destruct (crt_frame c) as [ca |] eqn:Hframe;
    [| contradiction Hset; reflexivity].
  destruct (crt_pk c) as [pk |] eqn:Hpk; [| contradiction Hset; reflexivity].
  destruct (x509_crt_verifycrl_loop_revoked _ _ _ _ _ _ 0 eq_refl Hset)
    as (crl & hash & Hin & Hof & Hsign & Hmd & Hsig & Hrev).
  exists c, next, ca, pk, crl, hash.
  repeat split; try assumption.
  - intros Hon. apply Z.eqb_eq. apply Hsign. exact Hon.
  - destruct (x509_serial_is_revoked_values crt_serial (crl_entry crl));
      [contradiction | assumption].
Qed.

Lemma x509_crt_verifycrl_revoked_sound_witness :
  exists (c : mbedtls_x509_crt) (next : crt_ptr) (ca : mbedtls_x509_crt_frame)
         (pk : mbedtls_pk_context) (crl : mbedtls_x509_crl) (hash : list Z),
    [Samples.R] = c :: next /\ crt_frame c = Some ca /\ crt_pk c = Some pk
    /\ In crl [CrlSamples.I1_crl; CrlSamples.R_crl_other_serial;
               CrlSamples.R_crl]
    /\ crl_of_ca (H := Reference.x509core) (subject_raw ca) crl = true
    /\ (MBEDTLS_X509_CHECK_KEY_USAGE (Config := Reference.config) = true ->
        x509_crt_check_key_usage_frame ca MBEDTLS_X509_KU_CRL_SIGN = 0)
    /\ mbedtls_md (PkMd := Reference.pkmd) (crl_sig_md crl) (crl_tbs crl)
       = Some hash
    /\ mbedtls_pk_verify_ext (PkMd := Reference.pkmd) (crl_sig_pk crl) pk
         (crl_sig_md crl) hash (crl_sig crl) = 0
    /\ x509_serial_is_revoked (H := Reference.x509core) [1] (crl_entry crl)
       = 1.
Proof.
  apply (x509_crt_verifycrl_revoked_sound Reference.x509core Reference.config
           Reference.pkmd [1] [Samples.R]
           [CrlSamples.I1_crl; CrlSamples.R_crl_other_serial; CrlSamples.R_crl]
           mbedtls_x509_crt_profile_default).
  vm_compute. discriminate.
Defined.

Lemma revoked_lor_set (flags : Z) :
  Z.land (Z.lor flags MBEDTLS_X509_BADCERT_REVOKED)
    MBEDTLS_X509_BADCERT_REVOKED <> 0.
Proof.
  rewrite Z.land_lor_distr_l. intros Habs.
  apply Z.lor_eq_0_iff in Habs. destruct Habs as [_ Habs].
  discriminate Habs.
Qed.

Lemma x509_crt_verifycrl_loop_finds `{X509Core} `{Config} `{PkMd}
    (crt_serial ca_subject : list Z) (can_sign : bool)
    (pk : mbedtls_pk_context) (crl_list : list mbedtls_x509_crl)
    (profile : mbedtls_x509_crt_profile) (flags : Z) :
  (MBEDTLS_X509_CHECK_KEY_USAGE = true -> can_sign = true) ->
  (forall crl, In crl crl_list -> crl_of_ca ca_subject crl = true ->
     exists hash,
       mbedtls_md (crl_sig_md crl) (crl_tbs crl) = Some hash
       /\ mbedtls_pk_verify_ext (crl_sig_pk crl) pk (crl_sig_md crl) hash
            (crl_sig crl) = 0) ->
  (exists crl, In crl crl_list /\ crl_of_ca ca_subject crl = true
               /\ x509_serial_is_revoked crt_serial (crl_entry crl) <> 0) ->
  Z.land (x509_crt_verifycrl_loop crt_serial ca_subject can_sign pk crl_list
            profile flags) MBEDTLS_X509_BADCERT_REVOKED <> 0.
Proof.
  intros Hsign. revert flags.
  induction crl_list as [| crl next IH]; intros flags Hgood Hlisted.
  - destruct Hlisted as (c & [] & _).
  - simpl.
    assert (Hgood' : forall c, In c next -> crl_of_ca ca_subject c = true ->
              exists hash,
                mbedtls_md (crl_sig_md c) (crl_tbs c) = Some hash
                /\ mbedtls_pk_verify_ext (crl_sig_pk c) pk (crl_sig_md c) hash
                     (crl_sig c) = 0).
    { intros c Hc. apply Hgood. right. exact Hc. }
    destruct (crl_of_ca ca_subject crl) eqn:Hof.
    + pose proof Hof as Hof'. unfold crl_of_ca in Hof'.
      apply andb_true_iff in Hof'. destruct Hof' as [Hv Hn].
      apply negb_true_iff in Hv. rewrite Hv, Hn. simpl.
      assert (Hku : MBEDTLS_X509_CHECK_KEY_USAGE && negb can_sign = false).
      { destruct MBEDTLS_X509_CHECK_KEY_USAGE; [| reflexivity].
        rewrite (Hsign eq_refl). reflexivity. }
      rewrite Hku.
      destruct (Hgood crl (or_introl eq_refl) Hof) as (hash & Hmd & Hsig).
      rewrite Hmd, Hsig. simpl.
      destruct (Z.eqb_spec (x509_serial_is_revoked crt_serial (crl_entry crl)) 0)
        as [Hrev | Hrev]; simpl.
      * apply IH; [exact Hgood' |].
        destruct Hlisted as (c & [<- | Hin] & Hc & Hr); [contradiction |].
        exists c. auto.
      * apply revoked_lor_set.
    + assert (Hskip : (crl_version crl =? 0)
                      || negb (mbedtls_x509_name_cmp_raw (crl_issuer_raw crl)
                                 ca_subject None =? 0) = true).
      { unfold crl_of_ca in Hof. destruct (crl_version crl =? 0);
          [reflexivity |]. simpl in *. rewrite Hof. reflexivity. }
      rewrite Hskip. apply IH; [exact Hgood' |].
      destruct Hlisted as (c & [<- | Hin] & Hc & Hr).
      * rewrite Hof in Hc. discriminate Hc.
      * exists c. auto.
Qed.

(** X5.  When the CA may sign CRLs (or the key usage is not checked) and
    every CRL of the list that is one of the CA is correctly signed,
    [x509_crt_verifycrl] sets BADCERT_REVOKED as soon as one of these CRLs,
    wherever it stands in the list, holds the serial as revoked. *)
Theorem x509_crt_verifycrl_revoked_complete (X : X509Core) (C : Config)
    (P : PkMd) (crt_serial : list Z) (ca_crt : mbedtls_x509_crt)
    (next : crt_ptr) (ca : mbedtls_x509_crt_frame) (pk : mbedtls_pk_context)
    (crl_list : list mbedtls_x509_crl) (profile : mbedtls_x509_crt_profile) :
  crt_frame ca_crt = Some ca ->
  crt_pk ca_crt = Some pk ->
  (MBEDTLS_X509_CHECK_KEY_USAGE = true ->
   x509_crt_check_key_usage_frame ca MBEDTLS_X509_KU_CRL_SIGN = 0) ->
  (forall crl, In crl crl_list -> crl_of_ca (subject_raw ca) crl = true ->
     exists hash,
       mbedtls_md (crl_sig_md crl) (crl_tbs crl) = Some hash
       /\ mbedtls_pk_verify_ext (crl_sig_pk crl) pk (crl_sig_md crl) hash
            (crl_sig crl) = 0) ->
  (exists crl, In crl crl_list /\ crl_of_ca (subject_raw ca) crl = true
               /\ x509_serial_is_revoked crt_serial (crl_entry crl) = 1) ->
  Z.land (x509_crt_verifycrl crt_serial (ca_crt :: next) crl_list profile)
    MBEDTLS_X509_BADCERT_REVOKED <> 0.
Proof.
  intros Hframe Hpk Hsign Hgood (crl & Hin & Hof & Hrev).
  unfold x509_crt_verifycrl. rewrite Hframe, Hpk.
  apply x509_crt_verifycrl_loop_finds.
  - intros Hon. apply Z.eqb_eq. apply Hsign. exact Hon.
  - exact Hgood.
  - exists crl. split; [exact Hin |]. split; [exact Hof |].
    rewrite Hrev. discriminate.
Qed.

Lemma x509_crt_verifycrl_revoked_complete_witness :
  Z.land (x509_crt_verifycrl (H := Reference.x509core)
            (H0 := Reference.config) (H1 := Reference.pkmd) [1]
            [Samples.R]
            [CrlSamples.I1_crl; CrlSamples.R_crl_other_serial;
             CrlSamples.R_crl]
            mbedtls_x509_crt_profile_default)
    MBEDTLS_X509_BADCERT_REVOKED <> 0.
Proof.
  apply (x509_crt_verifycrl_revoked_complete Reference.x509core
           Reference.config Reference.pkmd [1] Samples.R []
           (Samples.sample_frame "R" "R" [100] 1 Samples.t2020 Samples.t2030)
           (Samples.rsa_key [100])).
  - reflexivity.
  - reflexivity.
  - intros _. vm_compute. reflexivity.
  - intros crl [<- | [<- | [<- | []]]] Hof.
    + vm_compute in Hof. discriminate Hof.
    + eexists. split; vm_compute; reflexivity.
    + eexists. split; vm_compute; reflexivity.
  - exists CrlSamples.R_crl. split; [right; right; left; reflexivity |].
    split; vm_compute; reflexivity.
Defined.

(** ** Locally trusted end entities *)

(** X6.  [x509_crt_check_ee_locally_trusted] answers 0 or -1, and 0 exactly
    when the DER of the certificate is, byte for byte and in length, the
    DER of a certificate of the trusted list. *)
Theorem x509_crt_check_ee_locally_trusted_correct
    (crt : mbedtls_x509_crt_frame) (trust_ca : crt_ptr) :
  (x509_crt_check_ee_locally_trusted crt trust_ca = 0
   \/ x509_crt_check_ee_locally_trusted crt trust_ca = -1)
  /\ (x509_crt_check_ee_locally_trusted crt trust_ca = 0 <->
      exists cur, In cur trust_ca /\ crt_raw cur = raw crt).
Proof.
  induction trust_ca as [| cur next [IHval IHiff]]; simpl.
  - split; [right; reflexivity |]. split; [discriminate |].
    intros (c & [] & _).
  - destruct ((length (raw crt) =? length (crt_raw cur))%nat
              && bytes_eqb (raw crt) (crt_raw cur)) eqn:Hhit.
    + split; [left; reflexivity |]. split; [intros _ | reflexivity].
      apply andb_true_iff in Hhit. destruct Hhit as [_ Heq].
      apply bytes_eqb_eq in Heq. exists cur. split; [left; reflexivity | auto].
    + split; [exact IHval |]. rewrite IHiff. split.
      * intros (c & Hin & Hc). exists c. split; [right; exact Hin | exact Hc].
      * intros (c & [<- | Hin] & Hc).
        -- exfalso. rewrite Hc, Nat.eqb_refl, bytes_eqb_refl in Hhit.
           discriminate Hhit.
        -- exists c. split; assumption.
Qed.

(** ** The flag merge *)

Lemma x509_crt_merge_flags_with_cb_from_pass (i : nat) (flags : Z)
    (ver_chain : mbedtls_x509_crt_verify_chain) (f_vrfy : option x509_vrfy_cb) :
  (i <= length (items ver_chain))%nat ->
  (forall j, (j < i)%nat -> fst (merge_item_verdict f_vrfy ver_chain j) = 0) ->
  x509_crt_merge_flags_with_cb_from i flags ver_chain f_vrfy
  = Returns (0, Z.lor flags
                  (or_range (fun j => snd (merge_item_verdict f_vrfy ver_chain j))
                     0 i)).
Proof.
  revert flags. induction i as [| i IH]; intros flags Hlen Hpass.
  - simpl. rewrite Z.lor_0_r. reflexivity.
  - simpl.
    destruct (items ver_chain !! i) as [cur |] eqn:Hcur.
    2: { apply lookup_ge_None in Hcur. lia. }
    pose proof (Hpass i (Nat.lt_succ_diag_r i)) as Hi.
    unfold merge_item_verdict in Hi |- * at 1. rewrite Hcur in Hi |- *.
    destruct f_vrfy as [f |].
    + destruct (f (item_crt cur) (Z.of_nat i) (item_flags cur)) as [ret fl].
      simpl in Hi. subst ret. simpl.
      rewrite IH; [| lia | intros j Hj; apply Hpass; lia].
      rewrite Z.lor_assoc. reflexivity.
    + simpl. rewrite IH; [| lia | intros j Hj; apply Hpass; lia].
      rewrite Z.lor_assoc. reflexivity.
Qed.

Lemma x509_crt_merge_flags_with_cb_from_refused (n k : nat) (flags : Z)
    (ver_chain : mbedtls_x509_crt_verify_chain) (f_vrfy : option x509_vrfy_cb) :
  (S k + n <= length (items ver_chain))%nat ->
  fst (merge_item_verdict f_vrfy ver_chain k) <> 0 ->
  (forall j, (k < j < S k + n)%nat ->
     fst (merge_item_verdict f_vrfy ver_chain j) = 0) ->
  x509_crt_merge_flags_with_cb_from (S k + n) flags ver_chain f_vrfy
  = Returns (fst (merge_item_verdict f_vrfy ver_chain k),
             Z.lor flags
               (or_range (fun j => snd (merge_item_verdict f_vrfy ver_chain j))
                  (S k) n)).
Proof.
  revert flags. induction n as [| n IH]; intros flags Hlen Hk Hpass.
  - rewrite Nat.add_0_r. simpl.
    destruct (items ver_chain !! k) as [cur |] eqn:Hcur.
    2: { apply lookup_ge_None in Hcur. lia. }
    unfold merge_item_verdict in Hk |- *. rewrite Hcur in Hk |- *.
    destruct f_vrfy as [f |]; [| contradiction Hk; reflexivity].
    destruct (f (item_crt cur) (Z.of_nat k) (item_flags cur)) as [ret fl].
    simpl in Hk |- *.
    destruct (Z.eqb_spec ret 0) as [Hz | Hz]; [contradiction |]. simpl.
    rewrite Z.lor_0_r. reflexivity.
  - replace (S k + S n)%nat with (S (S k + n)) by lia.
    cbn [x509_crt_merge_flags_with_cb_from].
    destruct (items ver_chain !! (S k + n)%nat) as [cur |] eqn:Hcur.
    2: { apply lookup_ge_None in Hcur. lia. }
    pose proof (Hpass (S k + n)%nat ltac:(lia)) as Hi.
    cbn [or_range].
    unfold merge_item_verdict in Hi |- * at 2. rewrite Hcur in Hi |- *.
    destruct f_vrfy as [f |].
    + destruct (f (item_crt cur) (Z.of_nat (S k + n)) (item_flags cur))
        as [ret fl].
      simpl in Hi. subst ret. cbn [negb Z.eqb snd].
      rewrite IH; [| lia | exact Hk | intros j Hj; apply Hpass; lia].
      rewrite Z.lor_assoc. reflexivity.
    + cbn [snd]. rewrite IH; [| lia | exact Hk | intros j Hj; apply Hpass; lia].
      rewrite Z.lor_assoc. reflexivity.
Qed.

(** X7.  [x509_crt_merge_flags_with_cb] asks the verdict callback about the
    items from the last one (the root) down to the first (the end entity).
    When no item is refused, it returns 0 and the word handed in or-ed with
    the flags of all the items of the chain, as the callback left them;
    without a callback these are the flags of the items themselves.  When
    the callback refuses an item, the one at the greatest depth [k] that it
    refuses, it returns the answer of the callback for it, having or-ed in
    the flags of the items above [k] only. *)
Theorem x509_crt_merge_flags_with_cb_correct (flags : Z)
    (ver_chain : mbedtls_x509_crt_verify_chain) (f_vrfy : option x509_vrfy_cb) :
  (len ver_chain <= length (items ver_chain))%nat ->
  let verdict := merge_item_verdict f_vrfy ver_chain in
  ((forall j, (j < len ver_chain)%nat -> fst (verdict j) = 0) ->
   x509_crt_merge_flags_with_cb flags ver_chain f_vrfy
   = Returns (0, Z.lor flags
                   (or_range (fun j => snd (verdict j)) 0 (len ver_chain))))
  /\ (forall k : nat,
        (k < len ver_chain)%nat ->
        fst (verdict k) <> 0 ->
        (forall j, (k < j < len ver_chain)%nat -> fst (verdict j) = 0) ->
        x509_crt_merge_flags_with_cb flags ver_chain f_vrfy
        = Returns (fst (verdict k),
                   Z.lor flags
                     (or_range (fun j => snd (verdict j)) (S k)
                        (len ver_chain - S k))))
  /\ (f_vrfy = None ->
      x509_crt_merge_flags_with_cb flags ver_chain f_vrfy
      = Returns (0, Z.lor flags
                      (or_range
                         (fun j => match items ver_chain !! j with
                                   | Some cur => item_flags cur
                                   | None => 0
                                   end) 0 (len ver_chain)))).
Proof.
  intros Hlen verdict. unfold x509_crt_merge_flags_with_cb.
  split; [| split].
  - intros Hpass. apply x509_crt_merge_flags_with_cb_from_pass; assumption.
  - intros k Hk Hrefused Hpass.
    replace (len ver_chain) with (S k + (len ver_chain - S k))%nat at 1 by lia.
    apply x509_crt_merge_flags_with_cb_from_refused.
    + lia.
    + exact Hrefused.
    + intros j Hj. apply Hpass. lia.
  - intros ->.
    rewrite x509_crt_merge_flags_with_cb_from_pass.
    + do 3 f_equal.
      assert (Hext : forall n lo,
        or_range (fun j => snd (merge_item_verdict None ver_chain j)) lo n
        = or_range (fun j => match items ver_chain !! j with
                             | Some cur => item_flags cur
                             | None => 0
                             end) lo n).
      { induction n as [| n IHn]; intros lo; [reflexivity |]. simpl.
        rewrite IHn. f_equal. unfold merge_item_verdict.
        destruct (items ver_chain !! (lo + n)%nat); reflexivity. }
      apply Hext.
    + exact Hlen.
    + intros j _. unfold merge_item_verdict.
      destruct (items ver_chain !! j); reflexivity.
Qed.

Lemma x509_crt_merge_flags_with_cb_correct_witness :
  x509_crt_merge_flags_with_cb 0 sample_merge_chain None
  = Returns (0, Z.lor MBEDTLS_X509_BADCERT_NOT_TRUSTED
                  MBEDTLS_X509_BADCERT_EXPIRED)
  /\ x509_crt_merge_flags_with_cb 0 sample_merge_chain (Some vrfy_refuse_ee)
     = Returns (-1, Z.lor MBEDTLS_X509_BADCERT_NOT_TRUSTED
                      MBEDTLS_X509_BADCERT_OTHER).
Proof.
  assert (Hlen : (len sample_merge_chain
                  <= length (items sample_merge_chain))%nat)
    by (vm_compute; lia).
  split.
  - apply (proj2 (proj2 (x509_crt_merge_flags_with_cb_correct 0
                           sample_merge_chain None Hlen))).
    reflexivity.
  - apply (proj1 (proj2 (x509_crt_merge_flags_with_cb_correct 0
                           sample_merge_chain (Some vrfy_refuse_ee) Hlen))
             0%nat).
    + vm_compute. lia.
    + vm_compute. discriminate.
    + intros j Hj. assert (j = 1%nat) by (vm_compute in Hj; lia). subst j.
      reflexivity.
Defined.

(** ** The parent search *)

(** A parent that the scan stores is the fallback it was handed or a node
    of the list it scans. *)
Lemma x509_crt_find_parent_in_from_suffix `{X509Core} `{Config} `{PkMd}
    (child_sig : mbedtls_x509_crt_sig_info) (top : bool)
    (path_cnt self_cnt : Z) (candidates : crt_ptr)
    (fallback_parent : crt_ptr) (fallback_signature_is_good : bool)
    (q : crt_ptr) (s : bool) :
  fpi_out (x509_crt_find_parent_in_from child_sig candidates top path_cnt
             self_cnt fallback_parent fallback_signature_is_good)
  = Some (q, s) ->
  q = fallback_parent \/ (q <> [] /\ q `suffix_of` candidates).
Proof.
  revert fallback_parent fallback_signature_is_good.
  induction candidates as [| c next IH]; intros fb fbs; simpl.
  - intros Heq. injection Heq as <- _. left. reflexivity.
  - assert (Hnext : forall fb' fbs',
      fpi_out (x509_crt_find_parent_in_from child_sig next top path_cnt
                 self_cnt fb' fbs') = Some (q, s) ->
      q = fb' \/ (q <> [] /\ q `suffix_of` c :: next)).
    { intros fb' fbs' Hout. destruct (IH fb' fbs' Hout) as [-> | [Hq Hsuf]];
        [left; reflexivity | right; split; [exact Hq |]].
      apply suffix_cons_r. exact Hsuf. }
    destruct (crt_frame c) as [parent |]; [| discriminate].
    destruct (negb (find_parent_in_parent_match child_sig parent top)
              || negb (find_parent_in_path_len_ok parent path_cnt self_cnt));
      [apply Hnext |].
    destruct (top && negb (x509_crt_check_signature child_sig c =? 0));
      [apply Hnext |].
    destruct (negb (find_parent_in_parent_valid parent)).
    + destruct fb as [| f0 fb]; [| apply Hnext].
      intros Hout. destruct (Hnext _ _ Hout) as [-> | Hsuf];
        [| right; exact Hsuf].
      right. split; [discriminate | reflexivity].
    + simpl. intros Heq. injection Heq as <- _.
      right. split; [discriminate | reflexivity].
Qed.

(** What [x509_crt_find_parent] reports when its caller holds NULL, or
    nothing yet, in [parent] on entry. *)
Lemma x509_crt_find_parent_found `{X509Core} `{Config} `{PkMd}
    (child_sig : mbedtls_x509_crt_sig_info) (rest trust_ca : crt_ptr)
    (parent : option crt_ptr) (signature_is_good : option bool)
    (path_cnt self_cnt : Z) (found : find_parent_result) :
  parent = None \/ parent = Some [] ->
  x509_crt_find_parent child_sig rest trust_ca parent signature_is_good
    path_cnt self_cnt = Returns found ->
  match fp_parent found with
  | [] =>
    fp_parent_is_trusted found = false
    /\ fp_signature_is_good found = Some false
  | p :: pn =>
    (p :: pn) `suffix_of`
      (if fp_parent_is_trusted found then trust_ca else rest)
    /\ find_parent_in_suitable child_sig (fp_parent_is_trusted found)
         path_cnt self_cnt p = true
    /\ fp_signature_is_good found
       = Some (x509_crt_check_signature child_sig p =? 0)
  end.
Proof.
  intros Hentry. unfold x509_crt_find_parent.
  destruct (fpi_out (x509_crt_find_parent_in child_sig trust_ca true path_cnt
                       self_cnt)) as [[p1 s1] |] eqn:Hr1.
  - destruct p1 as [| c1 n1].
    + destruct (fpi_out (x509_crt_find_parent_in child_sig rest false path_cnt
                           self_cnt)) as [[p2 s2] |] eqn:Hr2.
      * destruct p2 as [| c2 n2].
        -- intros Heq. injection Heq as <-. simpl. split; reflexivity.
        -- intros Heq. injection Heq as <-. simpl.
           pose proof Hr2 as Hsuf.
           apply x509_crt_find_parent_in_from_suffix in Hsuf
             as [Habs | [_ Hsuf]]; [discriminate |].
           apply x509_crt_find_parent_in_stored in Hr2 as [Hsuit ->].
           repeat split; assumption.
      * intros Heq. injection Heq as <-. simpl. split; reflexivity.
    + intros Heq. injection Heq as <-. simpl.
      pose proof Hr1 as Hsuf.
      apply x509_crt_find_parent_in_from_suffix in Hsuf
        as [Habs | [_ Hsuf]]; [discriminate |].
      apply x509_crt_find_parent_in_stored in Hr1 as [Hsuit ->].
      repeat split; assumption.
  - destruct Hentry as [-> | ->]; [discriminate |].
    destruct (fpi_out (x509_crt_find_parent_in child_sig rest false path_cnt
                         self_cnt)) as [[p2 s2] |] eqn:Hr2.
    + destruct p2 as [| c2 n2].
      * intros Heq. injection Heq as <-. simpl. split; reflexivity.
      * intros Heq. injection Heq as <-. simpl.
        pose proof Hr2 as Hsuf.
        apply x509_crt_find_parent_in_from_suffix in Hsuf
          as [Habs | [_ Hsuf]]; [discriminate |].
        apply x509_crt_find_parent_in_stored in Hr2 as [Hsuit ->].
        repeat split; assumption.
    + intros Heq. injection Heq as <-. simpl. split; reflexivity.
Qed.

(** X8.  What [x509_crt_find_parent] reports to a caller that holds NULL,
    or nothing yet, in [parent]: a parent reported as trusted is a node of
    the trusted list and one reported as not trusted a node of the rest of
    the chain; it is suitable for the list it comes from (so a trusted one
    has verified the signature of the child), and [signature_is_good] says
    whether its key verifies the signature; with no parent,
    [parent_is_trusted] and [signature_is_good] are 0.  The trusted list
    goes first: when its frames can be acquired and it has a suitable
    candidate, the parent reported is the one that the scan of the trusted
    list selects, whatever the rest of the chain holds. *)
Theorem x509_crt_find_parent_correct (X : X509Core) (C : Config) (P : PkMd)
    (child_sig : mbedtls_x509_crt_sig_info) (rest trust_ca : crt_ptr)
    (parent : option crt_ptr) (signature_is_good : option bool)
    (path_cnt self_cnt : Z) (found : find_parent_result) :
  parent = None \/ parent = Some [] ->
  x509_crt_find_parent child_sig rest trust_ca parent signature_is_good
    path_cnt self_cnt = Returns found ->
  match fp_parent found with
  | [] =>
    fp_parent_is_trusted found = false
    /\ fp_signature_is_good found = Some false
  | p :: pn =>
    (p :: pn) `suffix_of`
      (if fp_parent_is_trusted found then trust_ca else rest)
    /\ find_parent_in_suitable child_sig (fp_parent_is_trusted found)
         path_cnt self_cnt p = true
    /\ fp_signature_is_good found
       = Some (x509_crt_check_signature child_sig p =? 0)
    /\ (fp_parent_is_trusted found = true ->
        x509_crt_check_signature child_sig p = 0)
  end
  /\ (Forall (fun c => crt_frame c <> None) trust_ca ->
      forall c n,
        spec_find_parent_in child_sig trust_ca true path_cnt self_cnt = c :: n ->
        fp_parent found = c :: n /\ fp_parent_is_trusted found = true).
Proof.
  intros Hentry Hfound. split.
  - pose proof (x509_crt_find_parent_found _ _ _ _ _ _ _ _ Hentry Hfound)
      as Hrep.
    destruct (fp_parent found) as [| p pn]; [exact Hrep |].
    destruct Hrep as (Hsuf & Hsuit & Hsig). repeat split; try assumption.
    intros Htop. rewrite Htop in Hsuit.
    unfold find_parent_in_suitable in Hsuit.
    destruct (crt_frame p); [| discriminate].
    apply andb_true_iff in Hsuit. destruct Hsuit as [_ Hs].
    simpl in Hs. apply Z.eqb_eq. exact Hs.
  - intros Hframes c n Hspec.
    pose proof (x509_crt_find_parent_in_from_total child_sig true path_cnt
                  self_cnt trust_ca [] false Hframes) as Hret.
    fold (x509_crt_find_parent_in child_sig trust_ca true path_cnt self_cnt)
      in Hret.
    pose proof (x509_crt_find_parent_in_spec _ _ _ _ _ Hret) as Hout.
    rewrite Hspec in Hout.
    unfold x509_crt_find_parent in Hfound. rewrite Hout in Hfound.
    injection Hfound as <-. split; reflexivity.
Qed.

Lemma x509_crt_find_parent_correct_witness :
  exists found,
    x509_crt_find_parent (H := Reference.x509core) (H0 := Reference.config)
      (H1 := Reference.pkmd) (Samples.sig_info_of Samples.I10) []
      [Samples.R_other_key; Samples.R_old; Samples.R] None None 9 0
    = Returns found
    /\ fp_parent found = [Samples.R]
    /\ fp_parent_is_trusted found = true
    /\ x509_crt_check_signature (H := Reference.pkmd)
         (Samples.sig_info_of Samples.I10) Samples.R = 0.
Proof.
  eexists. split; [vm_compute; reflexivity |].
  split; [reflexivity |]. split; [reflexivity |].
  apply (proj1 (x509_crt_find_parent_correct Reference.x509core
                  Reference.config Reference.pkmd
                  (Samples.sig_info_of Samples.I10) []
                  [Samples.R_other_key; Samples.R_old; Samples.R] None None
                  9 0 _ (or_introl eq_refl) eq_refl)).
  reflexivity.
Defined.

(** ** The chain-building loop: what a run says *)

(** The first store into a chain that was reset succeeds. *)
Lemma verify_chain_add_reset `{Config} (crt : crt_ptr) :
  exists vc,
    verify_chain_add x509_crt_verify_chain_reset crt = Returns vc
    /\ len vc = 1%nat.
Proof.
  unfold verify_chain_add.
  destruct (Nat.ltb_spec (len x509_crt_verify_chain_reset)
              (length (items x509_crt_verify_chain_reset))) as [Hlt | Hge].
  - eexists. split; reflexivity.
  - exfalso. simpl in Hge. rewrite length_replicate in Hge.
    unfold X509_MAX_VERIFY_CHAIN_SIZE in Hge. lia.
Qed.

(** X9.  The failure of [x509_crt_find_parent_in] is not looked at by
    [x509_crt_find_parent], which goes on to test the [parent] of its caller
    against NULL.  On the first certificate of a run nothing has been
    stored there yet: when the scan of the trusted list for the parent of
    an end entity that is not locally trusted ends on a frame that cannot
    be acquired, [x509_crt_verify_chain] reads its uninitialised local
    [parent_crt]. *)
Theorem x509_crt_verify_chain_parent_uninitialised (X : X509Core) (C : Config)
    (P : PkMd) (ee : mbedtls_x509_crt) (rest trust_ca : crt_ptr)
    (ca_crl : list mbedtls_x509_crl) (profile : mbedtls_x509_crt_profile)
    (child : mbedtls_x509_crt_frame) (r : Z)
    (child_sig : mbedtls_x509_crt_sig_info) :
  crt_frame ee = Some child ->
  x509_crt_get_sig_info child = (r, Some child_sig) ->
  (mbedtls_x509_name_cmp_raw (issuer_raw child) (subject_raw child) None <> 0
   \/ x509_crt_check_ee_locally_trusted child trust_ca <> 0) ->
  fpi_ret (x509_crt_find_parent_in child_sig trust_ca true 0 0)
  = MBEDTLS_ERR_X509_FATAL_ERROR ->
  x509_crt_verify_chain (ee :: rest) trust_ca ca_crl None profile
    x509_crt_verify_chain_reset
  = Faults UninitialisedRead.
Proof.
  intros Hframe Hsig Hlocal Hscan.
  assert (Hout : fpi_out (x509_crt_find_parent_in child_sig trust_ca true 0 0)
                 = None).
  { destruct (x509_crt_find_parent_in_from_ret child_sig true 0 0 trust_ca []
                false) as [[Hz _] | [_ Hnone]]; [| exact Hnone].
    unfold x509_crt_find_parent_in in Hscan. rewrite Hscan in Hz.
    discriminate Hz. }
  unfold x509_crt_verify_chain.
  cbn [x509_crt_verify_chain_loop].
  unfold x509_crt_verify_chain_body, x509_crt_verify_chain_search.
  cbn [vs_chain vs_child_crt vs_child_is_trusted vs_parent_crt
       vs_signature_is_good vs_self_cnt].
  destruct (verify_chain_add_reset (ee :: rest)) as (vc & -> & Hlen).
  rewrite Hframe. cbn [negb Z.eqb].
  rewrite Hlen, Hsig.
  assert (Hnot : (1 =? 1)%nat
                 && (mbedtls_x509_name_cmp_raw (issuer_raw child)
                       (subject_raw child) None =? 0)
                 && (x509_crt_check_ee_locally_trusted child trust_ca =? 0)
                 = false).
  { destruct Hlocal as [Hn | Hl].
    - apply Z.eqb_neq in Hn. rewrite Hn. reflexivity.
    - apply Z.eqb_neq in Hl. rewrite Hl. apply andb_false_r. }
  rewrite Hnot.
  change (to_uint32 (Z.of_nat 1 - 1)) with 0.
  unfold x509_crt_find_parent. rewrite Hout. reflexivity.
Qed.

Lemma x509_crt_verify_chain_parent_uninitialised_witness :
  x509_crt_verify_chain (H := Reference.x509core) (H0 := Reference.config)
    (H1 := Reference.pkmd) [Samples.EE; Samples.I1]
    [Samples.EE_no_frame; Samples.R] [] None mbedtls_x509_crt_profile_default
    (x509_crt_verify_chain_reset (H := Reference.config))
  = Faults UninitialisedRead.
Proof.
  apply (x509_crt_verify_chain_parent_uninitialised Reference.x509core
           Reference.config Reference.pkmd Samples.EE [Samples.I1]
           [Samples.EE_no_frame; Samples.R] []
           mbedtls_x509_crt_profile_default
           (Samples.sample_frame "EE" "I1" [1] 0 Samples.t2020 Samples.t2030)
           0 (Samples.sig_info_of Samples.EE)).
  - reflexivity.
  - reflexivity.
  - left. vm_compute. discriminate.
  - reflexivity.
Defined.

Lemma flags_if_lor_clear (b : bool) (f c m : Z) :
  Z.land (if b then Z.lor f c else f) m = 0 ->
  Z.land f m = 0 /\ (flag_in m c -> b = false).
Proof.
  unfold flag_in. destruct b; intros Hclear.
  - rewrite Z.land_lor_distr_l in Hclear.
    apply Z.lor_eq_0_iff in Hclear. destruct Hclear as [Hf Hc].
    split; [exact Hf |]. intros Hin. exfalso. apply Hin.
    rewrite Z.land_comm. exact Hc.
  - split; [exact Hclear | reflexivity].
Qed.

Lemma flags_lor_clear (f g m : Z) :
  Z.land (Z.lor f g) m = 0 -> Z.land f m = 0 /\ Z.land g m = 0.
Proof.
  rewrite Z.land_lor_distr_l. apply Z.lor_eq_0_iff.
Qed.

(** The flags that a pass gathers for the child before it looks for the
    parent, and the checks they stand for. *)
Lemma verify_chain_child_flags_clear `{X509Core}
    (profile : mbedtls_x509_crt_profile) (child : mbedtls_x509_crt_frame)
    (m : Z) :
  let flags := 0 in
  let flags := if mbedtls_x509_time_is_past (valid_to child)
               then Z.lor flags MBEDTLS_X509_BADCERT_EXPIRED else flags in
  let flags := if mbedtls_x509_time_is_future (valid_from child)
               then Z.lor flags MBEDTLS_X509_BADCERT_FUTURE else flags in
  let time_flags := flags in
  let flags := if negb (x509_profile_check_md_alg profile (sig_md child) =? 0)
               then Z.lor flags MBEDTLS_X509_BADCERT_BAD_MD else flags in
  let flags := if negb (x509_profile_check_pk_alg profile (sig_pk child) =? 0)
               then Z.lor flags MBEDTLS_X509_BADCERT_BAD_PK else flags in
  (Z.land time_flags m = 0 -> time_checked m child)
  /\ (Z.land flags m = 0 ->
      time_checked m child /\ sig_alg_checked profile m child).
Proof.
  cbv zeta.
  assert (Htime :
    Z.land
      (if mbedtls_x509_time_is_future (valid_from child)
       then Z.lor (if mbedtls_x509_time_is_past (valid_to child)
                   then Z.lor 0 MBEDTLS_X509_BADCERT_EXPIRED else 0)
                  MBEDTLS_X509_BADCERT_FUTURE
       else if mbedtls_x509_time_is_past (valid_to child)
            then Z.lor 0 MBEDTLS_X509_BADCERT_EXPIRED else 0) m = 0 ->
    time_checked m child).
  { intros Hclear.
    apply flags_if_lor_clear in Hclear as [Hclear Hfut].
    apply flags_if_lor_clear in Hclear as [_ Hpast].
    split; assumption. }
  split; [exact Htime |].
  intros Hclear.
  apply flags_if_lor_clear in Hclear as [Hclear Hpk].
  apply flags_if_lor_clear in Hclear as [Hclear Hmd].
  split; [apply Htime; exact Hclear |]. split.
  - intros Hin. apply Hmd in Hin. apply negb_false_iff in Hin.
    apply Z.eqb_eq. exact Hin.
  - intros Hin. apply Hpk in Hin. apply negb_false_iff in Hin.
    apply Z.eqb_eq. exact Hin.
Qed.

(** What is known when the search of a pass hands over to the second half:
    the child, its frame and signature information, the call of
    [x509_crt_find_parent] that was made, and what the flags gathered so
    far stand for. *)
Lemma x509_crt_verify_chain_search_done_inv `{X509Core} `{Config} `{PkMd}
    (trust_ca : crt_ptr) (f_ca_cb : option mbedtls_x509_crt_ca_cb_t)
    (profile : mbedtls_x509_crt_profile) (st : verify_chain_state)
    (sr : verify_chain_search) :
  x509_crt_verify_chain_search trust_ca f_ca_cb profile st
  = Returns (SearchDone sr) ->
  exists vc0 c next child r child_sig,
    verify_chain_add (vs_chain st) (vs_child_crt st) = Returns vc0
    /\ vs_child_crt st = c :: next
    /\ crt_frame c = Some child
    /\ vs_child_is_trusted st = false
    /\ x509_crt_get_sig_info child = (r, Some child_sig)
    /\ items (sr_chain sr) = items vc0
    /\ len (sr_chain sr) = len vc0
    /\ sr_child_serial sr = serial child
    /\ sr_self_issued sr = crt_self_issued (c :: next)
    /\ x509_crt_find_parent child_sig next
         (verify_chain_cur_trust_ca trust_ca f_ca_cb (c :: next))
         (vs_parent_crt st) (vs_signature_is_good st)
         (to_uint32 (Z.of_nat (len vc0) - 1)) (vs_self_cnt st)
       = Returns (sr_found sr)
    /\ forall m, Z.land (sr_flags sr) m = 0 ->
         time_checked m child /\ sig_alg_checked profile m child.
Proof.
  unfold x509_crt_verify_chain_search.
  destruct (vs_child_crt st) as [| c next] eqn:Hchild.
  { destruct (verify_chain_add (vs_chain st) []); [| discriminate].
    destruct f_ca_cb as [cb |]; [destruct (cb []) as [ret res] |]; simpl;
      try destruct (negb (ret =? 0)); discriminate. }
  destruct (verify_chain_add (vs_chain st) (c :: next)) as [vc0 | f] eqn:Hadd;
    [| discriminate].
  destruct f_ca_cb as [cb |].
  - unfold verify_chain_cur_trust_ca.
    destruct (cb (c :: next)) as [ret res] eqn:Hcb. simpl.
    destruct (negb (ret =? 0)); [discriminate |].
    destruct (crt_frame c) as [child |] eqn:Hframe; [| discriminate].
    destruct (vs_child_is_trusted st); [discriminate |].
    match goal with |- context [if ?b then _ else _] =>
      destruct b; [discriminate |] end.
    destruct (x509_crt_get_sig_info child) as [r [child_sig |]] eqn:Hsig;
      [| discriminate].
    destruct (x509_crt_find_parent _ _ _ _ _ _ _) as [found | f] eqn:Hfind;
      [| discriminate].
    intros Heq. injection Heq as <-. simpl.
    exists vc0, c, next, child, r, child_sig. rewrite Hcb. simpl.
    rewrite Hframe.
    repeat match goal with |- _ /\ _ => split end;
      try reflexivity; try assumption.
    intros m Hclear.
    apply (proj2 (verify_chain_child_flags_clear profile child m)).
    exact Hclear.
  - unfold verify_chain_cur_trust_ca. simpl.
    destruct (crt_frame c) as [child |] eqn:Hframe; [| discriminate].
    destruct (vs_child_is_trusted st); [discriminate |].
    match goal with |- context [if ?b then _ else _] =>
      destruct b; [discriminate |] end.
    destruct (x509_crt_get_sig_info child) as [r [child_sig |]] eqn:Hsig;
      [| discriminate].
    destruct (x509_crt_find_parent _ _ _ _ _ _ _) as [found | f] eqn:Hfind;
      [| discriminate].
    intros Heq. injection Heq as <-. simpl.
    exists vc0, c, next, child, r, child_sig. rewrite Hframe.
    repeat match goal with |- _ /\ _ => split end;
      try reflexivity; try assumption.
    intros m Hclear.
    apply (proj2 (verify_chain_child_flags_clear profile child m)).
    exact Hclear.
Qed.

(** What is known when the search of a pass returns 0: the child is a
    trusted root, or it is the end entity and locally trusted; the flags
    gathered for it are stored in its item. *)
Lemma x509_crt_verify_chain_search_return_inv `{X509Core} `{Config} `{PkMd}
    (trust_ca : crt_ptr) (f_ca_cb : option mbedtls_x509_crt_ca_cb_t)
    (profile : mbedtls_x509_crt_profile) (st : verify_chain_state)
    (vc : mbedtls_x509_crt_verify_chain) :
  x509_crt_verify_chain_search trust_ca f_ca_cb profile st
  = Returns (SearchReturn 0 vc) ->
  exists vc0 c next child flags,
    verify_chain_add (vs_chain st) (vs_child_crt st) = Returns vc0
    /\ vs_child_crt st = c :: next
    /\ crt_frame c = Some child
    /\ len vc = len vc0
    /\ items vc
       = alter (fun it => {| item_crt := item_crt it; item_flags := flags |})
           (len vc0 - 1)%nat (items vc0)
    /\ forall m, Z.land flags m = 0 ->
         time_checked m child
         /\ (vs_child_is_trusted st = true
             \/ (len vc0 = 1%nat
                 /\ mbedtls_x509_name_cmp_raw (issuer_raw child)
                      (subject_raw child) None = 0
                 /\ x509_crt_check_ee_locally_trusted child trust_ca = 0
                 /\ sig_alg_checked profile m child)).
Proof.
  unfold x509_crt_verify_chain_search.
  assert (Hfatal : MBEDTLS_ERR_X509_FATAL_ERROR <> 0) by discriminate.
  destruct (vs_child_crt st) as [| c next] eqn:Hchild.
  { destruct (verify_chain_add (vs_chain st) []); [| discriminate].
    destruct f_ca_cb as [cb |]; [destruct (cb []) as [ret res] |]; simpl.
    - destruct (negb (ret =? 0)); [| discriminate].
      intros Heq. injection Heq as Hr _. contradiction.
    - discriminate. }
  destruct (verify_chain_add (vs_chain st) (c :: next)) as [vc0 | f] eqn:Hadd;
    [| discriminate].
  destruct f_ca_cb as [cb |];
    [ destruct (cb (c :: next)) as [ret res]; simpl;
      destruct (negb (ret =? 0));
        [intros Heq; injection Heq as Hr _; contradiction |]
    | simpl ];
    (destruct (crt_frame c) as [child |] eqn:Hframe;
       [| intros Heq; injection Heq as Hr _; contradiction];
     destruct (vs_child_is_trusted st) eqn:Htrusted;
     [ intros Heq; injection Heq as <-;
       exists vc0, c, next, child; eexists;
       repeat match goal with |- _ /\ _ => split end; try reflexivity;
       try assumption;
       intros m Hclear; split; [| left; reflexivity];
       apply (proj1 (verify_chain_child_flags_clear profile child m));
       exact Hclear
     | destruct ((len vc0 =? 1)%nat
                 && (mbedtls_x509_name_cmp_raw (issuer_raw child)
                       (subject_raw child) None =? 0)
                 && (x509_crt_check_ee_locally_trusted child trust_ca =? 0))
         eqn:Hlocal;
       [ intros Heq; injection Heq as <-;
         exists vc0, c, next, child; eexists;
         repeat match goal with |- _ /\ _ => split end; try reflexivity;
         try assumption;
         intros m Hclear;
         apply (proj2 (verify_chain_child_flags_clear profile child m))
           in Hclear as [Htime Halg];
         split; [exact Htime | right];
         apply andb_true_iff in Hlocal; destruct Hlocal as [Hlocal Htr];
         apply andb_true_iff in Hlocal; destruct Hlocal as [Hone Hself];
         apply Nat.eqb_eq in Hone; apply Z.eqb_eq in Hself, Htr;
         split; [exact Hone | split; [exact Hself | split; [exact Htr |]]];
         exact Halg
       | destruct (x509_crt_get_sig_info child) as [r [child_sig |]];
         [ destruct (x509_crt_find_parent _ _ _ _ _ _ _); discriminate
         | intros Heq; injection Heq as Hr _; contradiction ] ] ]).
Qed.

(** What is known when the second half of a pass goes on to the parent. *)
Lemma x509_crt_verify_chain_link_next_inv `{X509Core} `{Config} `{PkMd}
    (ca_crl : list mbedtls_x509_crl) (profile : mbedtls_x509_crt_profile)
    (self_cnt : Z) (sr : verify_chain_search) (st' : verify_chain_state) :
  x509_crt_verify_chain_link ca_crl profile self_cnt sr
  = Returns (StepNext st') ->
  exists parent_c pn s parent_pk flags,
    fp_parent (sr_found sr) = parent_c :: pn
    /\ fp_signature_is_good (sr_found sr) = Some s
    /\ crt_pk parent_c = Some parent_pk
    /\ vs_child_crt st' = parent_c :: pn
    /\ vs_parent_crt st' = Some []
    /\ vs_child_is_trusted st' = fp_parent_is_trusted (sr_found sr)
    /\ vs_self_cnt st'
       = (if negb (len (sr_chain sr) =? 1)%nat && sr_self_issued sr
          then to_uint32 (self_cnt + 1) else self_cnt)
    /\ len (vs_chain st') = len (sr_chain sr)
    /\ items (vs_chain st')
       = alter (fun it => {| item_crt := item_crt it; item_flags := flags |})
           (len (sr_chain sr) - 1)%nat (items (sr_chain sr))
    /\ forall m, Z.land flags m = 0 ->
         Z.land (sr_flags sr) m = 0
         /\ (flag_in m MBEDTLS_X509_BADCERT_NOT_TRUSTED -> s = true)
         /\ (flag_in m MBEDTLS_X509_BADCERT_BAD_KEY ->
             x509_profile_check_key profile parent_pk = 0)
         /\ Z.land (x509_crt_verifycrl (sr_child_serial sr) (parent_c :: pn)
                      ca_crl profile) m = 0.
Proof.
  unfold x509_crt_verify_chain_link.
  destruct (fp_parent (sr_found sr)) as [| parent_c pn] eqn:Hparent;
    [discriminate |].
  destruct (negb (fp_parent_is_trusted (sr_found sr))
            && (MBEDTLS_X509_MAX_INTERMEDIATE_CA <? len (sr_chain sr))%nat);
    [discriminate |].
  destruct (fp_signature_is_good (sr_found sr)) as [s |] eqn:Hsig;
    [| discriminate].
  destruct (crt_pk parent_c) as [parent_pk |] eqn:Hpk; [| discriminate].
  intros Heq. injection Heq as <-. simpl.
  exists parent_c, pn, s, parent_pk. eexists.
  repeat match goal with |- _ /\ _ => split end; try reflexivity;
    try assumption.
  intros m Hclear.
  apply flags_lor_clear in Hclear as [Hclear Hcrl].
  apply flags_if_lor_clear in Hclear as [Hclear Hkey].
  apply flags_if_lor_clear in Hclear as [Hclear Hgood].
  split; [exact Hclear |]. split; [| split; [| exact Hcrl]].
  - intros Hin. apply Hgood in Hin. apply negb_false_iff in Hin. exact Hin.
  - intros Hin. apply Hkey in Hin. apply negb_false_iff in Hin.
    apply Z.eqb_eq. exact Hin.
Qed.

(** The second half of a pass returns 0 only for a child without a parent,
    and with BADCERT_NOT_TRUSTED among its flags. *)
Lemma x509_crt_verify_chain_link_return_inv `{X509Core} `{Config} `{PkMd}
    (ca_crl : list mbedtls_x509_crl) (profile : mbedtls_x509_crt_profile)
    (self_cnt : Z) (sr : verify_chain_search)
    (vc : mbedtls_x509_crt_verify_chain) :
  x509_crt_verify_chain_link ca_crl profile self_cnt sr
  = Returns (StepReturn 0 vc) ->
  fp_parent (sr_found sr) = []
  /\ len vc = len (sr_chain sr)
  /\ items vc
     = alter (fun it => {| item_crt := item_crt it;
                           item_flags := Z.lor (sr_flags sr)
                                           MBEDTLS_X509_BADCERT_NOT_TRUSTED |})
         (len (sr_chain sr) - 1)%nat (items (sr_chain sr)).
Proof.
  unfold x509_crt_verify_chain_link.
  assert (Hfatal : MBEDTLS_ERR_X509_FATAL_ERROR <> 0) by discriminate.
  destruct (fp_parent (sr_found sr)) as [| parent_c pn] eqn:Hparent.
  - intros Heq. injection Heq as <-. repeat split; reflexivity.
  - destruct (negb (fp_parent_is_trusted (sr_found sr))
              && (MBEDTLS_X509_MAX_INTERMEDIATE_CA <? len (sr_chain sr))%nat).
    { intros Heq. injection Heq as Hr _. contradiction. }
    destruct (fp_signature_is_good (sr_found sr)) as [s |]; [| discriminate].
    destruct (crt_pk parent_c) as [parent_pk |]; [discriminate |].
    intros Heq. injection Heq as Hr _. contradiction.
Qed.

(** The flags of the items below the one a pass stores are left alone, and
    the flags it stores are those of the new item. *)
Lemma chain_flags_clear_step (m flags : Z)
    (vc vc0 vc' : mbedtls_x509_crt_verify_chain) (child_crt : crt_ptr) :
  verify_chain_add vc child_crt = Returns vc0 ->
  len vc' = len vc0 ->
  items vc'
  = alter (fun it => {| item_crt := item_crt it; item_flags := flags |})
      (len vc0 - 1)%nat (items vc0) ->
  chain_flags_clear m vc' ->
  chain_flags_clear m vc /\ Z.land flags m = 0.
Proof.
  intros Hadd Hlen Hitems Hclear.
  unfold verify_chain_add in Hadd.
  destruct (Nat.ltb_spec (len vc) (length (items vc))) as [Hlt | Hge];
    [| discriminate].
  injection Hadd as <-. cbn [len items] in Hlen, Hitems.
  replace (S (len vc) - 1)%nat with (len vc) in Hitems by lia.
  split.
  - intros i it Hi Hlook.
    apply (Hclear i it); [lia |].
    rewrite Hitems, list_lookup_alter_ne, list_lookup_insert_ne by lia.
    exact Hlook.
  - apply (Hclear (len vc) {| item_crt := child_crt; item_flags := flags |});
      [lia |].
    rewrite Hitems, list_lookup_alter_eq, list_lookup_insert_eq by exact Hlt.
    reflexivity.
Qed.

(** The reading of the flags is kept by a pass that goes on to the
    parent. *)
Lemma verify_chain_explained_next `{X509Core} `{Config} `{PkMd}
    (crt trust_ca : crt_ptr) (ca_crl : list mbedtls_x509_crl)
    (f_ca_cb : option mbedtls_x509_crt_ca_cb_t)
    (profile : mbedtls_x509_crt_profile) (m : Z)
    (st st' : verify_chain_state) :
  flag_in m MBEDTLS_X509_BADCERT_NOT_TRUSTED ->
  verify_chain_explained crt trust_ca ca_crl f_ca_cb profile m st ->
  x509_crt_verify_chain_body trust_ca ca_crl f_ca_cb profile st
  = Returns (StepNext st') ->
  verify_chain_explained crt trust_ca ca_crl f_ca_cb profile m st'.
Proof.
  intros Hnt (Hparent & Hfirst & Hup) Hbody.
  unfold x509_crt_verify_chain_body in Hbody.
  destruct (x509_crt_verify_chain_search trust_ca f_ca_cb profile st)
    as [[ret vc | sr] | f] eqn:Hsearch; try discriminate.
  apply x509_crt_verify_chain_search_done_inv in Hsearch
    as (vc0 & c & next & child & r & child_sig & Hadd & Hchild & Hframe
        & Huntrusted & Hsig & Hitems & Hlen & Hserial & Hself & Hfind
        & Hflags).
  apply x509_crt_verify_chain_link_next_inv in Hbody
    as (parent_c & pn & s & parent_pk & flags & Hp & Hs & Hpk & Hchild'
        & Hparent' & Htrusted' & Hself' & Hlen' & Hitems' & Hflags').
  pose proof (x509_crt_find_parent_found _ _ _ _ _ _ _ _ Hparent Hfind)
    as Hfound.
  rewrite Hp in Hfound. destruct Hfound as (Hsuf & Hsuit & Hsigeq).
  pose proof (verify_chain_add_returns _ _ _ Hadd) as (_ & Hlen0 & _).
  split; [right; exact Hparent' |]. split.
  - intros Hzero. exfalso. lia.
  - intros Hclear Hup'.
    rewrite Hitems, Hlen in Hitems'. rewrite Hlen in Hlen'.
    destruct (chain_flags_clear_step m flags (vs_chain st) vc0 (vs_chain st')
                (vs_child_crt st) Hadd Hlen' Hitems' Hclear)
      as [Hclear0 Hfl].
    apply Hup; [exact Hclear0 |]. rewrite Huntrusted, Hchild.
    destruct (Hflags' m Hfl) as (Hsr & Hgood & Hkey & Hcrl).
    destruct (Hflags m Hsr) as [Htime Halg].
    replace (Z.of_nat (len vc0) - 1) with (Z.of_nat (len (vs_chain st)))
      in Hsuit by lia.
    assert (Hlink : link_checked ca_crl profile m
                      (to_uint32 (Z.of_nat (len (vs_chain st))))
                      (vs_self_cnt st) (c :: next) (parent_c :: pn)
                      (fp_parent_is_trusted (sr_found sr))).
    { unfold find_parent_in_suitable in Hsuit.
      destruct (crt_frame parent_c) as [parent |] eqn:Hpf; [| discriminate].
      apply andb_true_iff in Hsuit. destruct Hsuit as [Hsuit _].
      apply andb_true_iff in Hsuit. destruct Hsuit as [Hmatch Hpathlen].
      unfold find_parent_in_parent_match in Hmatch. apply Z.eqb_eq in Hmatch.
      rewrite Hs in Hsigeq. injection Hsigeq as Hsigeq.
      rewrite (Hgood Hnt) in Hsigeq. symmetry in Hsigeq.
      apply Z.eqb_eq in Hsigeq. rewrite Hserial in Hcrl.
      exact (link_checked_intro ca_crl profile m _ _ c next child r child_sig
               parent_c pn parent parent_pk _ Hframe Hsig Hpf Hpk Hmatch
               Hpathlen Hsigeq Htime Halg Hkey Hcrl). }
    rewrite Htrusted' in Hup'.
    destruct (fp_parent_is_trusted (sr_found sr)) eqn:Htop.
    + destruct Hup' as (c' & n' & f' & Hc' & Hf' & Ht').
      rewrite Hchild' in Hc'. injection Hc' as <- <-.
      exact (chain_checked_root trust_ca ca_crl f_ca_cb profile m _ _
               (c :: next) parent_c pn f' Hsuf Hlink Hf' Ht').
    + rewrite Hchild', Hself', Hlen', Hlen, Hself, Hlen0 in Hup'.
      apply (chain_checked_step trust_ca ca_crl f_ca_cb profile m _ _
               (c :: next) (parent_c :: pn) Hsuf Hlink).
      exact Hup'.
Qed.

(** A pass that returns 0 with no flag of a set that holds
    BADCERT_NOT_TRUSTED set in the chain ends a checked chain. *)
Lemma verify_chain_explained_return `{X509Core} `{Config} `{PkMd}
    (crt trust_ca : crt_ptr) (ca_crl : list mbedtls_x509_crl)
    (f_ca_cb : option mbedtls_x509_crt_ca_cb_t)
    (profile : mbedtls_x509_crt_profile) (m : Z)
    (st : verify_chain_state) (vc : mbedtls_x509_crt_verify_chain) :
  flag_in m MBEDTLS_X509_BADCERT_NOT_TRUSTED ->
  verify_chain_explained crt trust_ca ca_crl f_ca_cb profile m st ->
  x509_crt_verify_chain_body trust_ca ca_crl f_ca_cb profile st
  = Returns (StepReturn 0 vc) ->
  chain_flags_clear m vc ->
  ee_locally_trusted trust_ca profile m crt
  \/ chain_checked trust_ca ca_crl f_ca_cb profile m 0 0 crt.
Proof.
  intros Hnt (Hparent & Hfirst & Hup) Hbody Hclear.
  unfold x509_crt_verify_chain_body in Hbody.
  destruct (x509_crt_verify_chain_search trust_ca f_ca_cb profile st)
    as [[ret vc1 | sr] | f] eqn:Hsearch; try discriminate.
  - injection Hbody as -> ->.
    apply x509_crt_verify_chain_search_return_inv in Hsearch
      as (vc0 & c & next & child & flags & Hadd & Hchild & Hframe & Hlen
          & Hitems & Hflags).
    destruct (chain_flags_clear_step m flags (vs_chain st) vc0 vc
                (vs_child_crt st) Hadd Hlen Hitems Hclear) as [Hclear0 Hfl].
    destruct (Hflags m Hfl) as [Htime [Htrusted | Hlocal]].
    + apply Hup; [exact Hclear0 |]. rewrite Htrusted.
      exists c, next, child. repeat split; try assumption; apply Htime.
    + destruct Hlocal as (Hone & Hself & Htr & Halg).
      apply verify_chain_add_returns in Hadd as (_ & Hlen0 & _).
      destruct Hfirst as [Hcrt _]; [lia |].
      left. exists c, next, child. rewrite <- Hcrt.
      split; [exact Hchild |]. split; [exact Hframe |].
      split; [exact Hself |]. split; [exact Htr |].
      split; [exact Htime | exact Halg].
  - apply x509_crt_verify_chain_search_done_inv in Hsearch
      as (vc0 & c & next & child & r & child_sig & Hadd & Hchild & Hframe
          & Huntrusted & Hsig & Hitems & Hlen & Hserial & Hself & Hfind
          & Hflags).
    apply x509_crt_verify_chain_link_return_inv in Hbody
      as (Hp & Hlen' & Hitems').
    rewrite Hitems, Hlen in Hitems'. rewrite Hlen in Hlen'.
    destruct (chain_flags_clear_step m _ (vs_chain st) vc0 vc
                (vs_child_crt st) Hadd Hlen' Hitems' Hclear) as [_ Hfl].
    apply flags_lor_clear in Hfl as [_ Hfl].
    exfalso. apply Hnt. rewrite Z.land_comm. exact Hfl.
Qed.

Lemma verify_chain_explained_loop `{X509Core} `{Config} `{PkMd}
    (crt trust_ca : crt_ptr) (ca_crl : list mbedtls_x509_crl)
    (f_ca_cb : option mbedtls_x509_crt_ca_cb_t)
    (profile : mbedtls_x509_crt_profile) (m : Z) (budget : nat)
    (st : verify_chain_state) (vc : mbedtls_x509_crt_verify_chain) :
  flag_in m MBEDTLS_X509_BADCERT_NOT_TRUSTED ->
  verify_chain_explained crt trust_ca ca_crl f_ca_cb profile m st ->
  x509_crt_verify_chain_loop budget trust_ca ca_crl f_ca_cb profile st
  = Returns (0, vc) ->
  chain_flags_clear m vc ->
  ee_locally_trusted trust_ca profile m crt
  \/ chain_checked trust_ca ca_crl f_ca_cb profile m 0 0 crt.
Proof.
  intros Hnt. revert st.
  induction budget as [| budget IH]; intros st Hinv Hloop Hclear;
    [discriminate |].
  simpl in Hloop.
  destruct (x509_crt_verify_chain_body trust_ca ca_crl f_ca_cb profile st)
    as [[ret vc1 | st'] | f] eqn:Hbody; try discriminate.
  - injection Hloop as -> ->.
    exact (verify_chain_explained_return _ _ _ _ _ _ _ _ Hnt Hinv Hbody
             Hclear).
  - apply (IH st'); try assumption.
    exact (verify_chain_explained_next _ _ _ _ _ _ _ _ Hnt Hinv Hbody).
Qed.

(** When [x509_crt_verify_chain] returns 0 on a chain that was reset, and
    no item of the chain has a flag of a set that holds
    BADCERT_NOT_TRUSTED, the certificate handed in is a locally trusted end
    entity or the start of a checked chain. *)
Lemma x509_crt_verify_chain_explained `{X509Core} `{Config} `{PkMd}
    (crt trust_ca : crt_ptr) (ca_crl : list mbedtls_x509_crl)
    (f_ca_cb : option mbedtls_x509_crt_ca_cb_t)
    (profile : mbedtls_x509_crt_profile) (m : Z)
    (vc : mbedtls_x509_crt_verify_chain) :
  flag_in m MBEDTLS_X509_BADCERT_NOT_TRUSTED ->
  x509_crt_verify_chain crt trust_ca ca_crl f_ca_cb profile
    x509_crt_verify_chain_reset = Returns (0, vc) ->
  chain_flags_clear m vc ->
  ee_locally_trusted trust_ca profile m crt
  \/ chain_checked trust_ca ca_crl f_ca_cb profile m 0 0 crt.
Proof.
  intros Hnt Hrun Hclear. unfold x509_crt_verify_chain in Hrun.
  eapply verify_chain_explained_loop; [exact Hnt | | exact Hrun | exact Hclear].
  split; [left; reflexivity |]. split; [intros _; split; reflexivity |].
  intros _ Hchain. right. exact Hchain.
Qed.

(** ** The flag word of a call *)

Lemma or_range_clear (g : nat -> Z) (lo n : nat) (m : Z) :
  Z.land (or_range g lo n) m = 0 ->
  forall j, (j < n)%nat -> Z.land (g (lo + j)%nat) m = 0.
Proof.
  induction n as [| n IH]; intros Hclear j Hj; [lia |].
  simpl in Hclear. apply flags_lor_clear in Hclear as [Hg Hrest].
  destruct (Nat.eq_dec j n) as [-> | Hne]; [exact Hg |].
  apply IH; [exact Hrest | lia].
Qed.

(** The host-name check leaves no flag, or BADCERT_CN_MISMATCH. *)
Lemma x509_crt_verify_name_flags `{X509Core} `{Asn1Parse}
    (crt : mbedtls_x509_crt) (cn : list Z) :
  snd (x509_crt_verify_name crt cn 0) = 0
  \/ snd (x509_crt_verify_name crt cn 0) = MBEDTLS_X509_BADCERT_CN_MISMATCH.
Proof.
  unfold x509_crt_verify_name.
  destruct (crt_frame crt); [| left; reflexivity].
  match goal with |- context [if ?r =? 1 then _ else _] => set (ret := r) end.
  destruct (ret =? 1); [left; reflexivity | right; reflexivity].
Qed.

(** What the flag word of a call without a verdict callback that returns 0
    or CERT_VERIFY_FAILED is made of: the flags of the items of the chain
    that [x509_crt_verify_chain] has built and the flags found for the end
    entity. *)
Lemma x509_crt_verify_flags_items `{X509Core} `{Asn1Parse} `{Config} `{PkMd}
    (crt trust_ca : crt_ptr) (ca_crl : list mbedtls_x509_crl)
    (f_ca_cb : option mbedtls_x509_crt_ca_cb_t)
    (profile : mbedtls_x509_crt_profile) (cn : option (list Z))
    (ret flags : Z) :
  x509_crt_verify_restartable_ca_cb crt trust_ca ca_crl f_ca_cb (Some profile)
    cn None = Returns (ret, flags) ->
  ret = 0 \/ ret = MBEDTLS_ERR_X509_CERT_VERIFY_FAILED ->
  exists ee rest pk vc,
    crt = ee :: rest
    /\ crt_pk ee = Some pk
    /\ x509_crt_verify_chain crt trust_ca ca_crl f_ca_cb profile
         x509_crt_verify_chain_reset = Returns (0, vc)
    /\ (ret = 0 <-> flags = 0)
    /\ forall m, Z.land flags m = 0 ->
         chain_flags_clear m vc
         /\ (flag_in m MBEDTLS_X509_BADCERT_BAD_PK ->
             x509_profile_check_pk_alg profile (pk_get_type pk) = 0)
         /\ (flag_in m MBEDTLS_X509_BADCERT_BAD_KEY ->
             x509_profile_check_key profile pk = 0)
         /\ (forall name, cn = Some name ->
               flag_in m MBEDTLS_X509_BADCERT_CN_MISMATCH ->
               x509_crt_verify_name ee name 0 = (0, 0)).
Proof.
  unfold x509_crt_verify_restartable_ca_cb. intros Hrun Hret.
  destruct crt as [| ee rest]; [discriminate |].
  remember (match cn with
            | Some cn0 => x509_crt_verify_name ee cn0 0
            | None => (0, 0)
            end) as nm eqn:Hnm.
  destruct nm as [ret0 ee0].
  destruct (Z.eqb_spec ret0 0) as [-> | Hne]; simpl in Hrun.
  2: { injection Hrun as <- <-. exfalso.
       destruct cn as [name |].
       - destruct (x509_crt_verify_name_ret ee name 0) as [Hz | Hf];
           rewrite <- Hnm in *; simpl in *; [contradiction |].
         subst ret0. destruct Hret; discriminate.
       - injection Hnm as -> _. contradiction. }
  destruct (crt_pk ee) as [pk |] eqn:Hpk.
  2: { injection Hrun as <- <-. destruct Hret; discriminate. }
  destruct (x509_crt_verify_chain (ee :: rest) trust_ca ca_crl f_ca_cb profile
              x509_crt_verify_chain_reset) as [[ret1 vc] | f] eqn:Hchain;
    [| discriminate].
  destruct (Z.eqb_spec ret1 0) as [-> | Hne1]; simpl in Hrun.
  2: { apply Returns_inj in Hrun.
       apply x509_crt_verify_exit_cases in Hrun
         as [(Hz & _) | [(Hz & _) | (_ & Hr0 & Hrv & _)]];
         [contradiction | contradiction | destruct Hret; contradiction]. }
  destruct (items vc !! 0%nat) as [it0 |] eqn:Hit0; [| discriminate].
  assert (Hbounds : (0 < len vc <= length (items vc))%nat).
  { pose proof (x509_crt_verify_chain_loop_bounded trust_ca ca_crl f_ca_cb
                  profile
                  (S (length (items x509_crt_verify_chain_reset)
                      - len x509_crt_verify_chain_reset))
                  _ (verify_chain_inv_reset (ee :: rest))
                  (Nat.lt_succ_diag_r _)) as Hb.
    unfold x509_crt_verify_chain in Hchain.
    cbn [vs_chain] in Hb. rewrite Hchain in Hb.
    destruct Hb as [Hl Hs]. cbn [len x509_crt_verify_chain_reset] in Hl.
    lia. }
  set (ee_flags :=
         if negb (x509_profile_check_key profile pk =? 0)
         then Z.lor (if negb (x509_profile_check_pk_alg profile
                                (pk_get_type pk) =? 0)
                     then Z.lor ee0 MBEDTLS_X509_BADCERT_BAD_PK else ee0)
                    MBEDTLS_X509_BADCERT_BAD_KEY
         else if negb (x509_profile_check_pk_alg profile (pk_get_type pk)
                       =? 0)
              then Z.lor ee0 MBEDTLS_X509_BADCERT_BAD_PK else ee0) in Hrun.
  set (vc' := verify_chain_set_flags vc 0 (Z.lor (item_flags it0) ee_flags))
    in Hrun.
  unfold x509_crt_merge_flags_with_cb in Hrun.
  rewrite x509_crt_merge_flags_with_cb_from_pass in Hrun.
  2: { subst vc'. simpl. rewrite length_alter. lia. }
  2: { intros j _. unfold merge_item_verdict.
       destruct (items vc' !! j); reflexivity. }
  apply Returns_inj in Hrun. rewrite Z.lor_0_l in Hrun.
  exists ee, rest, pk, vc.
  split; [reflexivity |]. split; [exact Hpk |]. split; [reflexivity |].
  assert (Hflags : flags
                   = or_range (fun j => snd (merge_item_verdict None vc' j))
                       0 (len vc')
                   /\ (ret = 0 <-> flags = 0)).
  { apply x509_crt_verify_exit_cases in Hrun
      as [(_ & Hf0 & -> & ->) | [(_ & Hf0 & -> & ->) | (Habs & _)]].
    - split; [symmetry; exact Hf0 | tauto].
    - split; [reflexivity |]. split; [discriminate | contradiction].
    - contradiction Habs. reflexivity. }
  destruct Hflags as [Hflags Hiff]. split; [exact Hiff |].
  intros m Hclear. rewrite Hflags in Hclear.
  pose proof (or_range_clear _ _ _ _ Hclear) as Hitem.
  assert (Hee : Z.land (item_flags it0) m = 0 /\ Z.land ee_flags m = 0).
  { specialize (Hitem 0%nat ltac:(subst vc'; simpl; lia)).
    unfold merge_item_verdict in Hitem. subst vc'. simpl in Hitem.
    rewrite list_lookup_alter_eq, Hit0 in Hitem. simpl in Hitem.
    apply flags_lor_clear. exact Hitem. }
  destruct Hee as [Hit0clear Hee].
  split.
  - intros i it Hi Hlook.
    destruct i as [| i].
    + rewrite Hit0 in Hlook. injection Hlook as <-. exact Hit0clear.
    + specialize (Hitem (S i) ltac:(subst vc'; simpl; lia)).
      unfold merge_item_verdict in Hitem. subst vc'. simpl in Hitem.
      rewrite list_lookup_alter_ne in Hitem by lia.
      change (items vc !! S i) with (items vc !! (S i)) in Hlook.
      simpl in Hlook. rewrite Hlook in Hitem. exact Hitem.
  - subst ee_flags.
    apply flags_if_lor_clear in Hee as [Hee Hkey].
    apply flags_if_lor_clear in Hee as [Hee0 Hpkalg].
    split; [| split].
    + intros Hin. apply Hpkalg in Hin. apply negb_false_iff in Hin.
      apply Z.eqb_eq. exact Hin.
    + intros Hin. apply Hkey in Hin. apply negb_false_iff in Hin.
      apply Z.eqb_eq. exact Hin.
    + intros name -> Hin.
      destruct (x509_crt_verify_name_flags ee name) as [Hz | Hmis];
        rewrite <- Hnm in *; simpl in *.
      * subst ee0. reflexivity.
      * exfalso. apply Hin. subst ee0. rewrite Z.land_comm. exact Hee0.
Qed.



(** X11.  What such a call says about the end entity: when it returns 0 or
    CERT_VERIFY_FAILED and sets no flag of a set [m], the key of the end
    entity was at hand and, where [m] holds the flag, its type
    (BADCERT_BAD_PK) and the key itself (BADCERT_BAD_KEY) are acceptable to
    the profile, and the host name asked for has matched
    (BADCERT_CN_MISMATCH).  It returns 0 exactly when the flag word is 0:
    a call that returns 0 has passed these checks. *)
Theorem x509_crt_verify_flags_end_entity (X : X509Core) (A : Asn1Parse)
    (C : Config) (P : PkMd) (crt trust_ca : crt_ptr)
    (ca_crl : list mbedtls_x509_crl)
    (f_ca_cb : option mbedtls_x509_crt_ca_cb_t)
    (profile : mbedtls_x509_crt_profile) (cn : option (list Z))
    (ret flags : Z) :
  x509_crt_verify_restartable_ca_cb crt trust_ca ca_crl f_ca_cb (Some profile)
    cn None = Returns (ret, flags) ->
  ret = 0 \/ ret = MBEDTLS_ERR_X509_CERT_VERIFY_FAILED ->
  (ret = 0 <-> flags = 0)
  /\ exists ee rest pk,
       crt = ee :: rest /\ crt_pk ee = Some pk
       /\ forall m, Z.land flags m = 0 ->
            (flag_in m MBEDTLS_X509_BADCERT_BAD_PK ->
             x509_profile_check_pk_alg profile (pk_get_type pk) = 0)
            /\ (flag_in m MBEDTLS_X509_BADCERT_BAD_KEY ->
                x509_profile_check_key profile pk = 0)
            /\ (forall name, cn = Some name ->
                  flag_in m MBEDTLS_X509_BADCERT_CN_MISMATCH ->
                  x509_crt_verify_name ee name 0 = (0, 0)).
Proof.
  intros Hrun Hret.
  destruct (x509_crt_verify_flags_items _ _ _ _ _ _ _ _ Hrun Hret)
    as (ee & rest & pk & vc & Hcrt & Hpk & Hchain & Hzero & Hitems).
  split; [exact Hzero |].
  exists ee, rest, pk. split; [exact Hcrt |]. split; [exact Hpk |].
  intros m Hclear. destruct (Hitems m Hclear) as (_ & Halg & Hkey & Hname).
  split; [exact Halg |]. split; [exact Hkey | exact Hname].
Qed.

Lemma x509_crt_verify_flags_end_entity_witness :
  exists ee rest pk,
    [Samples.san_crt] = ee :: rest /\ crt_pk ee = Some pk
    /\ forall m,
         Z.land (Z.lor MBEDTLS_X509_BADCERT_CN_MISMATCH
                   MBEDTLS_X509_BADCERT_NOT_TRUSTED) m = 0 ->
         (flag_in m MBEDTLS_X509_BADCERT_BAD_PK ->
          x509_profile_check_pk_alg mbedtls_x509_crt_profile_default
            (pk_get_type pk) = 0)
         /\ (flag_in m MBEDTLS_X509_BADCERT_BAD_KEY ->
             x509_profile_check_key mbedtls_x509_crt_profile_default pk = 0)
         /\ (forall name, Some (bytes_of_string "example.com") = Some name ->
               flag_in m MBEDTLS_X509_BADCERT_CN_MISMATCH ->
               x509_crt_verify_name (H := Reference.x509core)
                 (H0 := Reference.asn1parse) ee name 0 = (0, 0)).
Proof.
  apply (proj2 (x509_crt_verify_flags_end_entity Reference.x509core
                  Reference.asn1parse Reference.config Reference.pkmd
                  [Samples.san_crt] [] [] None
                  mbedtls_x509_crt_profile_default
                  (Some (bytes_of_string "example.com"))
                  MBEDTLS_ERR_X509_CERT_VERIFY_FAILED
                  (Z.lor MBEDTLS_X509_BADCERT_CN_MISMATCH
                     MBEDTLS_X509_BADCERT_NOT_TRUSTED)
                  ltac:(vm_compute; reflexivity) (or_intror eq_refl))).
Defined.

Lemma chain_checked_no_trust `{X509Core} `{Config} `{PkMd}
    (ca_crl : list mbedtls_x509_crl) (profile : mbedtls_x509_crt_profile)
    (m : Z) (n : nat) (self_cnt : Z) (crt : crt_ptr) :
  ~ chain_checked [] ca_crl None profile m n self_cnt crt.
Proof.
  intros Hchain.
  induction Hchain as [n self_cnt child_crt parent_c pn parent Hsuf | ];
    [| assumption].
  simpl in Hsuf. apply suffix_nil_inv in Hsuf. discriminate Hsuf.
Qed.

(** X12.  Without trusted certificates (an empty trusted list and no CA
    callback) a call without a verdict callback never returns 0: when it
    comes to a verdict at all, it returns CERT_VERIFY_FAILED with
    BADCERT_NOT_TRUSTED among the flags. *)
Theorem x509_crt_verify_no_trust_anchor (X : X509Core) (A : Asn1Parse)
    (C : Config) (P : PkMd) (crt : crt_ptr) (ca_crl : list mbedtls_x509_crl)
    (profile : mbedtls_x509_crt_profile) (cn : option (list Z))
    (ret flags : Z) :
  x509_crt_verify_restartable_ca_cb crt [] ca_crl None (Some profile) cn None
  = Returns (ret, flags) ->
  ret <> 0
  /\ (ret = MBEDTLS_ERR_X509_CERT_VERIFY_FAILED ->
      Z.land flags MBEDTLS_X509_BADCERT_NOT_TRUSTED <> 0).
Proof.
  intros Hrun.
  assert (Hset : ret = 0 \/ ret = MBEDTLS_ERR_X509_CERT_VERIFY_FAILED ->
                 Z.land flags MBEDTLS_X509_BADCERT_NOT_TRUSTED <> 0).
  { intros Hret Hclear.
    destruct (x509_crt_verify_flags_items _ _ _ _ _ _ _ _ Hrun Hret)
      as (ee & rest & pk & vc & Hcrt & Hpk & Hchain & Hzero & Hitems).
    destruct (Hitems _ Hclear) as [Hchainclear _].
    assert (Hnt : flag_in MBEDTLS_X509_BADCERT_NOT_TRUSTED
                    MBEDTLS_X509_BADCERT_NOT_TRUSTED) by discriminate.
    destruct (x509_crt_verify_chain_explained _ _ _ _ _ _ _ Hnt Hchain
                Hchainclear) as [Hlocal | Hchecked].
    - destruct Hlocal as (c & next & child & _ & _ & _ & Htrusted & _).
      discriminate Htrusted.
    - exact (chain_checked_no_trust _ _ _ _ _ _ Hchecked). }
  split.
  - intros Hz. apply Hset; [left; exact Hz |].
    destruct (x509_crt_verify_flags_items _ _ _ _ _ _ _ _ Hrun
                (or_introl Hz)) as (_ & _ & _ & _ & _ & _ & _ & Hzero & _).
    apply Hzero in Hz. rewrite Hz. reflexivity.
  - intros Hf. apply Hset. right. exact Hf.
Qed.

Lemma x509_crt_verify_no_trust_anchor_witness :
  MBEDTLS_ERR_X509_CERT_VERIFY_FAILED <> 0
  /\ (MBEDTLS_ERR_X509_CERT_VERIFY_FAILED = MBEDTLS_ERR_X509_CERT_VERIFY_FAILED ->
      Z.land MBEDTLS_X509_BADCERT_NOT_TRUSTED MBEDTLS_X509_BADCERT_NOT_TRUSTED
      <> 0).
Proof.
  apply (x509_crt_verify_no_trust_anchor Reference.x509core
           Reference.asn1parse Reference.config Reference.pkmd
           Samples.full_chain [] mbedtls_x509_crt_profile_default None
           MBEDTLS_ERR_X509_CERT_VERIFY_FAILED
           MBEDTLS_X509_BADCERT_NOT_TRUSTED).
  vm_compute. reflexivity.
Defined.

(** ** The KeyUsage decoder *)

Lemma testbit_byte_out (b k : Z) :
  0 <= b < 256 -> k < 0 \/ 8 <= k -> Z.testbit b k = false.
Proof.
  intros Hb [Hneg | Hhigh]; [apply Z.testbit_neg_r; exact Hneg |].
  destruct (Z.eq_dec b 0) as [-> | Hnz]; [apply Z.bits_0 |].
  apply Z.bits_above_log2; [lia |].
  apply Z.lt_le_trans with 8; [| exact Hhigh].
  apply Z.log2_lt_pow2; lia.
Qed.

Lemma key_usage_byte_shift (b s : Z) :
  0 <= b < 256 -> 0 <= s <= 24 ->
  to_uint32 (Z.shiftl b s) = Z.shiftl b s.
Proof.
  intros Hb Hs. apply to_uint32_in_range.
  rewrite Z.shiftl_mul_pow2 by lia. split; [nia |].
  apply Z.lt_le_trans with (256 * 2 ^ s).
  - apply Z.mul_lt_mono_pos_r; lia.
  - change (2 ^ 32) with (256 * 2 ^ 24).
    apply Z.mul_le_mono_nonneg_l; [lia |].
    apply Z.pow_le_mono_r; lia.
Qed.

(** Bit [k] of byte [i] of the packed word: byte [i'] shifted to its place
    has it when [i'] is [i], and not otherwise. *)
Lemma key_usage_byte_bit (b : Z) (i' : nat) (k : Z) :
  0 <= b < 256 -> (i' < 4)%nat -> 0 <= k ->
  Z.testbit (to_uint32 (Z.shiftl b (8 * Z.of_nat i'))) k
  = Z.testbit b (k - 8 * Z.of_nat i').
Proof.
  intros Hb Hi Hk.
  rewrite key_usage_byte_shift by lia.
  apply Z.shiftl_spec. exact Hk.
Qed.

(** The packed word after the loop, by the number of bytes. *)
Lemma x509_get_key_usage_from_bits (bs : mbedtls_x509_bitstring) (k : Z) :
  (forall i, (i < bs_len bs)%nat -> 0 <= nth i (bs_p bs) 0 < 256) ->
  0 <= k ->
  Z.testbit (x509_get_key_usage_from 4 bs 0 0) k
  = ((0 <? bs_len bs)%nat && Z.testbit (nth 0 (bs_p bs) 0) k)
    || ((1 <? bs_len bs)%nat && Z.testbit (nth 1 (bs_p bs) 0) (k - 8))
    || ((2 <? bs_len bs)%nat && Z.testbit (nth 2 (bs_p bs) 0) (k - 16))
    || ((3 <? bs_len bs)%nat && Z.testbit (nth 3 (bs_p bs) 0) (k - 24)).
Proof.
  intros Hbytes Hk.
  assert (Hbit : forall i' : nat, (i' < bs_len bs)%nat -> (i' < 4)%nat ->
            Z.testbit (to_uint32 (Z.shiftl (nth i' (bs_p bs) 0)
                                    (8 * Z.of_nat i'))) k
            = Z.testbit (nth i' (bs_p bs) 0) (k - 8 * Z.of_nat i')).
  { intros i' Hi Hi4. apply key_usage_byte_bit; auto. }
  cbn [x509_get_key_usage_from].
  destruct (Nat.ltb_spec 0 (bs_len bs)) as [H0 | H0];
    destruct (Nat.ltb_spec 1 (bs_len bs)) as [H1 | H1];
    destruct (Nat.ltb_spec 2 (bs_len bs)) as [H2 | H2];
    destruct (Nat.ltb_spec 3 (bs_len bs)) as [H3 | H3];
    try lia; cbn [andb orb Nat.ltb Nat.leb];
    rewrite ?Z.lor_spec, ?Z.bits_0, ?(Hbit 0%nat), ?(Hbit 1%nat),
      ?(Hbit 2%nat), ?(Hbit 3%nat) by lia;
    replace (k - 8 * Z.of_nat 0) with k by lia;
    replace (k - 8 * Z.of_nat 1) with (k - 8) by lia;
    replace (k - 8 * Z.of_nat 2) with (k - 16) by lia;
    replace (k - 8 * Z.of_nat 3) with (k - 24) by lia;
    cbn [orb]; rewrite ?orb_false_r; reflexivity.
Qed.

(** X13.  [x509_get_key_usage] on a BIT STRING that the reader has
    accepted: without a byte it returns INVALID_LENGTH and leaves the
    output as it was; otherwise it returns 0 and packs the first bytes, at
    most sizeof( unsigned int ) = 4 of them, little-endian: bit [j] of byte
    [i] is bit [8 i + j] of the key usage, and the bits above those bytes
    are 0 (further bytes are ignored).  A failure of the reader is
    returned as it is, the output left alone. *)
Theorem x509_get_key_usage_bits (B : Asn1Bitstring) (p : list Z) (ku0 : Z) :
  (rd_ret (mbedtls_asn1_get_bitstring p) <> 0 ->
   fr_ret (x509_get_key_usage p ku0) = rd_ret (mbedtls_asn1_get_bitstring p)
   /\ fr_out (x509_get_key_usage p ku0) = ku0)
  /\ forall bs : mbedtls_x509_bitstring,
       rd_ret (mbedtls_asn1_get_bitstring p) = 0 ->
       rd_out (mbedtls_asn1_get_bitstring p) = Some bs ->
       (forall i, (i < bs_len bs)%nat -> 0 <= nth i (bs_p bs) 0 < 256) ->
       (bs_len bs = 0%nat ->
        fr_ret (x509_get_key_usage p ku0) = MBEDTLS_ERR_ASN1_INVALID_LENGTH
        /\ fr_out (x509_get_key_usage p ku0) = ku0)
       /\ ((1 <= bs_len bs)%nat ->
           fr_ret (x509_get_key_usage p ku0) = 0
           /\ (forall (i : nat) (j : Z),
                 (i < bs_len bs)%nat -> (i < 4)%nat -> 0 <= j < 8 ->
                 Z.testbit (fr_out (x509_get_key_usage p ku0))
                   (8 * Z.of_nat i + j)
                 = Z.testbit (nth i (bs_p bs) 0) j)
           /\ (forall k : Z,
                 8 * Z.of_nat (Nat.min (bs_len bs) 4) <= k ->
                 Z.testbit (fr_out (x509_get_key_usage p ku0)) k = false)).
Proof.
  unfold x509_get_key_usage. split.
  - intros Hret. apply Z.eqb_neq in Hret. rewrite Hret. split; reflexivity.
  - intros bs Hret Hout Hbytes. rewrite Hret, Hout. cbn [negb Z.eqb written].
    split.
    + intros Hlen. rewrite Hlen. split; reflexivity.
    + intros Hlen.
      destruct (Nat.ltb_spec (bs_len bs) 1) as [Hlt | _]; [lia |].
      cbn [fr_ret fr_out]. split; [reflexivity |].
      assert (Hout_byte : forall (n : nat) (k : Z),
                (n < bs_len bs)%nat -> k < 0 \/ 8 <= k ->
                Z.testbit (nth n (bs_p bs) 0) k = false).
      { intros n k Hn Hk. apply testbit_byte_out; [apply Hbytes; exact Hn |].
        exact Hk. }
      split.
      * intros i j Hi Hi4 Hj.
        rewrite x509_get_key_usage_from_bits by (auto; lia).
        destruct (Nat.ltb_spec 0 (bs_len bs)) as [H0 | H0];
          destruct (Nat.ltb_spec 1 (bs_len bs)) as [H1 | H1];
          destruct (Nat.ltb_spec 2 (bs_len bs)) as [H2 | H2];
          destruct (Nat.ltb_spec 3 (bs_len bs)) as [H3 | H3];
          try lia; cbn [andb orb];
          destruct i as [| [| [| [| i]]]]; try lia;
          cbn [Z.of_nat Pos.of_succ_nat Pos.succ Z.mul Pos.mul Pos.add];
          repeat match goal with
          | |- context [Z.testbit (nth ?n (bs_p bs) 0) ?k'] =>
            rewrite (Hout_byte n k') by lia
          end;
          cbn [orb]; rewrite ?orb_false_r; f_equal; lia.
      * intros k Hk.
        assert (Hk0 : 0 <= k) by lia.
        rewrite x509_get_key_usage_from_bits by (auto; lia).
        destruct (Nat.ltb_spec 0 (bs_len bs)) as [H0 | H0];
          destruct (Nat.ltb_spec 1 (bs_len bs)) as [H1 | H1];
          destruct (Nat.ltb_spec 2 (bs_len bs)) as [H2 | H2];
          destruct (Nat.ltb_spec 3 (bs_len bs)) as [H3 | H3];
          try lia; cbn [andb orb];
          repeat match goal with
          | |- context [Z.testbit (nth ?n (bs_p bs) 0) ?k'] =>
            rewrite (Hout_byte n k') by lia
          end;
          reflexivity.
Qed.

Lemma x509_get_key_usage_bits_witness :
  fr_ret (x509_get_key_usage (H := ReferenceBits.asn1bitstring)
            ReferenceBits.ku_cert_crl_sign 0) = 0
  /\ Z.testbit (fr_out (x509_get_key_usage (H := ReferenceBits.asn1bitstring)
                          ReferenceBits.ku_cert_crl_sign 0))
       (8 * Z.of_nat 0 + 2)
     = Z.testbit 6 2.
Proof.
  destruct (proj2 (x509_get_key_usage_bits ReferenceBits.asn1bitstring
                     ReferenceBits.ku_cert_crl_sign 0)
              {| bs_len := 1; bs_unused_bits := 1; bs_p := [6] |}
              eq_refl eq_refl) as [_ Hbits].
  - intros [| i] Hi; [simpl; lia | simpl in Hi; lia].
  - destruct (Hbits ltac:(simpl; lia)) as (Hret & Hbit & _).
    split; [exact Hret |].
    apply (Hbit 0%nat 2); simpl; lia.
Defined.

(** ** Extended key usage *)

Lemma x509_crt_check_ext_key_usage_cb_values (usage_oid : list Z) (tag : Z)
    (data : list Z) :
  (x509_crt_check_ext_key_usage_cb usage_oid tag data = 1
   /\ (data = MBEDTLS_OID_ANY_EXTENDED_KEY_USAGE \/ data = usage_oid))
  \/ (x509_crt_check_ext_key_usage_cb usage_oid tag data = 0
      /\ data <> MBEDTLS_OID_ANY_EXTENDED_KEY_USAGE /\ data <> usage_oid).
Proof.
  unfold x509_crt_check_ext_key_usage_cb.
  destruct (bytes_eqb MBEDTLS_OID_ANY_EXTENDED_KEY_USAGE data) eqn:Hany.
  - apply bytes_eqb_eq in Hany. left. split; [reflexivity | left; auto].
  - destruct ((length data =? length usage_oid)%nat
              && bytes_eqb data usage_oid) eqn:Husage.
    + apply andb_true_iff in Husage. destruct Husage as [_ Heq].
      apply bytes_eqb_eq in Heq. left. split; [reflexivity | right; exact Heq].
    + right. split; [reflexivity |]. split.
      * intros ->. rewrite bytes_eqb_refl in Hany. discriminate Hany.
      * intros ->. rewrite Nat.eqb_refl, bytes_eqb_refl in Husage.
        discriminate Husage.
Qed.

Lemma first_nonzero_ext_key_usage (usage_oid : list Z) (oids : list (list Z)) :
  (first_nonzero (map (x509_crt_check_ext_key_usage_cb usage_oid
                         MBEDTLS_ASN1_OID) oids) = 1
   /\ (In MBEDTLS_OID_ANY_EXTENDED_KEY_USAGE oids \/ In usage_oid oids))
  \/ (first_nonzero (map (x509_crt_check_ext_key_usage_cb usage_oid
                            MBEDTLS_ASN1_OID) oids) = 0
      /\ ~ In MBEDTLS_OID_ANY_EXTENDED_KEY_USAGE oids /\ ~ In usage_oid oids).
Proof.
  induction oids as [| data rest IH]; simpl.
  - right. split; [reflexivity |]. split; intros [].
  - destruct (x509_crt_check_ext_key_usage_cb_values usage_oid
                MBEDTLS_ASN1_OID data)
      as [[-> [Hd | Hd]] | (-> & Hany & Husage)]; simpl.
    + left. split; [reflexivity |]. left. left. exact Hd.
    + left. split; [reflexivity |]. right. left. exact Hd.
    + destruct IH as [[-> [Hin | Hin]] | (-> & Hnany & Hnusage)].
      * left. split; [reflexivity |]. left. right. exact Hin.
      * left. split; [reflexivity |]. right. right. exact Hin.
      * right. split; [reflexivity |].
        split; intros [Heq | Hin]; auto.
Qed.

(** X14.  [mbedtls_x509_crt_check_extended_key_usage]: without the frame
    it answers FATAL_ERROR; for a certificate without the ExtendedKeyUsage
    extension it answers 0 whatever the usage asked for; with the
    extension it answers 0 or BAD_INPUT_DATA, and when the traversal hands
    the OIDs [oids] of the extension to its callback one after the other
    and returns the first answer that is not 0, it answers 0 exactly when
    the usage asked for, or anyExtendedKeyUsage, is one of them. *)
Theorem mbedtls_x509_crt_check_extended_key_usage_correct (A : Asn1Parse)
    (frame : mbedtls_x509_crt_ext_frame) (usage_oid : list Z) :
  mbedtls_x509_crt_check_extended_key_usage None usage_oid
  = MBEDTLS_ERR_X509_FATAL_ERROR
  /\ (Z.land (to_uint32 (ext_types (xf_frame frame)))
        MBEDTLS_X509_EXT_EXTENDED_KEY_USAGE = 0 ->
      mbedtls_x509_crt_check_extended_key_usage (Some frame) usage_oid = 0)
  /\ (mbedtls_x509_crt_check_extended_key_usage (Some frame) usage_oid = 0
      \/ mbedtls_x509_crt_check_extended_key_usage (Some frame) usage_oid
         = MBEDTLS_ERR_X509_BAD_INPUT_DATA)
  /\ (Z.land (to_uint32 (ext_types (xf_frame frame)))
        MBEDTLS_X509_EXT_EXTENDED_KEY_USAGE <> 0 ->
      forall oids : list (list Z),
        (forall cb : asn1_traverse_cb,
           mbedtls_asn1_traverse_sequence_of (ext_key_usage_raw frame)
             255 MBEDTLS_ASN1_OID 0 0 (Some cb)
           = first_nonzero (map (cb MBEDTLS_ASN1_OID) oids)) ->
        (mbedtls_x509_crt_check_extended_key_usage (Some frame) usage_oid = 0
         <-> In usage_oid oids
             \/ In MBEDTLS_OID_ANY_EXTENDED_KEY_USAGE oids)).
Proof.
  unfold mbedtls_x509_crt_check_extended_key_usage.
  split; [reflexivity |]. split; [| split].
  - intros Habsent. rewrite Habsent. reflexivity.
  - destruct (negb (Z.land (to_uint32 (ext_types (xf_frame frame)))
                      MBEDTLS_X509_EXT_EXTENDED_KEY_USAGE =? 0));
      [| left; reflexivity].
    destruct (_ =? 1); [left | right]; reflexivity.
  - intros Hpresent oids Htraverse.
    apply Z.eqb_neq in Hpresent. rewrite Hpresent. cbn [negb].
    rewrite Htraverse.
    destruct (first_nonzero_ext_key_usage usage_oid oids)
      as [[-> Hin] | (-> & Hnany & Hnusage)]; simpl.
    + split; [intros _; tauto | reflexivity].
    + split; [discriminate | intros [Hin | Hin]; contradiction].
Qed.

Lemma mbedtls_x509_crt_check_extended_key_usage_correct_witness :
  mbedtls_x509_crt_check_extended_key_usage (H := Reference.asn1parse)
    (Some eku_frame) oid_client_auth = 0
  <-> In oid_client_auth [oid_server_auth; oid_client_auth]
      \/ In MBEDTLS_OID_ANY_EXTENDED_KEY_USAGE
           [oid_server_auth; oid_client_auth].
Proof.
  apply (proj2 (proj2 (proj2
           (mbedtls_x509_crt_check_extended_key_usage_correct
              Reference.asn1parse eku_frame oid_client_auth)))).
  - vm_compute. discriminate.
  - intros cb. reflexivity.
Defined.

(** ** The extension walker *)

Lemma x509_crt_get_ext_cb_switch_ext_types `{Asn1Parse} `{Asn1Bitstring}
    (frame : mbedtls_x509_crt_ext_frame) (ext_type is_critical : Z)
    (p : list Z) :
  ext_types (xf_frame (snd (x509_crt_get_ext_cb_switch frame ext_type
                              is_critical p)))
  = ext_types (xf_frame frame).
Proof.
  unfold x509_crt_get_ext_cb_switch, x509_crt_get_ext_cb_basic_constraints.
  repeat match goal with
         | |- context [if ?c then _ else _] => destruct c
         end; reflexivity.
Qed.

(** One call of the callback: an extension without a type leaves the bits
    as they are, and one of type [t] is accepted only when no bit of [t]
    is set, which the call then sets. *)
Lemma x509_crt_get_ext_cb_ext_types `{Asn1Parse} `{Asn1Bitstring} `{OidTable}
    (frame : mbedtls_x509_crt_ext_frame) (tag : Z) (p : list Z) :
  fst (x509_crt_get_ext_cb frame tag p) = 0 ->
  match ext_type_of p with
  | None =>
    ext_types (xf_frame (snd (x509_crt_get_ext_cb frame tag p)))
    = ext_types (xf_frame frame)
  | Some t =>
    Z.land (ext_types (xf_frame frame)) t = 0
    /\ ext_types (xf_frame (snd (x509_crt_get_ext_cb frame tag p)))
       = Z.lor (ext_types (xf_frame frame)) t
  end.
Proof.
  unfold x509_crt_get_ext_cb, ext_type_of.
  destruct (x509_crt_get_ext_cb_header p) as [r | h]; [reflexivity |].
  destruct (mbedtls_oid_get_x509_ext_type (eh_extn_oid h)) as [ret out].
  destruct (negb (ret =? 0)).
  - destruct (negb (eh_is_critical h =? 0)); reflexivity.
  - destruct (Z.eqb_spec (Z.land (ext_types (xf_frame frame)) (written 0 out)) 0)
      as [Hz | Hnz]; simpl negb; cbv iota.
    + intros _. split; [exact Hz |].
      rewrite x509_crt_get_ext_cb_switch_ext_types. reflexivity.
    + simpl. discriminate.
Qed.

(** Bits that are clear in [Z.lor a t] are clear in both. *)
Lemma land_lor_clear (a t b : Z) :
  Z.land (Z.lor a t) b = 0 -> Z.land a b = 0 /\ Z.land t b = 0.
Proof.
  rewrite Z.land_lor_distr_l. intros Hz. apply Z.lor_eq_0_iff in Hz.
  exact Hz.
Qed.

(** The traversal with the callback, by induction on the extensions. *)
Lemma traverse_elements_ext_types `{Asn1Parse} `{Asn1Bitstring} `{OidTable}
    (tag : Z) (exts : list (list Z)) :
  forall frame : mbedtls_x509_crt_ext_frame,
    fst (traverse_elements x509_crt_get_ext_cb tag exts frame) = 0 ->
    let types := omap ext_type_of exts in
    ext_types (xf_frame (snd (traverse_elements x509_crt_get_ext_cb tag exts
                                frame)))
    = fold_left Z.lor types (ext_types (xf_frame frame))
    /\ (forall t, In t types -> Z.land (ext_types (xf_frame frame)) t = 0)
    /\ (forall (i j : nat) (a b : Z),
          (i < j)%nat -> types !! i = Some a -> types !! j = Some b ->
          Z.land a b = 0).
Proof.
  induction exts as [| e rest IH]; intros frame Hret.
  - simpl. split; [reflexivity |]. split.
    + intros t [].
    + intros i j a b _ Hi. destruct i; discriminate Hi.
  - simpl in Hret |- *.
    pose proof (x509_crt_get_ext_cb_ext_types frame tag e) as Hstep.
    destruct (x509_crt_get_ext_cb frame tag e) as [ret frame'] eqn:Hcb.
    simpl in Hstep.
    destruct (Z.eqb_spec ret 0) as [Hz | Hnz]; simpl negb in *; cbv iota in *.
    2: { simpl in Hret. contradiction. }
    specialize (Hstep Hz). specialize (IH frame' Hret).
    destruct IH as [IHor [IHbase IHpair]].
    destruct (ext_type_of e) as [t |].
    + destruct Hstep as [Hclear Hset]. rewrite Hset in IHor, IHbase.
      simpl. split; [exact IHor |]. split.
      * intros t' [<- | Hin]; [exact Hclear |].
        apply (land_lor_clear _ t _ (IHbase t' Hin)).
      * intros i j a b Hij Hi Hj.
        destruct j as [| j]; [lia |]. simpl in Hj.
        destruct i as [| i].
        -- simpl in Hi. injection Hi as Ha. subst t.
           apply (land_lor_clear (ext_types (xf_frame frame)) a b).
           apply IHbase. apply (proj1 (list_elem_of_In _ _)).
           apply (list_elem_of_lookup_2 _ j). exact Hj.
        -- simpl in Hi. apply (IHpair i j a b); [lia | exact Hi | exact Hj].
    + rewrite Hstep in IHor, IHbase. simpl.
      split; [exact IHor |]. split; [exact IHbase | exact IHpair].
Qed.

(** X15. When [x509_crt_frame_parse_ext] returns 0 on a frame whose
    Extensions hold the extensions [exts], no two extensions that the OID
    table gives a type share a bit of their types with each other or with
    [ext_types] as it was, and [ext_types] ends as the bits it had and
    those of all these types: a certificate that repeats an extension is
    not parsed.  The traversal is taken to answer, as the library's
    functions do, 0 or a negative error code. *)
Theorem x509_crt_frame_parse_ext_types `{Asn1Parse} `{Asn1Bitstring}
    `{OidTable} `{Asn1Walk} (frame : mbedtls_x509_crt_ext_frame)
    (exts : list (list Z)) :
  v3_ext frame <> [] ->
  (forall (S : Type) (cb : S -> Z -> list Z -> Z * S) (s : S),
     mbedtls_asn1_traverse_sequence_of_ctx S (v3_ext frame)
       255 (Z.lor MBEDTLS_ASN1_SEQUENCE MBEDTLS_ASN1_CONSTRUCTED) 0 0 cb s
     = traverse_elements cb
         (Z.lor MBEDTLS_ASN1_SEQUENCE MBEDTLS_ASN1_CONSTRUCTED) exts s) ->
  - 2 ^ 31
  <= fst (traverse_elements x509_crt_get_ext_cb
            (Z.lor MBEDTLS_ASN1_SEQUENCE MBEDTLS_ASN1_CONSTRUCTED) exts frame)
  <= 0 ->
  fst (x509_crt_frame_parse_ext frame) = 0 ->
  let types := omap ext_type_of exts in
  ext_types (xf_frame (snd (x509_crt_frame_parse_ext frame)))
  = fold_left Z.lor types (ext_types (xf_frame frame))
  /\ (forall t, In t types -> Z.land (ext_types (xf_frame frame)) t = 0)
  /\ (forall (i j : nat) (a b : Z),
        (i < j)%nat -> types !! i = Some a -> types !! j = Some b ->
        Z.land a b = 0).
Proof.
  intros Hne Hwalk. unfold x509_crt_frame_parse_ext.
  destruct (v3_ext frame) as [| b0 v] eqn:Hv; [contradiction |].
  rewrite Hwalk.
  pose proof (traverse_elements_ext_types
                (Z.lor MBEDTLS_ASN1_SEQUENCE MBEDTLS_ASN1_CONSTRUCTED)
                exts frame) as Hrun.
  destruct (traverse_elements x509_crt_get_ext_cb
              (Z.lor MBEDTLS_ASN1_SEQUENCE MBEDTLS_ASN1_CONSTRUCTED)
              exts frame) as [ret frame'].
  simpl fst. intros Hcode.
  destruct (Z.eqb_spec ret MBEDTLS_ERR_X509_FEATURE_UNAVAILABLE) as [-> | _];
    [discriminate |].
  destruct (Z.eqb_spec ret MBEDTLS_ERR_X509_INVALID_EXTENSIONS) as [-> | _];
    [discriminate |].
  destruct (Z.eqb_spec ret 0) as [-> | Hnz]; simpl negb; cbv iota.
  - intros _. apply Hrun. reflexivity.
  - simpl fst. intros Hret. exfalso.
    unfold to_int, MBEDTLS_ERR_X509_INVALID_EXTENSIONS in Hret.
    assert (Hsmall : (ret + -9472 + 2 ^ 31) mod 2 ^ 32
                     = ret + -9472 + 2 ^ 31 + 2 ^ 32
                     \/ (ret + -9472 + 2 ^ 31) mod 2 ^ 32
                        = ret + -9472 + 2 ^ 31).
    { destruct (Z_lt_le_dec (ret + -9472 + 2 ^ 31) 0) as [Hneg | Hpos].
      - left. symmetry.
        apply (Z.mod_unique_pos _ _ (-1)); lia.
      - right. apply Z.mod_small. lia. }
    destruct Hsmall as [Hm | Hm]; rewrite Hm in Hret; lia.
Qed.

Lemma x509_crt_frame_parse_ext_types_witness :
  let frame := ReferenceExt.ext_frame_ca in
  let exts := [ReferenceExt.ext_basic_constraints; ReferenceExt.ext_key_usage] in
  let types :=
    omap (ext_type_of (H := Reference.asn1parse)
            (H0 := ReferenceExt.oidtable)) exts in
  types = [MBEDTLS_X509_EXT_BASIC_CONSTRAINTS; MBEDTLS_X509_EXT_KEY_USAGE]
  /\ ext_types
       (xf_frame
          (snd (x509_crt_frame_parse_ext (H := Reference.asn1parse)
                  (H0 := ReferenceBits.asn1bitstring)
                  (H1 := ReferenceExt.oidtable)
                  (H2 := ReferenceExt.asn1walk) frame)))
     = fold_left Z.lor types (ext_types (xf_frame frame))
  /\ (forall t, In t types -> Z.land (ext_types (xf_frame frame)) t = 0)
  /\ (forall (i j : nat) (a b : Z),
        (i < j)%nat -> types !! i = Some a -> types !! j = Some b ->
        Z.land a b = 0).
Proof.
  intros frame exts types. split; [reflexivity |].
  apply (x509_crt_frame_parse_ext_types (H := Reference.asn1parse)
           (H0 := ReferenceBits.asn1bitstring)
           (H1 := ReferenceExt.oidtable)
           (H2 := ReferenceExt.asn1walk) frame exts).
  - discriminate.
  - intros S cb s. reflexivity.
  - vm_compute. split; discriminate.
  - reflexivity.
Defined.

(** The traversal of two runs of elements, one after the other. *)
Lemma traverse_elements_app {S : Type} (cb : S -> Z -> list Z -> Z * S)
    (tag : Z) (pre rest : list (list Z)) :
  forall s : S,
    fst (traverse_elements cb tag pre s) = 0 ->
    traverse_elements cb tag (pre ++ rest) s
    = traverse_elements cb tag rest (snd (traverse_elements cb tag pre s)).
Proof.
  induction pre as [| e pre IH]; intros s Hpre; [reflexivity |].
  simpl in Hpre |- *.
  destruct (cb s tag e) as [ret s'].
  destruct (Z.eqb_spec ret 0) as [Hz | Hnz]; simpl negb in *; cbv iota in *.
  - apply IH. exact Hpre.
  - simpl in Hpre. contradiction.
Qed.

(** X16. A critical extension whose OID the OID table does not know,
    reached after extensions that were all accepted, ends
    [x509_crt_frame_parse_ext] with
    MBEDTLS_ERR_X509_INVALID_EXTENSIONS + MBEDTLS_ERR_ASN1_UNEXPECTED_TAG,
    and the frame is left as the extensions before it made it. *)
Theorem x509_crt_frame_parse_ext_unknown_critical `{Asn1Parse}
    `{Asn1Bitstring} `{OidTable} `{Asn1Walk}
    (frame : mbedtls_x509_crt_ext_frame) (pre post : list (list Z))
    (ext : list Z) (h : ext_header) :
  v3_ext frame <> [] ->
  (forall (S : Type) (cb : S -> Z -> list Z -> Z * S) (s : S),
     mbedtls_asn1_traverse_sequence_of_ctx S (v3_ext frame)
       255 (Z.lor MBEDTLS_ASN1_SEQUENCE MBEDTLS_ASN1_CONSTRUCTED) 0 0 cb s
     = traverse_elements cb
         (Z.lor MBEDTLS_ASN1_SEQUENCE MBEDTLS_ASN1_CONSTRUCTED)
         (pre ++ ext :: post) s) ->
  fst (traverse_elements x509_crt_get_ext_cb
         (Z.lor MBEDTLS_ASN1_SEQUENCE MBEDTLS_ASN1_CONSTRUCTED) pre frame)
  = 0 ->
  x509_crt_get_ext_cb_header ext = inr h ->
  fst (mbedtls_oid_get_x509_ext_type (eh_extn_oid h)) <> 0 ->
  eh_is_critical h <> 0 ->
  x509_crt_frame_parse_ext frame
  = (MBEDTLS_ERR_X509_INVALID_EXTENSIONS + MBEDTLS_ERR_ASN1_UNEXPECTED_TAG,
     snd (traverse_elements x509_crt_get_ext_cb
            (Z.lor MBEDTLS_ASN1_SEQUENCE MBEDTLS_ASN1_CONSTRUCTED)
            pre frame)).
Proof.
  intros Hne Hwalk Hpre Hhdr Hoid Hcrit. unfold x509_crt_frame_parse_ext.
  destruct (v3_ext frame) as [| b0 v] eqn:Hv; [contradiction |].
  rewrite Hwalk, (traverse_elements_app _ _ _ _ _ Hpre).
  set (frame' := snd (traverse_elements x509_crt_get_ext_cb _ pre frame)).
  cbn [traverse_elements]. unfold x509_crt_get_ext_cb at 1. rewrite Hhdr.
  destruct (mbedtls_oid_get_x509_ext_type (eh_extn_oid h)) as [ret out].
  simpl in Hoid.
  destruct (Z.eqb_spec ret 0) as [Hz | _]; [contradiction |].
  destruct (Z.eqb_spec (eh_is_critical h) 0) as [Hz | _]; [contradiction |].
  reflexivity.
Qed.

Lemma x509_crt_frame_parse_ext_unknown_critical_witness :
  x509_crt_frame_parse_ext (H := Reference.asn1parse)
    (H0 := ReferenceBits.asn1bitstring) (H1 := ReferenceExt.oidtable)
    (H2 := ReferenceExt.asn1walk) ReferenceExt.ext_frame_unknown
  = (-9570,
     snd (traverse_elements
            (x509_crt_get_ext_cb (H := Reference.asn1parse)
               (H0 := ReferenceBits.asn1bitstring)
               (H1 := ReferenceExt.oidtable))
            (Z.lor MBEDTLS_ASN1_SEQUENCE MBEDTLS_ASN1_CONSTRUCTED)
            [ReferenceExt.ext_basic_constraints]
            ReferenceExt.ext_frame_unknown)).
Proof.
  apply (x509_crt_frame_parse_ext_unknown_critical (H := Reference.asn1parse)
           (H0 := ReferenceBits.asn1bitstring) (H1 := ReferenceExt.oidtable)
           (H2 := ReferenceExt.asn1walk) ReferenceExt.ext_frame_unknown
           [ReferenceExt.ext_basic_constraints] []
           ReferenceExt.ext_unknown_critical
           {| eh_extn_oid := [85; 29; 99]; eh_is_critical := 1;
              eh_value := [5; 0] |}).
  - discriminate.
  - intros S cb s. reflexivity.
  - reflexivity.
  - reflexivity.
  - simpl. discriminate.
  - simpl. discriminate.
Defined.
